(** * Big Calendar: event lines in daily notes

    A shallow embedding of the event-line code of the plugin:
    the delete/restore ledger ([deleteEvent]: [restoreDeletedEvent],
    [sendEventToDelete], [createDeleteEventInFile],
    [deleteEventFromDailyNote]) and the edit flow ([changeEvent]:
    [cleanEvent], [formatEventLine], [formatAllDayEvent],
    [findEventLine]).

    JavaScript strings are sequences of UTF-16 code units, and every string
    primitive the code uses ([includes], [startsWith], [slice], [replace],
    [trim], [split], regular expressions without the [u] flag) works on code
    units.  A string is therefore a [list N]; [js] turns a literal written
    in this file (UTF-8) into its code units. *)

From stdpp Require Import base option list strings gmap.
From Stdlib Require Import NArith ZArith Lia.

Open Scope N_scope.

(* ===================================================================== *)
(** * Part I: the model *)
(* ===================================================================== *)

(** ** JavaScript strings *)

Abbreviation jschar := N (only parsing).
Abbreviation jsstring := (list N) (only parsing).

Fixpoint bytes (s : string) : list N :=
  match s with
  | EmptyString => []
  | String a s' => Ascii.N_of_ascii a :: bytes s'
  end.

(** One code point as UTF-16: a unit, or a surrogate pair above the BMP. *)
Definition utf16 (cp : N) : jsstring :=
  if cp <? 65536 then [cp]
  else [55296 + (cp - 65536) / 1024; 56320 + (cp - 65536) mod 1024].

(** UTF-8 bytes to UTF-16 code units (literals of this file are well formed). *)
Fixpoint utf8_to_utf16 (bs : list N) : jsstring :=
  match bs with
  | [] => []
  | b0 :: r0 =>
    if b0 <? 128 then b0 :: utf8_to_utf16 r0
    else match r0 with
    | [] => [b0]
    | b1 :: r1 =>
      if b0 <? 224 then
        utf16 ((b0 mod 32) * 64 + b1 mod 64) ++ utf8_to_utf16 r1
      else match r1 with
      | [] => [b0; b1]
      | b2 :: r2 =>
        if b0 <? 240 then
          utf16 ((b0 mod 16) * 4096 + (b1 mod 64) * 64 + b2 mod 64)
            ++ utf8_to_utf16 r2
        else match r2 with
        | [] => [b0; b1; b2]
        | b3 :: r3 =>
          utf16 ((b0 mod 8) * 262144 + (b1 mod 64) * 4096
                 + (b2 mod 64) * 64 + b3 mod 64)
            ++ utf8_to_utf16 r3
        end
      end
    end
  end.

Definition js (s : string) : jsstring := utf8_to_utf16 (bytes s).
Arguments js : simpl never.

(** Character classes of the regular expressions. *)

(** [\d]: ASCII digits only. *)
Definition is_digit (c : jschar) : bool := (48 <=? c) && (c <=? 57).

(** [[a-zA-Z0-9]] *)
Definition is_alnum (c : jschar) : bool :=
  ((97 <=? c) && (c <=? 122)) || ((65 <=? c) && (c <=? 90)) || is_digit c.

(** [\s], and what [trim] removes: WhiteSpace and LineTerminator. *)
Definition is_space (c : jschar) : bool :=
  ((9 <=? c) && (c <=? 13)) || (c =? 32) || (c =? 160) || (c =? 5760)
  || ((8192 <=? c) && (c <=? 8202)) || (c =? 8232) || (c =? 8233)
  || (c =? 8239) || (c =? 8287) || (c =? 12288) || (c =? 65279).

(** What [.] does not match: LF, CR, LS, PS. *)
Definition is_line_terminator (c : jschar) : bool :=
  (c =? 10) || (c =? 13) || (c =? 8232) || (c =? 8233).

(** [s.startsWith(p)] *)
Fixpoint startsWith (s p : jsstring) {struct p} : bool :=
  match p, s with
  | [], _ => true
  | _ :: _, [] => false
  | a :: p', b :: s' => (a =? b) && startsWith s' p'
  end.

(** [s.includes(sub)] *)
Fixpoint includes (s sub : jsstring) : bool :=
  startsWith s sub ||
  match s with
  | [] => false
  | _ :: s' => includes s' sub
  end.

(** [s.slice(a, b)] and [s.slice(a)] for [0 <= a <= b]. *)
Definition slice (s : jsstring) (a b : nat) : jsstring := take (b - a) (drop a s).
Definition sliceFrom (s : jsstring) (a : nat) : jsstring := drop a s.

(** [s.replace(pat, '')] with a string pattern: the first occurrence of
    [pat] is removed ([''] holds no [$] pattern, so the replacement is
    literal); a string without [pat] is returned as it is. *)
Fixpoint removeFirst (s pat : jsstring) : jsstring :=
  if startsWith s pat then drop (length pat) s
  else match s with
       | [] => []
       | c :: s' => c :: removeFirst s' pat
       end.

Fixpoint trimStart (s : jsstring) : jsstring :=
  match s with
  | c :: s' => if is_space c then trimStart s' else s
  | [] => []
  end.

Definition trimEnd (s : jsstring) : jsstring := reverse (trimStart (reverse s)).

(** [s.trim()] *)
Definition trim (s : jsstring) : jsstring := trimEnd (trimStart s).

(** [s.split('\n')]: never empty, [''] gives [['']]. *)
Fixpoint split_lf (s : jsstring) : list jsstring :=
  match s with
  | [] => [[]]
  | c :: s' =>
    if c =? 10 then [] :: split_lf s'
    else match split_lf s' with
         | l :: ls => (c :: l) :: ls
         | [] => [[c]]
         end
  end.

(** [lines.join('\n')] *)
Fixpoint join_lf (ls : list jsstring) : jsstring :=
  match ls with
  | [] => []
  | [l] => l
  | l :: ls' => l ++ 10 :: join_lf ls'
  end.

(** ['\n'] *)
Definition LF : jsstring := [10].

(** Truthiness of a string: [''] is falsy. *)
Definition truthy (s : jsstring) : bool :=
  match s with [] => false | _ => true end.

(** ** Numbers and their decimal text *)

Definition digit_value (c : jschar) : N := c - 48.

(** Value of a run of decimal digits, most significant first. *)
Definition decimal_value (ds : jsstring) : N :=
  fold_left (fun acc d => acc * 10 + digit_value d) ds 0.

Definition is_hex_digit (c : jschar) : bool :=
  is_digit c || ((97 <=? c) && (c <=? 102)) || ((65 <=? c) && (c <=? 70)).

Definition hex_digit_value (c : jschar) : N :=
  if is_digit c then c - 48 else if 97 <=? c then c - 87 else c - 55.

Definition hex_value (ds : jsstring) : N :=
  fold_left (fun acc d => acc * 16 + hex_digit_value d) ds 0.

Fixpoint takeWhile (p : jschar -> bool) (s : jsstring) : jsstring :=
  match s with
  | c :: s' => if p c then c :: takeWhile p s' else []
  | [] => []
  end.

(** [parseInt(s)] without a radix: leading white space is skipped, a sign
    is read, [0x]/[0X] selects radix 16, and the longest run of digits is
    the value; no digit gives [NaN], here [None].  Values are exact
    integers: the rounding of doubles above 2^53 is not modelled, and an
    index compared with the result never gets that far. *)
Definition parseInt (s : jsstring) : option Z :=
  let s := trimStart s in
  let '(neg, s) :=
    match s with
    | 45 :: r => (true, r)
    | 43 :: r => (false, r)
    | _ => (false, s)
    end in
  let mag :=
    match s with
    | 48 :: x :: r =>
      if (x =? 120) || (x =? 88) then
        match takeWhile is_hex_digit r with
        | [] => None
        | ds => Some (hex_value ds)
        end
      else Some (decimal_value (takeWhile is_digit s))
    | _ =>
      match takeWhile is_digit s with
      | [] => None
      | ds => Some (decimal_value ds)
      end
    end in
  match mag with
  | Some m => Some (if neg then (- Z.of_N m)%Z else Z.of_N m)
  | None => None
  end.

(** Decimal text of a natural number, as [String(n)] and string
    concatenation with a number give it.  [fuel] bounds the digits. *)
Fixpoint decimal_digits (fuel : nat) (n : N) (acc : jsstring) : jsstring :=
  match fuel with
  | O => acc
  | S f =>
    let acc' := (48 + n mod 10) :: acc in
    if n <? 10 then acc' else decimal_digits f (n / 10) acc'
  end.

Definition numberToString (n : N) : jsstring :=
  decimal_digits (S (N.to_nat (N.log2 n))) n [].

(** moment's [zeroFill(n, width)] for [n >= 0]. *)
Definition zeroFill (width : nat) (n : N) : jsstring :=
  let s := numberToString n in
  replicate (width - length s) 48 ++ s.

(** ** Moments

    A valid [moment] in local time, by its calendar fields; [month] counts
    from 1 as [format('MM')] prints it.  Years are four-digit years of the
    common era; an invalid moment formats as ['Invalid date']. *)

Record moment := Moment {
  year : N; month : N; day : N; hour : N; minute : N; second : N
}.

Inductive jsmoment :=
| Valid (m : moment)
| InvalidDate.

Definition formatWith (f : moment -> jsstring) (d : jsmoment) : jsstring :=
  match d with
  | Valid m => f m
  | InvalidDate => js "Invalid date"
  end.

(** [m.format('HH')], [m.format('mm')], [m.format('HH:mm')] *)
Definition format_HH (m : moment) : jsstring := zeroFill 2 (hour m).
Definition format_mm (m : moment) : jsstring := zeroFill 2 (minute m).
Definition format_HHmm (m : moment) : jsstring :=
  format_HH m ++ js ":" ++ format_mm m.

(** [m.format('YYYY-MM-DD')] *)
Definition format_YYYY_MM_DD (m : moment) : jsstring :=
  zeroFill 4 (year m) ++ js "-" ++ zeroFill 2 (month m) ++ js "-"
    ++ zeroFill 2 (day m).

(** [m.format('YYYYMMDDHHmmss')] *)
Definition format_YYYYMMDDHHmmss (m : moment) : jsstring :=
  zeroFill 4 (year m) ++ zeroFill 2 (month m) ++ zeroFill 2 (day m)
    ++ zeroFill 2 (hour m) ++ zeroFill 2 (minute m) ++ zeroFill 2 (second m).

(** [m.format('YYYYMMDDHHmm')] *)
Definition format_YYYYMMDDHHmm (m : moment) : jsstring :=
  zeroFill 4 (year m) ++ zeroFill 2 (month m) ++ zeroFill 2 (day m)
    ++ zeroFill 2 (hour m) ++ zeroFill 2 (minute m).

(** [m.format('YYYY/MM/DD HH:mm:ss')] *)
Definition format_slashed (m : moment) : jsstring :=
  zeroFill 4 (year m) ++ js "/" ++ zeroFill 2 (month m) ++ js "/"
    ++ zeroFill 2 (day m) ++ js " " ++ zeroFill 2 (hour m) ++ js ":"
    ++ zeroFill 2 (minute m) ++ js ":" ++ zeroFill 2 (second m).

(** [a.isSame(b, 'day')]: the same local calendar day. *)
Definition isSameDay (a b : moment) : bool :=
  (year a =? year b) && (month a =? month b) && (day a =? day b).

Definition leap_year (y : N) : bool :=
  ((y mod 4 =? 0) && negb (y mod 100 =? 0)) || (y mod 400 =? 0).

Definition daysInMonth (y m : N) : N :=
  if m =? 2 then (if leap_year y then 29 else 28)
  else if (m =? 4) || (m =? 6) || (m =? 9) || (m =? 11) then 30 else 31.

Definition valid_moment (m : moment) : bool :=
  (year m <=? 9999) && (1 <=? month m) && (month m <=? 12)
  && (1 <=? day m) && (day m <=? daysInMonth (year m) (month m))
  && (hour m <? 24) && (minute m <? 60) && (second m <? 60).

(** *** [moment(id, 'YYYYMMDDHHmmss')]

    The parse of moment without the strict flag.  The format is the six
    tokens [YYYY MM DD HH mm ss]; each in turn takes the first run of digits
    in what is left of the text ([string.match(/\d{1,4}/)] for [YYYY],
    [/\d\d?/] for the others), skipping what stands before it, and a token
    that finds no digit is left unused.  A year of exactly two digits is
    read by [parseTwoDigitYear]; a month that was not parsed is January, a
    day the first, a time field zero.  The moment is invalid when nothing
    was parsed or a field overflows; [24:00:00] is no overflow and gives
    the next day at 00:00.  The locale is taken to write numbers with the
    digits 0 to 9, and the local time zone to have the time that was read
    on that day. *)

(** The digits that a token takes where it matches: at most [width]. *)
Fixpoint takeDigits (width : nat) (s : jsstring) : jsstring :=
  match width, s with
  | S w, c :: r => if is_digit c then c :: takeDigits w r else []
  | _, _ => []
  end.

(** [parsedInput = string.match(regex)[0]] and
    [string.slice(string.indexOf(parsedInput) + parsedInput.length)];
    nothing when the text holds no digit. *)
Fixpoint parseToken (width : nat) (s : jsstring) : option (jsstring * jsstring) :=
  match s with
  | [] => None
  | c :: r =>
    if is_digit c then
      let parsedInput := takeDigits width s in
      Some (parsedInput, drop (length parsedInput) s)
    else parseToken width r
  end.

(** [hooks.parseTwoDigitYear] *)
Definition parseTwoDigitYear (input : jsstring) : N :=
  decimal_value input + (if 68 <? decimal_value input then 1900 else 2000).

(** The value of a two-digit token and what is left, or the value of the
    field when the token is unused. *)
Definition tokenOr (unused : N) (s : jsstring) : N * jsstring :=
  match parseToken 2 s with
  | Some (parsedInput, rest) => (decimal_value parsedInput, rest)
  | None => (unused, s)
  end.

(** The day after a day: what [new Date(y, m, d, 24, 0, 0)] rolls over to. *)
Definition nextDay (y m d : N) : N * N * N :=
  if d <? daysInMonth y m then (y, m, d + 1)
  else if m <? 12 then (y, m + 1, 1)
  else (y + 1, 1, 1).

(** [checkOverflow]: no field of [config._a] is out of its range. *)
Definition noOverflow (y mo d h mi sec : N) : bool :=
  (1 <=? mo) && (mo <=? 12)
  && (1 <=? d) && (d <=? daysInMonth y mo)
  && ((h <? 24) || ((h =? 24) && (mi =? 0) && (sec =? 0)))
  && (mi <=? 59) && (sec <=? 59).

(** [undefined] and [null] give an invalid moment ([undefined] is parsed as
    the text ['undefined'], which holds no digit).  For a year below 100
    [createDate] builds the date 400 years later and sets the year back, so
    the year stays when 24:00:00 rolls over the end of the year. *)
Definition momentFromId (id : option jsstring) : jsmoment :=
  match id with
  | None => InvalidDate
  | Some string =>
    match parseToken 4 string with
    | None => InvalidDate
    | Some (yearInput, string) =>
      let y := if (length yearInput =? 2)%nat then parseTwoDigitYear yearInput
               else decimal_value yearInput in
      let '(mo, string) := tokenOr 1 string in
      let '(d, string) := tokenOr 1 string in
      let '(h, string) := tokenOr 0 string in
      let '(mi, string) := tokenOr 0 string in
      let '(sec, string) := tokenOr 0 string in
      if noOverflow y mo d h mi sec then
        if h =? 24 then
          let '(y', mo', d') := nextDay y mo d in
          Valid (Moment (if y <? 100 then y else y') mo' d' 0 0 0)
        else Valid (Moment y mo d h mi sec)
      else InvalidDate
    end
  end.

(** ** Lines of a daily note *)

(** Modelled from the spec: [getAllLinesFromFile] of [../api] is not among
    the sources; a document is "an ordered sequence of text lines" of
    "plain line-oriented text", written back with [join('\n')]. *)
Definition getAllLinesFromFile (cache : jsstring) : list jsstring := split_lf cache.

(** [line.match(/^- /)] and [line.startsWith('- ')]: a record-start line. *)
Definition recordStart (line : jsstring) : bool := startsWith line (js "- ").

Fixpoint dropHashes (s : jsstring) : jsstring :=
  match s with
  | c :: s' => if c =? 35 then dropHashes s' else s
  | [] => []
  end.

(** [line.match(/^#{1,} /)]: one or more [#], then a space.  The run of
    [#] is taken whole: a space is not a [#], so giving one back never
    helps. *)
Definition headingStart (line : jsstring) : bool :=
  match line with
  | c :: r => (c =? 35) && startsWith (dropHashes r) (js " ")
  | [] => false
  end.

(** [fileLines[i]] for a number [i]: [undefined] outside the array. *)
Definition lineAt (fileLines : list jsstring) (i : Z) : option jsstring :=
  if (i <? 0)%Z then None else fileLines !! Z.to_nat i.

(** ** The vault and the effects of an operation

    [vault.read], [vault.modify] and [vault.create] act on files named by
    their path; [metadataCache.getFirstLinkpathDest('', path)] is taken as
    the file at [path], or [null].  An operation either returns or throws
    an [Error] with a message, and leaves a vault behind. *)

Abbreviation vault := (gmap (list N) (list N)) (only parsing).

Inductive outcome (A : Type) :=
| Returned (a : A)
| Thrown (message : jsstring).
Arguments Returned {A} a.
Arguments Thrown {A} message.

Definition io (A : Type) : Type := vault -> outcome A * vault.

Definition io_ret {A} (a : A) : io A := fun v => (Returned a, v).

Definition io_bind {A B} (m : io A) (k : A -> io B) : io B :=
  fun v =>
    match m v with
    | (Returned a, v') => k a v'
    | (Thrown e, v') => (Thrown e, v')
    end.

Definition throw {A} (message : jsstring) : io A := fun v => (Thrown message, v).

Declare Scope io_scope.
Delimit Scope io_scope with io.
Notation "'let*' x ':=' m 'in' k" := (io_bind m (fun x => k))
  (at level 10, x name, m at level 100, k at level 200) : io_scope.
Notation "m ';;' k" := (io_bind m (fun _ => k))
  (at level 100, k at level 200, right associativity) : io_scope.

Definition getFirstLinkpathDest (path : jsstring) : io (option jsstring) :=
  fun v => (Returned (match v !! path with Some _ => Some path | None => None end), v).

Definition vault_read (file : jsstring) : io jsstring :=
  fun v => (Returned (default [] (v !! file)), v).

Definition vault_modify (file content : jsstring) : io unit :=
  fun v => (Returned tt, <[file := content]> v).

(** [vault.create(path, data)] rejects when the path is taken. *)
Definition vault_create (path data : jsstring) : io jsstring :=
  fun v =>
    match v !! path with
    | Some _ => (Thrown (js "File already exists."), v)
    | None => (Returned path, <[path := data]> v)
    end.

(** ** Collaborators outside the sources

    What the two modules import and the sources at hand do not hold is a
    parameter of the model.  [safeExecute] of [../api] runs the callback it
    is given; the operations below are these callbacks. *)

Record api := Api {
  (** [getMarkBasedOnEvent] of [./parser]: the marker of an event type, or [null] *)
  getMarkBasedOnEvent : jsstring -> option jsstring;
  (** [extractEventTime] of [../api]: hour and minute of a line, or nothing *)
  extractEventTime : jsstring -> option (N * N);
  (** [createTimeRegex().test] of [../api] *)
  timeRegexTest : jsstring -> bool;
  (** [originalStartDate.clone().set({hour, minute}).format('YYYYMMDDHHmm')] *)
  setTimeAndFormat : moment -> N -> N -> jsstring;
  (** [extractDeletedEventId], [extractDeletedEvent] of [../utils/regexGenerators] *)
  extractDeletedEventId : jsstring -> option jsstring;
  extractDeletedEvent : jsstring -> option jsstring;
  (** [insertAfterHandler(...).content] of [./createEvent] *)
  insertAfterHandler : jsstring -> jsstring -> jsstring -> jsstring;
  (** [getDailyNotePath()] *)
  getDailyNotePath : jsstring;
  (** [normalizePath] of obsidian *)
  normalizePath : jsstring -> jsstring;
  (** the path of the daily note of a day, where [getDailyNote] looks it up
      and [createDailyNote] creates it, and what a new note holds *)
  dailyNotePathOf : jsmoment -> jsstring;
  dailyNoteTemplate : jsmoment -> jsstring
}.

(** ** deleteEvent *)

Section DeleteEvent.
Context (E : api).
Open Scope io_scope.

(** [`${x}`] for a value that may be [undefined] *)
Definition templateOf (x : option jsstring) : jsstring :=
  match x with
  | Some s => s
  | None => js "undefined"
  end.

(** [/^- (.+)$/.test(line)]: ["- "], then one or more characters up to the
    end of the text, none of them a line terminator.  [undefined] is tested
    as the text ['undefined']. *)
Definition isDeletedRecordLine (line : option jsstring) : bool :=
  let s := templateOf line in
  startsWith s (js "- ")
  && (1 <=? length (drop 2 s))%nat
  && forallb (fun c => negb (is_line_terminator c)) (drop 2 s).

(** [/\d{14,}/.test(id)]: fourteen digits in a row somewhere in the text. *)
Fixpoint hasFourteenDigits (id : jsstring) : bool :=
  (14 <=? length (takeWhile is_digit id))%nat ||
  match id with
  | [] => false
  | _ :: id' => hasFourteenDigits id'
  end.

(** [fileContents.replace(line, '')], where an [undefined] pattern is the
    text ['undefined']. *)
Definition replaceLine (fileContents : jsstring) (line : option jsstring) : jsstring :=
  removeFirst fileContents (templateOf line).

Definition getDailyNote (date : jsmoment) : io (option jsstring) :=
  getFirstLinkpathDest (dailyNotePathOf E date).

Definition createDailyNote (date : jsmoment) : io jsstring :=
  vault_create (dailyNotePathOf E date) (dailyNoteTemplate E date).

(** The result of [restoreDeletedEvent]: [[]] or [[{deletedAt: ''}]]. *)
Inductive restored :=
| NothingRestored
| RestoredOne.

Definition restoreDeletedEvent (deletedEventid : jsstring) : io restored :=
  if negb (hasFourteenDigits deletedEventid) then
    throw (js "Invalid event ID format")
  else
    let filePath := getDailyNotePath E in
    let absolutePath := filePath ++ js "/delete.md" in
    let* deleteFile := getFirstLinkpathDest absolutePath in
    match deleteFile with
    | None => throw (js "Delete file not found")
    | Some deleteFile =>
      let* fileContents := vault_read deleteFile in
      let fileLines := getAllLinesFromFile fileContents in
      if (length fileLines =? 0)%nat then io_ret NothingRestored
      else
        let lineNum := parseInt (sliceFrom deletedEventid 14) in
        let line := match lineNum with
                    | Some n => lineAt fileLines (n - 1)
                    | None => None
                    end in
        let newDeletefileContents := replaceLine fileContents line in
        vault_modify deleteFile newDeletefileContents ;;
        if negb (isDeletedRecordLine line) then io_ret NothingRestored
        else
          let id := extractDeletedEventId E (templateOf line) in
          let date := momentFromId id in
          let timeHour := formatWith format_HH date in
          let timeMinute := formatWith format_mm date in
          let newEvent :=
            js "- " ++ timeHour ++ js ":" ++ timeMinute ++ js " "
              ++ templateOf (extractDeletedEvent E (templateOf line)) in
          let* existingFile := getDailyNote date in
          match existingFile with
          | None =>
            let* file := createDailyNote date in
            let* fileContents := vault_read file in
            let newFileContent := insertAfterHandler E (js "- ") newEvent fileContents in
            vault_modify file newFileContent
          | Some existingFile =>
            let* fileContents := vault_read existingFile in
            let newFileContent := insertAfterHandler E (js "- ") newEvent fileContents in
            vault_modify existingFile newFileContent
          end ;;
          io_ret RestoredOne
    end.

Definition createDeleteEventInFile (file fileContent event deleteDate : jsstring)
  : io bool :=
  let newContent :=
    if negb (truthy fileContent) then event ++ js " deletedAt: " ++ deleteDate
    else fileContent ++ LF ++ event ++ js " deletedAt: " ++ deleteDate in
  vault_modify file newContent ;;
  io_ret true.

Definition createdeleteFile (path : jsstring) : io jsstring :=
  vault_create path [].

(** The line number [sendEventToDelete] puts into the id of the entry. *)
Definition nextLineNum (fileLines : list jsstring) : N :=
  match fileLines with
  | [[]] => 1
  | _ => N.of_nat (length fileLines) + 1
  end.

(** [date] is the reading of [moment()] when the operation runs. *)
Definition sendEventToDelete (date : moment) (event : jsstring) : io jsstring :=
  let filePath := getDailyNotePath E in
  let absolutePath := filePath ++ js "/delete.md" in
  let* deleteFile := getFirstLinkpathDest absolutePath in
  let deleteDate := format_slashed date in
  match deleteFile with
  | Some deleteFile =>
    let* fileContents := vault_read deleteFile in
    let fileLines := getAllLinesFromFile fileContents in
    let lineNum := nextLineNum fileLines in
    let deleteDateID := format_YYYYMMDDHHmmss date ++ numberToString lineNum in
    createDeleteEventInFile deleteFile fileContents event deleteDateID ;;
    io_ret deleteDate
  | None =>
    let deleteFilePath := normalizePath E absolutePath in
    let* file := createdeleteFile deleteFilePath in
    let lineNum := 1 in
    let deleteDateID := format_YYYYMMDDHHmmss date ++ numberToString lineNum in
    createDeleteEventInFile file [] event deleteDateID ;;
    io_ret deleteDate
  end.

End DeleteEvent.

(** *** deleteEventFromDailyNote *)

(** [/^\d{14,}$/.test(eventId)] *)
Definition validEventId (eventId : jsstring) : bool :=
  forallb is_digit eventId && (14 <=? length eventId)%nat.

(** The search loops: [targetLineIndex] is [-1] until a line passes the
    test, and the loop breaks at the first line that does.

    [for (i ...) { if (test(fileLines[i])) { targetLineIndex = i; break; } }] *)
Fixpoint firstLineWhere (test : jsstring -> bool) (lines : list jsstring) (i : Z) : Z :=
  match lines with
  | [] => (-1)%Z
  | line :: rest => if test line then i else firstLineWhere test rest (i + 1)%Z
  end.

(** The loop of the third method: [eventCount] counts the record-start
    lines passed so far; [lineIndex] is [NaN] when the id has no suffix. *)
Fixpoint lineOfEventCount (lineIndex : option Z) (lines : list jsstring)
    (i eventCount : Z) : Z :=
  match lines with
  | [] => (-1)%Z
  | line :: rest =>
    if recordStart line then
      if match lineIndex with Some n => (eventCount =? n)%Z | None => false end
      then i
      else lineOfEventCount lineIndex rest (i + 1)%Z (eventCount + 1)%Z
    else lineOfEventCount lineIndex rest (i + 1)%Z eventCount
  end.

(** The time pattern of the second method, [`${hour}:${minute}`]. *)
Definition timePatternOf (eventId : jsstring) : jsstring :=
  let timeStr := slice eventId 8 12 in
  let hour := slice timeStr 0 2 in
  let minute := slice timeStr 2 4 in
  hour ++ js ":" ++ minute.

(** Method 1, by title: skipped when no title is given (or an empty one). *)
Definition matchByTitle (fileLines : list jsstring) (eventTitle : option jsstring) : Z :=
  match eventTitle with
  | Some title =>
    if truthy title then
      firstLineWhere (fun line => recordStart line && includes line title) fileLines 0
    else (-1)%Z
  | None => (-1)%Z
  end.

(** Method 2, by the time in the id. *)
Definition matchByTime (fileLines : list jsstring) (eventId : jsstring) : Z :=
  let timePattern := timePatternOf eventId in
  firstLineWhere (fun line => recordStart line && includes line timePattern) fileLines 0.

(** Method 3, by the index in the id. *)
Definition matchByIndex (fileLines : list jsstring) (eventId : jsstring) : Z :=
  let lineIndex := parseInt (sliceFrom eventId 14) in
  lineOfEventCount lineIndex fileLines 0 0.

(** The search for the target line (the three methods in sequence). *)
Definition resolveTargetLine (fileLines : list jsstring) (eventId : jsstring)
    (eventTitle : option jsstring) : Z :=
  let targetLineIndex := (-1)%Z in
  let targetLineIndex := matchByTitle fileLines eventTitle in
  let targetLineIndex :=
    if (targetLineIndex =? -1)%Z then matchByTime fileLines eventId
    else targetLineIndex in
  let targetLineIndex :=
    if (targetLineIndex =? -1)%Z then matchByIndex fileLines eventId
    else targetLineIndex in
  targetLineIndex.

(** The [while] loop over the lines after the target: [Some endIndex] when
    it breaks at the next event or at a heading, [None] when it runs off the
    end ([foundNextEvent] stays false).  [rest] holds the lines from
    [currentIndex] on. *)
Fixpoint scanToNextEvent (rest : list jsstring) (currentIndex : Z) : option Z :=
  match rest with
  | [] => None
  | currentLine :: rest' =>
    if recordStart currentLine then Some (currentIndex - 1)%Z
    else if headingStart currentLine then Some (currentIndex - 1)%Z
    else scanToNextEvent rest' (currentIndex + 1)%Z
  end.

(** The bounds of the event that starts at [targetLineIndex]. *)
Definition findRecordBoundaries (fileLines : list jsstring) (targetLineIndex : Z)
  : Z * Z :=
  let startIndex := targetLineIndex in
  let currentIndex := (targetLineIndex + 1)%Z in
  let endIndex :=
    match scanToNextEvent (drop (Z.to_nat currentIndex) fileLines) currentIndex with
    | Some endIndex => endIndex
    | None => (Z.of_nat (length fileLines) - 1)%Z
    end in
  (startIndex, endIndex).

(** [[...fileLines.slice(0, startIndex), ...fileLines.slice(endIndex + 1)]] *)
Definition deleteSpan (fileLines : list jsstring) (startIndex endIndex : Z)
  : list jsstring :=
  take (Z.to_nat startIndex) fileLines ++ drop (Z.to_nat (endIndex + 1)) fileLines.

Definition deleteEventFromDailyNote (eventId eventPath : jsstring)
    (eventTitle : option jsstring) : io bool :=
  (if negb (validEventId eventId) then throw (js "Invalid event ID format")
  else
    let* file := getFirstLinkpathDest eventPath in
    match file with
    | None => throw (js "File not found: " ++ eventPath)
    | Some file =>
      let* fileContents := vault_read file in
      let fileLines := getAllLinesFromFile fileContents in
      let targetLineIndex := resolveTargetLine fileLines eventId eventTitle in
      if (targetLineIndex =? -1)%Z then
        throw (js "Could not find target event line")
      else
        let targetLine := default [] (lineAt fileLines targetLineIndex) in
        if negb (recordStart targetLine) then
          throw (js "Target line is not an event line")
        else
          let '(startIndex, endIndex) := findRecordBoundaries fileLines targetLineIndex in
          let newFileLines := deleteSpan fileLines startIndex endIndex in
          let newFileContent := join_lf newFileLines in
          vault_modify file newFileContent ;;
          io_ret true
    end)%io.

(** ** changeEvent *)

(** *** The regular expressions of [cleanEvent]

    A matcher takes the text at the position tried and gives what is left
    after the match, or nothing.  Where a quantifier could give back what it
    took, the alternative is tried as the engine does. *)

(** [:\d{2}] *)
Definition eatColonMinutes (s : jsstring) : option jsstring :=
  match s with
  | 58 :: c :: d :: r => if is_digit c && is_digit d then Some r else None
  | _ => None
  end.

(** [\d{1,2}:\d{2}]: two digits are tried first, then one (at most one of
    the two goes through: the colon is not a digit). *)
Definition eatTime (s : jsstring) : option jsstring :=
  match s with
  | a :: r =>
    if is_digit a then
      match (match r with
             | b :: r' => if is_digit b then eatColonMinutes r' else None
             | [] => None
             end) with
      | Some rest => Some rest
      | None => eatColonMinutes r
      end
    else None
  | [] => None
  end.

(** [\s+], greedy, at the end of a pattern. *)
Definition eatSpaces (s : jsstring) : option jsstring :=
  match s with
  | c :: r => if is_space c then Some (trimStart r) else None
  | [] => None
  end.

(** [/^\d{1,2}:\d{2}(-\d{1,2}:\d{2})?\s+/] at the start of the text *)
Definition matchLeadingTime (s : jsstring) : option jsstring :=
  match eatTime s with
  | None => None
  | Some r1 =>
    match (match r1 with
           | 45 :: r2 =>
             match eatTime r2 with
             | Some r3 => eatSpaces r3
             | None => None
             end
           | _ => None
           end) with
    | Some rest => Some rest
    | None => eatSpaces r1
    end
  end.

(** [\s?] followed by a pattern [p]: with the space first, then without. *)
Definition optSpaceThen (p : jsstring -> option jsstring) (s : jsstring)
  : option jsstring :=
  match (match s with
         | c :: r => if is_space c then p r else None
         | [] => None
         end) with
  | Some rest => Some rest
  | None => p s
  end.

(** [/⏲\s?\d{1,2}:\d{2}/]; the timer sign is the unit U+23F2. *)
Definition matchTimer (s : jsstring) : option jsstring :=
  match s with
  | 9202 :: r => optSpaceThen eatTime r
  | _ => None
  end.

(** [\d{4}-\d{2}-\d{2}] *)
Definition eatDate (s : jsstring) : option jsstring :=
  match s with
  | y1 :: y2 :: y3 :: y4 :: 45 :: m1 :: m2 :: 45 :: d1 :: d2 :: r =>
    if forallb is_digit [y1; y2; y3; y4; m1; m2; d1; d2] then Some r else None
  | _ => None
  end.

(** [/📅\s?\d{4}-\d{2}-\d{2}/]; the calendar sign U+1F4C5 is the pair
    D83D DCC5. *)
Definition matchDueDate (s : jsstring) : option jsstring :=
  match s with
  | 55357 :: 56517 :: r => optSpaceThen eatDate r
  | _ => None
  end.

(** [/\d{1,2}:\d{2}-\d{1,2}:\d{2}/] *)
Definition matchTimeRange (s : jsstring) : option jsstring :=
  match eatTime s with
  | Some (45 :: r) => eatTime r
  | _ => None
  end.

(** [s.replace(/re/g, '')]: positions are tried from the left; a match is
    dropped and the search goes on behind it.  [skip] counts the units of
    the current match still to drop. *)
Fixpoint removeAllFrom (m : jsstring -> option jsstring) (skip : nat)
    (s : jsstring) : jsstring :=
  match s with
  | [] => []
  | c :: s' =>
    match skip with
    | S k => removeAllFrom m k s'
    | O =>
      match m s with
      | Some rest => removeAllFrom m (length s' - length rest) s'
      | None => c :: removeAllFrom m 0 s'
      end
    end
  end.

Definition removeAll (m : jsstring -> option jsstring) (s : jsstring) : jsstring :=
  removeAllFrom m 0 s.

(** [s.replace(/^.../, '')] for the anchored pattern. *)
Definition removeLeadingTime (s : jsstring) : jsstring :=
  match matchLeadingTime s with
  | Some rest => rest
  | None => s
  end.

(** The chain of replacements and trims that [cleanEvent] applies to the
    new content, and to the original content when it falls back to it. *)
Definition stripTimeTokens (content : jsstring) : jsstring :=
  let cleanContent := trim (removeLeadingTime content) in
  let cleanContent := trim (removeAll matchTimer cleanContent) in
  let cleanContent := trim (removeAll matchDueDate cleanContent) in
  let cleanContent := trim (removeAll matchTimeRange cleanContent) in
  cleanContent.

Definition cleanEvent (originalContent content : jsstring) : jsstring :=
  let cleanContent := stripTimeTokens content in
  if negb (truthy cleanContent) && truthy originalContent then
    stripTimeTokens originalContent
  else cleanContent.

(** *** Formatting *)

(** [/\s(\^[a-zA-Z0-9]{2,})$/] at one position: a white space, a caret and
    two or more letters and digits up to the end; the group is the caret
    with what follows. *)
Definition blockIdAt (s : jsstring) : option jsstring :=
  match s with
  | w :: c :: b =>
    if is_space w && (c =? 94) && (2 <=? length b)%nat && forallb is_alnum b
    then Some (c :: b) else None
  | _ => None
  end.

(** [cleanContent.match(...)]: the leftmost position that matches, with
    the whole match and the group. *)
Fixpoint blockIdMatch (cleanContent : jsstring) : option (jsstring * jsstring) :=
  match blockIdAt cleanContent with
  | Some g => Some (cleanContent, g)
  | None =>
    match cleanContent with
    | [] => None
    | _ :: s' => blockIdMatch s'
    end
  end.

(** A mark is used when it is neither [null] nor ['']. *)
Definition truthyMark (mark : option jsstring) : option jsstring :=
  match mark with
  | Some m => if truthy m then Some m else None
  | None => None
  end.

(** ['\t'] *)
Definition TAB : jsstring := [9].

Section ChangeEvent.
Context (E : api).

Definition formatEventLine (cleanContent : jsstring) (startMoment endMoment : moment)
    (eventType : jsstring) (notes : option jsstring) : jsstring :=
  let timeHour := format_HH startMoment in
  let timeMinute := format_mm startMoment in
  let mark := getMarkBasedOnEvent E eventType in
  let blockIdMatch := blockIdMatch cleanContent in
  let blockId := match blockIdMatch with Some (_, g) => g | None => [] end in
  let processedContent :=
    match blockIdMatch with
    | Some (m0, _) => if truthy blockId then removeFirst cleanContent m0 else cleanContent
    | None => cleanContent
    end in
  let sameDay := isSameDay startMoment endMoment in
  let newLine :=
    if sameDay then
      match truthyMark mark with
      | Some mark =>
        js "- [" ++ mark ++ js "] " ++ timeHour ++ js ":" ++ timeMinute ++ js "-"
          ++ format_HHmm endMoment ++ js " " ++ processedContent
      | None =>
        js "- " ++ timeHour ++ js ":" ++ timeMinute ++ js "-"
          ++ format_HHmm endMoment ++ js " " ++ processedContent
      end
    else
      match truthyMark mark with
      | Some mark =>
        js "- [" ++ mark ++ js "] " ++ processedContent ++ js " 🛫 "
          ++ format_YYYY_MM_DD startMoment ++ js " 📅 " ++ format_YYYY_MM_DD endMoment
      | None =>
        js "- " ++ processedContent ++ js " 🛫 "
          ++ format_YYYY_MM_DD startMoment ++ js " 📅 " ++ format_YYYY_MM_DD endMoment
      end in
  let newLine :=
    match notes with
    | Some notes =>
      if truthy notes && truthy (trim notes) then
        let notesLines := split_lf (trim notes) in
        let indentedNotes := join_lf (map (fun line => TAB ++ line) notesLines) in
        newLine ++ LF ++ indentedNotes
      else newLine
    | None => newLine
    end in
  let newLine := if truthy blockId then newLine ++ js " " ++ blockId else newLine in
  newLine.

Definition formatAllDayEvent (cleanContent : jsstring)
    (originalStartDate eventStartMoment eventEndMoment : moment)
    (eventType : jsstring) : jsstring :=
  let blockIdMatch := blockIdMatch cleanContent in
  let blockId := match blockIdMatch with Some (_, g) => g | None => [] end in
  let mark := getMarkBasedOnEvent E eventType in
  let processedContent :=
    match blockIdMatch with
    | Some (m0, _) => if truthy blockId then removeFirst cleanContent m0 else cleanContent
    | None => cleanContent
    end in
  let newLine :=
    match mark with
    | None => js "- " ++ processedContent
    | Some mark => js "- [" ++ mark ++ js "] " ++ processedContent
    end in
  let startDateChanged := negb (isSameDay originalStartDate eventStartMoment) in
  let sameDay := isSameDay eventStartMoment eventEndMoment in
  let newLine :=
    if negb sameDay || startDateChanged then
      newLine ++ js " 🛫 " ++ format_YYYY_MM_DD eventStartMoment
    else newLine in
  let newLine := newLine ++ js " 📅 " ++ format_YYYY_MM_DD eventEndMoment in
  let newLine := if truthy blockId then newLine ++ js " " ++ blockId else newLine in
  newLine.

End ChangeEvent.

(** *** findEventLine *)

(** [`${mark}`] for a mark that may be [null] *)
Definition templateOfMark (mark : option jsstring) : jsstring :=
  match mark with
  | Some m => m
  | None => js "null"
  end.

(** [eventid.match(/_L(\d+)$/)]: the digits of the group, at the leftmost
    position where [_L] and then digits up to the end are found. *)
Fixpoint lineNumberMatch (eventid : jsstring) : option jsstring :=
  match (match eventid with
         | 95 :: 76 :: ds =>
           if (1 <=? length ds)%nat && forallb is_digit ds then Some ds else None
         | _ => None
         end) with
  | Some ds => Some ds
  | None =>
    match eventid with
    | [] => None
    | _ :: r => lineNumberMatch r
    end
  end.

(** [line.match(/- \[[^\]]\]/)]: ["- ["], one unit that is not ["]"], and
    ["]"], anywhere in the line. *)
Fixpoint hasTaskBox (line : jsstring) : bool :=
  match line with
  | [] => false
  | c :: r =>
    match line with
    | 45 :: 32 :: 91 :: x :: 93 :: _ => negb (x =? 93) || hasTaskBox r
    | _ => hasTaskBox r
    end
  end.

Definition jsstring_eqb (a b : jsstring) : bool := bool_decide (a = b).

Section FindEventLine.
Context (E : api).

(** The test of the first loop of [findEventLine] on one line. *)
Definition exactLineMatch (eventid originalContent : jsstring)
    (originalStartDate : moment) (eventType : jsstring) (line : jsstring) : bool :=
  let timeString := slice eventid 0 12 in
  let mark := getMarkBasedOnEvent E eventType in
  if includes line originalContent && startsWith line (js "- ") then
    if startsWith eventType (js "TASK-")
       && (includes line (js "- [" ++ templateOfMark mark ++ js "]") || hasTaskBox line)
    then true
    else
      match extractEventTime E line with
      | Some (hour, minute) =>
        jsstring_eqb (setTimeAndFormat E originalStartDate hour minute) timeString
      | None =>
        jsstring_eqb (trim line) (js "- " ++ trim originalContent)
        || includes line (js "- " ++ trim originalContent ++ js " 📅")
        || includes line (js "- " ++ trim originalContent ++ js " 🛫")
        || (startsWith eventType (js "TASK-")
            && includes line (js "- [" ++ templateOfMark mark ++ js "] "
                                ++ trim originalContent))
      end
  else false.

(** The test of the last loop. *)
Definition timeLineMatch (eventid : jsstring) (originalStartDate : moment)
    (line : jsstring) : bool :=
  let timeString := slice eventid 0 12 in
  if startsWith line (js "- ") && timeRegexTest E line then
    match extractEventTime E line with
    | Some (hour, minute) =>
      jsstring_eqb (setTimeAndFormat E originalStartDate hour minute) timeString
    | None => false
    end
  else false.

(** [-1] stands for "not found", as in the source. *)
Definition findEventLine (fileLines : list jsstring) (eventid originalContent : jsstring)
    (originalStartDate : moment) (eventType : jsstring) : Z :=
  let byLineNumber :=
    match lineNumberMatch eventid with
    | Some ds =>
      match parseInt ds with
      | Some lineNumber =>
        if (lineNumber <? Z.of_nat (length fileLines))%Z
           && match lineAt fileLines lineNumber with
              | Some line => includes line originalContent
              | None => false
              end
        then Some lineNumber else None
      | None => None
      end
    | None => None
    end in
  match byLineNumber with
  | Some lineNumber => lineNumber
  | None =>
    let exact :=
      firstLineWhere (exactLineMatch eventid originalContent originalStartDate eventType)
                     fileLines 0 in
    if negb (exact =? -1)%Z then exact
    else
      let fuzzy := firstLineWhere (fun line => includes line originalContent) fileLines 0 in
      if negb (fuzzy =? -1)%Z then fuzzy
      else firstLineWhere (timeLineMatch eventid originalStartDate) fileLines 0
  end.

(** The [for] loop of [updateTimeIntervalOnly] that sets [lineIndex]: the
    first line that contains the original content, [-1] when there is none.
    The function with its throws is [updateTimeIntervalOnly] below. *)
Definition updateTimeIntervalOnly_lineIndex (fileLines : list jsstring)
    (originalContent : jsstring) : Z :=
  firstLineWhere (fun line => includes line originalContent) fileLines 0.

End FindEventLine.

(** ** Collaborators for the closed examples

    The theorems below hold for every [api]; the closed examples need
    one. *)

(** Modelled from the spec: [getMarkBasedOnEvent] of [./parser] is not among
    the sources; "[recordType] to marker mapping is a closed lookup
    ([default] -> no marker, each task state -> a single reserved
    character)".  The sources name the types ['default'], ['TASK-TODO'] and
    ['TASK-DONE'] and the boxes [- [ ]] and [- [x]]. *)
Definition specMark (eventType : jsstring) : option jsstring :=
  if jsstring_eqb eventType (js "TASK-TODO") then Some (js " ")
  else if jsstring_eqb eventType (js "TASK-DONE") then Some (js "x")
  else None.

(** The position of the last occurrence of [pat] in [s], as the text before
    it and the text after it. *)
Fixpoint splitAtLast (s pat : jsstring) : option (jsstring * jsstring) :=
  match s with
  | [] => if startsWith [] pat then Some ([], []) else None
  | c :: s' =>
    match splitAtLast s' pat with
    | Some (before, after) => Some (c :: before, after)
    | None => if startsWith s pat then Some ([], drop (length pat) s) else None
    end
  end.

(** Modelled from the spec: [extractDeletedEventId] of
    [../utils/regexGenerators] is not among the sources; a ledger entry is
    "a single line of the shape [<original-record-line> deletedAt:
    <timestamp>]", "addressed by [<creation-timestamp><line-number>]", and
    restore "re-derives an hour/minute from the timestamp portion of the
    id": the id is what follows [deletedAt: ].  This reading serves the
    closed examples only; no theorem rests on it. *)
Definition specDeletedEventId (line : jsstring) : option jsstring :=
  match splitAtLast line (js " deletedAt: ") with
  | Some (_, id) => Some id
  | None => None
  end.

(** Modelled from the spec: [extractDeletedEvent] of
    [../utils/regexGenerators] is not among the sources; restore
    "reconstructs a minimal record-start line [- HH:MM <content>]" from the
    entry [<original-record-line> deletedAt: <timestamp>]: the content is
    the text of the record line after its [- ]. *)
Definition specDeletedEvent (line : jsstring) : option jsstring :=
  match splitAtLast line (js " deletedAt: ") with
  | Some (record, _) => if startsWith record (js "- ") then Some (drop 2 record) else None
  | None => None
  end.

(** Modelled from the spec: [insertAfterHandler] of [./createEvent] is not
    among the sources; restore "inserts it into the target day's document",
    "at document end" when nothing else places it, "at document start if
    the document is empty". *)
Definition specInsertAfter (anchor newEvent fileContents : jsstring) : jsstring :=
  if truthy fileContents then fileContents ++ LF ++ newEvent else newEvent.

(** Daily notes named by the day, [YYYY-MM-DD.md], and created empty. *)
Definition sampleApi : api := {|
  getMarkBasedOnEvent := specMark;
  extractEventTime := fun _ => None;
  timeRegexTest := fun _ => false;
  setTimeAndFormat := fun d h m => format_YYYYMMDDHHmm (Moment (year d) (month d) (day d) h m 0);
  extractDeletedEventId := specDeletedEventId;
  extractDeletedEvent := specDeletedEvent;
  insertAfterHandler := specInsertAfter;
  getDailyNotePath := js "journal";
  normalizePath := fun p => p;
  dailyNotePathOf := fun d => formatWith format_YYYY_MM_DD d ++ js ".md";
  dailyNoteTemplate := fun _ => []
|}.

(** ** The parts of a formatted event

    What [formatEventLine] puts together, named for the statements below. *)

(** ["[<marker>] "] for an event type with a marker, nothing otherwise. *)
Definition markerPrefix (mark : option jsstring) : jsstring :=
  match truthyMark mark with
  | Some m => js "[" ++ m ++ js "] "
  | None => []
  end.

(** The record line for a content whose annotation is already taken off. *)
Definition eventLineText (E : api) (processedContent : jsstring) (s e : moment)
    (t : jsstring) : jsstring :=
  js "- " ++ markerPrefix (getMarkBasedOnEvent E t)
    ++ (if isSameDay s e
        then format_HHmm s ++ js "-" ++ format_HHmm e ++ js " " ++ processedContent
        else processedContent ++ js " 🛫 " ++ format_YYYY_MM_DD s
               ++ js " 📅 " ++ format_YYYY_MM_DD e).

(** The notes block: a line break and the tab-indented notes lines, or
    nothing for absent or blank notes. *)
Definition notesBlock (notes : option jsstring) : jsstring :=
  match notes with
  | Some notes =>
    if truthy notes && truthy (trim notes) then
      LF ++ join_lf (map (fun line => TAB ++ line) (split_lf (trim notes)))
    else []
  | None => []
  end.

(** The record line of [formatAllDayEvent]. *)
Definition allDayLineText (E : api) (processedContent : jsstring)
    (originalStartDate s e : moment) (t : jsstring) : jsstring :=
  (match getMarkBasedOnEvent E t with
   | None => js "- " ++ processedContent
   | Some mark => js "- [" ++ mark ++ js "] " ++ processedContent
   end)
  ++ (if negb (isSameDay s e) || negb (isSameDay originalStartDate s)
      then js " 🛫 " ++ format_YYYY_MM_DD s else [])
  ++ js " 📅 " ++ format_YYYY_MM_DD e.

(** ** The parts of a ledger entry and of a restored line *)

(** The id that [sendEventToDelete] writes into a new entry of the ledger
    [old] at the moment [now]. *)
Definition ledgerIdAt (now : moment) (old : jsstring) : jsstring :=
  format_YYYYMMDDHHmmss now ++ numberToString (nextLineNum (getAllLinesFromFile old)).

Definition ledgerEntry (now : moment) (old event : jsstring) : jsstring :=
  event ++ js " deletedAt: " ++ ledgerIdAt now old.

(** The ledger after the entry is appended. *)
Definition ledgerWith (now : moment) (old event : jsstring) : jsstring :=
  if truthy old then old ++ LF ++ ledgerEntry now old event
  else ledgerEntry now old event.

(** The moment that [restoreDeletedEvent] reads off an entry:
    [moment(extractDeletedEventId(line), 'YYYYMMDDHHmmss')]. *)
Definition restoredMoment (E : api) (line : jsstring) : jsmoment :=
  momentFromId (extractDeletedEventId E line).

(** The line [- HH:MM <content>] that it builds from the entry. *)
Definition restoredEvent (E : api) (line : jsstring) : jsstring :=
  js "- " ++ formatWith format_HH (restoredMoment E line) ++ js ":"
    ++ formatWith format_mm (restoredMoment E line) ++ js " "
    ++ templateOf (extractDeletedEvent E line).

(** A vault that holds an empty ledger and nothing else. *)
Definition emptyLedgerVault : gmap (list N) (list N) :=
  {[ js "journal/delete.md" := [] ]}.

(** ** The words of the specification: resolution

    The three strategies as the specification states them, to be compared
    with [resolveTargetLine]. *)

Definition record_start_line (l : jsstring) : Prop := exists r, l = js "- " ++ r.

Definition contains (l t : jsstring) : Prop := exists a b, l = a ++ t ++ b.

(** [i] is the first line with property [P]. *)
Definition first_line_with (P : jsstring -> Prop) (lines : list jsstring) (i : nat) : Prop :=
  (exists l, lines !! i = Some l /\ P l)
  /\ forall j l, (j < i)%nat -> lines !! j = Some l -> ~ P l.

(** Title strategy: the first record-start line that contains the title. *)
Definition title_strategy (lines : list jsstring) (title : option jsstring) (i : nat) : Prop :=
  exists t, title = Some t /\ t <> []
    /\ first_line_with (fun l => record_start_line l /\ contains l t) lines i.

(** The text [HH:MM] of the hour and minute digits of the identifier. *)
Definition time_text (id : jsstring) : jsstring :=
  take 2 (drop 8 id) ++ js ":" ++ take 2 (drop 10 id).

(** Time strategy: the first record-start line that contains [HH:MM]. *)
Definition time_strategy (lines : list jsstring) (id : jsstring) (i : nat) : Prop :=
  first_line_with (fun l => record_start_line l /\ contains l (time_text id)) lines i.

(** Ordinal strategy: the record-start line with as many record-start
    lines before it as the digits past position 14 say. *)
Definition ordinal_strategy (lines : list jsstring) (id : jsstring) (i : nat) : Prop :=
  exists l, lines !! i = Some l /\ record_start_line l
    /\ drop 14 id <> []
    /\ decimal_value (drop 14 id)
       = N.of_nat (length (List.filter recordStart (take i lines))).

(** ** The words of the specification: the span of a record *)

(** A section heading: one or more [#], then a space. *)
Definition heading_line (l : jsstring) : Prop :=
  exists n r, l = replicate (S n) 35 ++ js " " ++ r.

(** Where the span of a record stops. *)
Definition stop_line (l : jsstring) : Prop := record_start_line l \/ heading_line l.

Definition blank_line (l : jsstring) : Prop := forall c, c ∈ l -> is_space c = true.

Definition tab_indented (l : jsstring) : Prop := exists r, l = TAB ++ r.

(** ** More of deleteEvent and changeEvent *)

(** *** deleteForever *)

Definition deleteForever (E : api) (deletedEventid : jsstring) : io unit :=
  (if negb (hasFourteenDigits deletedEventid) then
     throw (js "Invalid event ID format")
   else
     let filePath := getDailyNotePath E in
     let absolutePath := filePath ++ js "/delete.md" in
     let* deleteFile := getFirstLinkpathDest absolutePath in
     match deleteFile with
     | None => io_ret tt
     | Some deleteFile =>
       let* fileContents := vault_read deleteFile in
       let fileLines := getAllLinesFromFile fileContents in
       if (length fileLines =? 0)%nat then io_ret tt
       else
         let lineNum := parseInt (sliceFrom deletedEventid 14) in
         let line := match lineNum with
                     | Some n => lineAt fileLines (n - 1)
                     | None => None
                     end in
         if isDeletedRecordLine line then
           let newFileContent := replaceLine fileContents line in
           vault_modify deleteFile newFileContent
         else io_ret tt
     end)%io.

(** *** extractEventEndHourFromLine, extractEventEndMinFromLine *)

(** [(\d{1,2}):(\d{2})] at a position: the two groups and what is left.
    Two digits are tried for the first group, then one. *)
Definition eatTimeGroups (s : jsstring) : option (jsstring * jsstring * jsstring) :=
  match s with
  | a :: r =>
    if is_digit a then
      match (match r with
             | b :: 58 :: c :: d :: rest =>
               if is_digit b && is_digit c && is_digit d
               then Some ([a; b], [c; d], rest) else None
             | _ => None
             end) with
      | Some g => Some g
      | None =>
        match r with
        | 58 :: c :: d :: rest =>
          if is_digit c && is_digit d then Some ([a], [c; d], rest) else None
        | _ => None
        end
      end
    else None
  | [] => None
  end.

(** The four groups of [/(\d{1,2}):(\d{2})-(\d{1,2}):(\d{2})/] at a position. *)
Definition timeRangeGroupsAt (s : jsstring)
  : option (jsstring * jsstring * jsstring * jsstring) :=
  match eatTimeGroups s with
  | Some (h1, m1, 45 :: r) =>
    match eatTimeGroups r with
    | Some (h2, m2, _) => Some (h1, m1, h2, m2)
    | None => None
    end
  | _ => None
  end.

(** [/(\d{1,2}):(\d{2})-(\d{1,2}):(\d{2})/.exec(line)]: the leftmost match. *)
Fixpoint execTimeRange (line : jsstring)
  : option (jsstring * jsstring * jsstring * jsstring) :=
  match timeRangeGroupsAt line with
  | Some g => Some g
  | None =>
    match line with
    | [] => None
    | _ :: r => execTimeRange r
    end
  end.

(** The two groups of [/⏲\s?(\d{1,2}):(\d{2})/] at a position. *)
Definition timerGroupsAt (s : jsstring) : option (jsstring * jsstring) :=
  match s with
  | 9202 :: r =>
    match (match r with
           | c :: r' => if is_space c then eatTimeGroups r' else None
           | [] => None
           end) with
    | Some (h, m, _) => Some (h, m)
    | None =>
      match eatTimeGroups r with
      | Some (h, m, _) => Some (h, m)
      | None => None
      end
    end
  | _ => None
  end.

Fixpoint execTimer (line : jsstring) : option (jsstring * jsstring) :=
  match timerGroupsAt line with
  | Some g => Some g
  | None =>
    match line with
    | [] => None
    | _ :: r => execTimer r
    end
  end.

(** The result is a number; [None] stands for [NaN]. *)
Definition extractEventEndHourFromLine (line : jsstring) : option Z :=
  match execTimeRange line with
  | Some (_, _, h2, _) => parseInt h2
  | None =>
    match execTimer line with
    | Some (h, _) => parseInt h
    | None => Some 0%Z
    end
  end.

Definition extractEventEndMinFromLine (line : jsstring) : option Z :=
  match execTimeRange line with
  | Some (_, _, _, m2) => parseInt m2
  | None =>
    match execTimer line with
    | Some (_, m) => parseInt m
    | None => Some 0%Z
    end
  end.

(** *** updateTimeIntervalOnly *)

(** What the operations of changeEvent return ([Model.Event]); [start] and
    [end] are the dates of the two moments. *)
Record modelEvent := ModelEvent {
  event_id : jsstring;
  event_title : jsstring;
  event_start : moment;
  event_end : moment;
  event_allDay : bool;
  event_eventType : jsstring;
  event_path : jsstring
}.

(** [text.match(/^\d{1,2}:\d{2}/)] as a truth value *)
Definition hasLeadingTime (text : jsstring) : bool :=
  match eatTime text with Some _ => true | None => false end.

(** [files] is the record of the daily notes of the vault, so
    [getDailyNote(originalStartDate, files)] is the lookup of the note of
    that day.  The identifier [notes] in the call of [formatEventLine] is
    bound nowhere, neither in the function nor in the module (it is a
    parameter of [changeEvent] and of [formatEventLine] only): evaluating
    it throws [ReferenceError: notes is not defined], and what follows the
    call is not reached on that branch. *)
Definition updateTimeIntervalOnly (E : api)
    (eventid originalContent content eventType : jsstring)
    (originalStartDate eventStartMoment eventEndMoment : moment) : io modelEvent :=
  (let isAllDayWithoutTime :=
     startsWith eventType (js "TASK-") && negb (hasLeadingTime originalContent) in
   let contentHasTimeInfo := hasLeadingTime content in
   let* dailyNote := getDailyNote E (Valid originalStartDate) in
   match dailyNote with
   | None =>
     throw (js "Daily note not found for date: " ++ format_YYYY_MM_DD originalStartDate)
   | Some dailyNote =>
     let* fileContent := vault_read dailyNote in
     let fileLines := getAllLinesFromFile fileContent in
     let lineIndex := updateTimeIntervalOnly_lineIndex fileLines originalContent in
     if (lineIndex =? -1)%Z then
       throw (js "Could not find the event line in the file")
     else
       let cleanContent := cleanEvent originalContent content in
       let* newLine :=
         if isAllDayWithoutTime && negb contentHasTimeInfo then
           io_ret (formatAllDayEvent E cleanContent originalStartDate
                     eventStartMoment eventEndMoment eventType)
         else throw (js "notes is not defined") in
       let fileLines := <[Z.to_nat lineIndex := newLine]> fileLines in
       let newFileContent := join_lf fileLines in
       vault_modify dailyNote newFileContent ;;
       io_ret {| event_id := eventid;
                 event_title := cleanContent;
                 event_start := eventStartMoment;
                 event_end := eventEndMoment;
                 event_allDay := isAllDayWithoutTime && negb contentHasTimeInfo;
                 event_eventType := eventType;
                 event_path := dailyNote |}
   end)%io.

(** *** findInsertPosition *)

(** What [findInsertPosition] reads of [globalService.getState().pluginSetting]. *)
Record pluginSetting := PluginSetting {
  InsertAfter : option jsstring;
  ProcessEntriesBelow : option jsstring
}.

(** [line.match(/^- \d{1,2}:\d{2}/)] *)
Definition startsWithDashTime (line : jsstring) : bool :=
  match line with
  | 45 :: 32 :: r => match eatTime r with Some _ => true | None => false end
  | _ => false
  end.

Definition isTaskOrEvent (line : jsstring) : bool :=
  startsWithDashTime line
  || includes line (js "- [ ]")
  || includes line (js "- [x]")
  || includes line (js "- [-]")
  || (startsWith line (js "- ")
      && (includes line (js " 📅 ") || includes line (js " 🛫 "))).

(** The first loop: [eventBlockEnd] is [i + 1] for the last task or event
    line passed. *)
Fixpoint eventBlockEndFrom (lines : list jsstring) (i eventBlockEnd : Z) : Z :=
  match lines with
  | [] => eventBlockEnd
  | line :: rest =>
    eventBlockEndFrom rest (i + 1)%Z
      (if isTaskOrEvent line then (i + 1)%Z else eventBlockEnd)
  end.

(** [while (j < fileLines.length && fileLines[j].trim() === '') j++]; [rest]
    holds the lines from [j] on. *)
Fixpoint skipBlankLines (rest : list jsstring) (j : Z) : Z :=
  match rest with
  | line :: rest' =>
    if negb (truthy (trim line)) then skipBlankLines rest' (j + 1)%Z else j
  | [] => j
  end.

(** The loop over the lines for the text to insert after: the position
    behind the first line that contains it and the blank lines that follow,
    or nothing when no line contains it. *)
Fixpoint afterInsertAfterText (text : jsstring) (lines : list jsstring) (i : Z)
  : option Z :=
  match lines with
  | [] => None
  | line :: rest =>
    if includes line text then Some (skipBlankLines rest (i + 1)%Z)
    else afterInsertAfterText text rest (i + 1)%Z
  end.

(** A setting that is a text with something other than white space. *)
Definition settingText (x : option jsstring) : option jsstring :=
  match x with
  | Some text => if truthy text && truthy (trim text) then Some text else None
  | None => None
  end.

Definition findInsertPosition (setting : pluginSetting) (fileLines : list jsstring)
    (eventType : jsstring) : Z :=
  let eventBlockEnd :=
    if jsstring_eqb eventType (js "TASK-TODO") || jsstring_eqb eventType (js "default")
    then eventBlockEndFrom fileLines 0 (-1)
    else (-1)%Z in
  if (0 <? eventBlockEnd)%Z then eventBlockEnd
  else
    match (match settingText (InsertAfter setting) with
           | Some insertAfterText => afterInsertAfterText insertAfterText fileLines 0
           | None => None
           end) with
    | Some j => j
    | None =>
      let below :=
        match settingText (ProcessEntriesBelow setting) with
        | Some processBelow =>
          firstLineWhere (fun line => includes line processBelow) fileLines 0
        | None => (-1)%Z
        end in
      if negb (below =? -1)%Z then (below + 1)%Z
      else if (length fileLines =? 0)%nat then 0%Z
      else
        let heading := firstLineWhere (fun line => startsWith line (js "#")) fileLines 0 in
        if negb (heading =? -1)%Z then (heading + 1)%Z
        else Z.of_nat (length fileLines)
    end.

(** ** The words for the extra properties *)

(** The span that [deleteEventFromDailyNote] takes out for these lines. *)
Definition deletedSpan (fileLines : list jsstring) (eventId : jsstring)
    (eventTitle : option jsstring) : Z * Z :=
  findRecordBoundaries fileLines (resolveTargetLine fileLines eventId eventTitle).

(** The lines that are left. *)
Definition linesAfterDelete (fileLines : list jsstring) (eventId : jsstring)
    (eventTitle : option jsstring) : list jsstring :=
  deleteSpan fileLines (deletedSpan fileLines eventId eventTitle).1
             (deletedSpan fileLines eventId eventTitle).2.

(** The line of the ledger that an id addresses: [fileLines[lineNum - 1]]
    for [lineNum = parseInt(id.slice(14))], nothing ([undefined]) when the
    number is [NaN] or the index lies outside the lines. *)
Definition addressedLine (fileLines : list jsstring) (deletedEventid : jsstring)
  : option jsstring :=
  match parseInt (sliceFrom deletedEventid 14) with
  | Some n => lineAt fileLines (n - 1)
  | None => None
  end.

(* ===================================================================== *)
(** * Part II: properties *)
(* ===================================================================== *)

(** ** Strings *)

Lemma startsWith_app (s p : jsstring) :
  startsWith s p = true <-> exists r, s = p ++ r.
Proof.
  revert s. induction p as [|a p IH]; intros s; simpl.
  - split; [intros _; by exists s | done].
  - destruct s as [|b s].
    + split; [done | intros [r Hr]; discriminate].
    + rewrite andb_true_iff, N.eqb_eq, IH. split.
      * intros [-> [r ->]]. eauto.
      * intros [r Hr]. inversion Hr; subst. eauto.
Qed.

Lemma includes_app (s sub : jsstring) :
  includes s sub = true <-> exists a b, s = a ++ sub ++ b.
Proof.
  induction s as [|c s IH]; simpl.
  - rewrite orb_false_r, startsWith_app. split.
    + intros [r Hr]. exists [], r. done.
    + intros (a & b & H). destruct a; simpl in H.
      * eauto.
      * discriminate.
  - rewrite orb_true_iff, startsWith_app, IH. split.
    + intros [[r Hr] | (a & b & ->)].
      * exists [], r. done.
      * exists (c :: a), b. done.
    + intros (a & b & H). destruct a as [|x a]; simpl in H.
      * left. eauto.
      * right. inversion H; subst. eauto.
Qed.

(** ** The search loops *)

(** A loop that breaks at the first line passing [test] returns the index
    of the first such line, and [-1] exactly when there is none. *)
Lemma firstLineWhere_found test lines (i0 : Z) (k : nat) line :
  lines !! k = Some line -> test line = true ->
  (forall j l, (j < k)%nat -> lines !! j = Some l -> test l = false) ->
  firstLineWhere test lines i0 = (i0 + Z.of_nat k)%Z.
Proof.
  revert i0 k. induction lines as [|l0 lines IH]; intros i0 k Hk Ht Hbefore.
  - done.
  - destruct k as [|k]; simpl in *.
    + inversion Hk; subst. rewrite Ht. lia.
    + rewrite (Hbefore 0%nat l0); [| lia | done].
      rewrite (IH (i0 + 1)%Z k); [lia | done | done |].
      intros j l Hj Hl. apply (Hbefore (S j)); [lia | done].
Qed.

Lemma firstLineWhere_none test lines (i0 : Z) :
  (forall j l, lines !! j = Some l -> test l = false) ->
  firstLineWhere test lines i0 = (-1)%Z.
Proof.
  revert i0. induction lines as [|l0 lines IH]; intros i0 H; simpl.
  - done.
  - rewrite (H 0%nat l0) by done. apply IH.
    intros j l Hl. apply (H (S j)). done.
Qed.

Lemma firstLineWhere_inv test lines (i0 : Z) :
  (0 <= i0)%Z ->
  (firstLineWhere test lines i0 = (-1)%Z
   /\ forall j l, lines !! j = Some l -> test l = false)
  \/ exists (k : nat) line,
       firstLineWhere test lines i0 = (i0 + Z.of_nat k)%Z
       /\ lines !! k = Some line /\ test line = true
       /\ forall j l, (j < k)%nat -> lines !! j = Some l -> test l = false.
Proof.
  revert i0. induction lines as [|l0 lines IH]; intros i0 Hi0; simpl.
  - left. split; [done | intros j l; by destruct j].
  - destruct (test l0) eqn:Ht.
    + right. exists 0%nat, l0. repeat split; [lia | done | lia].
    + destruct (IH (i0 + 1)%Z ltac:(lia)) as [[Hr Hn] | (k & line & Hr & Hk & Hl & Hb)].
      * left. split; [done |]. intros [|j] l Hjl; simpl in Hjl.
        -- by inversion Hjl; subst.
        -- eauto.
      * right. exists (S k), line. repeat split; [lia | done | done |].
        intros [|j] l Hj Hjl; simpl in Hjl.
        -- by inversion Hjl; subst.
        -- apply (Hb j); [lia | done].
Qed.

(** ** Resolution of the target line (C1) *)

Lemma recordStart_line (l : jsstring) : recordStart l = true <-> record_start_line l.
Proof. apply startsWith_app. Qed.

Lemma first_line_with_unique P lines i j :
  first_line_with P lines i -> first_line_with P lines j -> i = j.
Proof.
  intros [(li & Hli & Pi) Hi] [(lj & Hlj & Pj) Hj].
  destruct (Nat.lt_trichotomy i j) as [Hlt | [-> | Hlt]]; [| done |].
  - exfalso. by apply (Hj i li).
  - exfalso. by apply (Hi j lj).
Qed.

Lemma firstLineWhere_first_line_with test P lines :
  (forall l, test l = true <-> P l) ->
  (firstLineWhere test lines 0 = (-1)%Z /\ forall i, ~ first_line_with P lines i)
  \/ exists k : nat, firstLineWhere test lines 0 = Z.of_nat k /\ first_line_with P lines k.
Proof.
  intros HP.
  destruct (firstLineWhere_inv test lines 0 ltac:(lia))
    as [[Hr Hn] | (k & line & Hr & Hk & Ht & Hb)].
  - left. split; [done |]. intros i [(l & Hl & Pl) _].
    apply HP in Pl. rewrite (Hn i l Hl) in Pl. done.
  - right. exists k. split; [by rewrite Hr |]. split.
    + exists line. split; [done | by apply HP].
    + intros j l Hj Hl Pl. apply HP in Pl. rewrite (Hb j l Hj Hl) in Pl. done.
Qed.

Lemma test_record_contains (t l : jsstring) :
  recordStart l && includes l t = true <-> record_start_line l /\ contains l t.
Proof. by rewrite andb_true_iff, recordStart_line, includes_app. Qed.

Lemma matchByTitle_strategy lines title :
  (matchByTitle lines title = (-1)%Z /\ forall i, ~ title_strategy lines title i)
  \/ exists k : nat, matchByTitle lines title = Z.of_nat k /\ title_strategy lines title k.
Proof.
  unfold matchByTitle, title_strategy. destruct title as [t|].
  - destruct t as [|c t]; simpl.
    + left. split; [done |]. intros i (t' & Ht & Hne & _). by inversion Ht; subst.
    + destruct (firstLineWhere_first_line_with
                  (fun line => recordStart line && includes line (c :: t))
                  (fun l => record_start_line l /\ contains l (c :: t)) lines
                  (test_record_contains (c :: t)))
        as [[Hr Hn] | (k & Hr & Hk)].
      * left. split; [done |]. intros i (t' & Ht & _ & Hf).
        inversion Ht; subst. by apply (Hn i).
      * right. exists k. split; [done |]. exists (c :: t). done.
  - left. split; [done |]. intros i (t' & Ht & _). done.
Qed.

Lemma timePatternOf_text id : timePatternOf id = time_text id.
Proof.
  unfold timePatternOf, time_text, slice.
  change (12 - 8)%nat with 4%nat. change (2 - 0)%nat with 2%nat.
  change (4 - 2)%nat with 2%nat.
  rewrite drop_0, take_take. change (2 `min` 4)%nat with 2%nat.
  do 2 f_equal.
  rewrite skipn_firstn_comm, take_take, drop_drop. done.
Qed.

Lemma matchByTime_strategy lines id :
  (matchByTime lines id = (-1)%Z /\ forall i, ~ time_strategy lines id i)
  \/ exists k : nat, matchByTime lines id = Z.of_nat k /\ time_strategy lines id k.
Proof.
  unfold matchByTime, time_strategy. rewrite timePatternOf_text.
  apply firstLineWhere_first_line_with, test_record_contains.
Qed.

(** ** Digits and [parseInt] *)

Ltac bool_lia :=
  repeat match goal with
         | H : context [(?a <=? ?b)] |- _ => destruct (N.leb_spec a b); simpl in H; try lia
         | H : context [(?a <? ?b)] |- _ => destruct (N.ltb_spec a b); simpl in H; try lia
         | H : context [(?a =? ?b)] |- _ => destruct (N.eqb_spec a b); simpl in H; try lia
         | |- context [(?a <=? ?b)] => destruct (N.leb_spec a b); simpl; try lia
         | |- context [(?a <? ?b)] => destruct (N.ltb_spec a b); simpl; try lia
         | |- context [(?a =? ?b)] => destruct (N.eqb_spec a b); simpl; try lia
         end; try done.

Lemma is_digit_range c : is_digit c = true <-> 48 <= c <= 57.
Proof. unfold is_digit. rewrite andb_true_iff, !N.leb_le. done. Qed.

Lemma is_digit_cases c :
  is_digit c = true ->
  c ∈ [48; 49; 50; 51; 52; 53; 54; 55; 56; 57].
Proof.
  rewrite is_digit_range. intros H.
  rewrite !elem_of_cons, elem_of_nil. lia.
Qed.

Lemma is_digit_not_space c : is_digit c = true -> is_space c = false.
Proof. rewrite is_digit_range. intros H. unfold is_space. bool_lia. Qed.

Lemma takeWhile_all p s : forallb p s = true -> takeWhile p s = s.
Proof.
  induction s as [|c s IH]; simpl; [done |].
  rewrite andb_true_iff. intros [-> H]. by rewrite IH.
Qed.

Lemma parseInt_empty : parseInt [] = None.
Proof. reflexivity. Qed.

(** On a run of digits [parseInt] is the decimal value. *)
Lemma parseInt_digits s :
  s <> [] -> forallb is_digit s = true ->
  parseInt s = Some (Z.of_N (decimal_value s)).
Proof.
  destruct s as [|c s]; [done |]. intros _ Hall.
  pose proof Hall as Hall'. simpl in Hall'. apply andb_true_iff in Hall' as [Hc Hs].
  unfold parseInt. simpl trimStart. rewrite (is_digit_not_space c Hc).
  assert (takeWhile is_digit (c :: s) = c :: s) as Htw by by apply takeWhile_all.
  assert (c <> 45 /\ c <> 43) as [H45 H43] by (apply is_digit_range in Hc; lia).
  destruct (N.eq_dec c 48) as [-> | H48].
  - destruct s as [|x s'].
    + reflexivity.
    + simpl in Hs. apply andb_true_iff in Hs as [Hx Hs'].
      assert ((x =? 120) || (x =? 88) = false) as ->
        by (apply is_digit_range in Hx; bool_lia).
      cbv zeta. cbv iota. cbv beta. rewrite Htw. reflexivity.
  - apply is_digit_cases in Hc.
    repeat (apply elem_of_cons in Hc as [-> | Hc];
            [first [done | (cbv zeta; cbv iota; cbv beta; rewrite Htw; reflexivity)] |]).
    by apply elem_of_nil in Hc.
Qed.

(** The loop of the third method returns the record-start line that has
    [n - c0] record-start lines before it. *)
Lemma lineOfEventCount_found n lines (i0 c0 : Z) (k : nat) l :
  lines !! k = Some l -> recordStart l = true ->
  (c0 + Z.of_nat (length (List.filter recordStart (take k lines))))%Z = n ->
  lineOfEventCount (Some n) lines i0 c0 = (i0 + Z.of_nat k)%Z.
Proof.
  revert i0 c0 k. induction lines as [|l0 lines IH]; intros i0 c0 k Hk Hl Hn.
  - done.
  - simpl. destruct k as [|k]; simpl in Hk, Hn.
    + inversion Hk; subst l0. rewrite Hl.
      replace (c0 =? n)%Z with true by (symmetry; apply Z.eqb_eq; lia).
      lia.
    + destruct (recordStart l0) eqn:H0; simpl in Hn.
      * replace (c0 =? n)%Z with false by (symmetry; apply Z.eqb_neq; lia).
        rewrite (IH (i0 + 1)%Z (c0 + 1)%Z k); [lia | done | done | lia].
      * rewrite (IH (i0 + 1)%Z c0 k); [lia | done | done | lia].
Qed.

Lemma lineOfEventCount_none n lines (i0 c0 : Z) :
  (forall k l, lines !! k = Some l -> recordStart l = true ->
     (c0 + Z.of_nat (length (List.filter recordStart (take k lines))))%Z <> n) ->
  lineOfEventCount (Some n) lines i0 c0 = (-1)%Z.
Proof.
  revert i0 c0. induction lines as [|l0 lines IH]; intros i0 c0 H.
  - done.
  - simpl. destruct (recordStart l0) eqn:H0.
    + pose proof (H 0%nat l0 eq_refl H0) as Hc. simpl in Hc.
      replace (c0 =? n)%Z with false by (symmetry; apply Z.eqb_neq; lia).
      apply IH. intros k l Hk Hl. specialize (H (S k) l Hk Hl).
      simpl in H. rewrite H0 in H. simpl in H. lia.
    + apply IH. intros k l Hk Hl. specialize (H (S k) l Hk Hl).
      simpl in H. rewrite H0 in H. done.
Qed.

Lemma lineOfEventCount_NaN lines (i0 c0 : Z) :
  lineOfEventCount None lines i0 c0 = (-1)%Z.
Proof.
  revert i0 c0. induction lines as [|l0 lines IH]; intros i0 c0; simpl; [done |].
  destruct (recordStart l0); apply IH.
Qed.

Lemma validEventId_suffix id :
  validEventId id = true -> forallb is_digit (drop 14 id) = true.
Proof.
  unfold validEventId. rewrite andb_true_iff. intros [H _].
  rewrite forallb_forall in *. intros c Hc. apply H.
  apply list_elem_of_In. apply list_elem_of_In in Hc.
  rewrite <- (take_drop 14 id). apply elem_of_app. by right.
Qed.

Lemma matchByIndex_found lines id (i : nat) :
  validEventId id = true -> ordinal_strategy lines id i ->
  matchByIndex lines id = Z.of_nat i.
Proof.
  intros Hid (l & Hl & Hrs & Hne & Hval).
  unfold matchByIndex, sliceFrom.
  rewrite (parseInt_digits _ Hne (validEventId_suffix _ Hid)).
  rewrite (lineOfEventCount_found _ lines 0 0 i l Hl); [lia | by apply recordStart_line |].
  rewrite Hval. lia.
Qed.

Lemma matchByIndex_none lines id :
  validEventId id = true -> (forall i, ~ ordinal_strategy lines id i) ->
  matchByIndex lines id = (-1)%Z.
Proof.
  intros Hid Hno. unfold matchByIndex, sliceFrom.
  destruct (drop 14 id) as [|c s] eqn:Hs.
  - rewrite parseInt_empty. apply lineOfEventCount_NaN.
  - rewrite <- Hs. rewrite (parseInt_digits (drop 14 id)).
    + apply lineOfEventCount_none. intros k l Hk Hl Heq.
      apply (Hno k). exists l. repeat split.
      * done.
      * by apply recordStart_line.
      * by rewrite Hs.
      * lia.
    + by rewrite Hs.
    + by apply validEventId_suffix.
Qed.

(** C1.  For a well-formed identifier the target line of
    [deleteEventFromDailyNote] is found by three strategies tried in this
    order: the first record-start line containing the title, the first
    record-start line containing the [HH:MM] of the identifier, the
    record-start line counted by the ordinal of the identifier.  The first
    strategy that selects a line gives the result, so the line of the title
    strategy is returned whatever the ordinal strategy would select; when
    none selects a line the result is [-1]. *)
Theorem resolveTargetLine_strategies (lines : list jsstring) (id : jsstring)
    (title : option jsstring) :
  validEventId id = true ->
  let r := resolveTargetLine lines id title in
  (forall i, title_strategy lines title i -> r = Z.of_nat i)
  /\ ((forall i, ~ title_strategy lines title i) ->
      forall i, time_strategy lines id i -> r = Z.of_nat i)
  /\ ((forall i, ~ title_strategy lines title i) ->
      (forall i, ~ time_strategy lines id i) ->
      forall i, ordinal_strategy lines id i -> r = Z.of_nat i)
  /\ ((forall i, ~ title_strategy lines title i) ->
      (forall i, ~ time_strategy lines id i) ->
      (forall i, ~ ordinal_strategy lines id i) -> r = (-1)%Z).
Proof.
  intros Hid r. subst r. unfold resolveTargetLine. cbv zeta.
  destruct (matchByTitle_strategy lines title) as [[Ht Hnt] | (kt & Ht & Hkt)];
    rewrite Ht.
  - change (-1 =? -1)%Z with true. cbv iota.
    destruct (matchByTime_strategy lines id) as [[Hm Hnm] | (km & Hm & Hkm)];
      rewrite Hm.
    + change (-1 =? -1)%Z with true. cbv iota.
      repeat split.
      * intros i Hi. by destruct (Hnt i).
      * intros _ i Hi. by destruct (Hnm i).
      * intros _ _ i Hi. by apply matchByIndex_found.
      * intros _ _ Hno. by apply matchByIndex_none.
    + assert ((Z.of_nat km =? -1)%Z = false) as Hne by (apply Z.eqb_neq; lia).
      rewrite Hne.
      repeat split.
      * intros i Hi. by destruct (Hnt i).
      * intros _ i Hi. f_equal. apply (first_line_with_unique _ _ _ _ Hkm Hi).
      * intros _ Hno. by destruct (Hno km).
      * intros _ Hno. by destruct (Hno km).
  - assert ((Z.of_nat kt =? -1)%Z = false) as Hne by (apply Z.eqb_neq; lia).
    rewrite !Hne.
    assert (forall i, title_strategy lines title i -> i = kt) as Huniq.
    { intros i (t & Hti & _ & Hi). destruct Hkt as (t' & Ht' & _ & Hk).
      rewrite Hti in Ht'. inversion Ht'; subst t'.
      apply (first_line_with_unique _ _ _ _ Hi Hk). }
    repeat split.
    + intros i Hi. by rewrite (Huniq i Hi).
    + intros Hno. by destruct (Hno kt).
    + intros Hno. by destruct (Hno kt).
    + intros Hno. by destruct (Hno kt).
Qed.

Lemma first_line_with_test test P (lines : list jsstring) (i : nat) :
  (forall l, test l = true <-> P l) ->
  firstLineWhere test lines 0 = Z.of_nat i ->
  first_line_with P lines i.
Proof.
  intros HP Hr.
  destruct (firstLineWhere_first_line_with test P lines HP) as [[Hn _] | (k & Hk & Hf)].
  - rewrite Hn in Hr. lia.
  - rewrite Hk in Hr. by replace i with k by lia.
Defined.

(** In a note where the title ["b"] is on line 2 and the ordinal [0] of the
    identifier counts to line 1, line 2 is the target. *)
Lemma resolveTargetLine_strategies_witness :
  validEventId (js "2025090110000000") = true
  /\ ordinal_strategy [js "# H"; js "- 09:00 a"; js "- 10:00 b"]
       (js "2025090110000000") 1
  /\ resolveTargetLine [js "# H"; js "- 09:00 a"; js "- 10:00 b"]
       (js "2025090110000000") (Some (js "b")) = 2%Z.
Proof.
  split; [reflexivity |]. split.
  - exists (js "- 09:00 a"). repeat split.
    + by exists (js "09:00 a").
    + done.
  - apply (proj1 (resolveTargetLine_strategies
                    [js "# H"; js "- 09:00 a"; js "- 10:00 b"]
                    (js "2025090110000000") (Some (js "b")) eq_refl) 2%nat).
    exists (js "b"). split; [done |]. split; [done |].
    apply (first_line_with_test
             (fun line => recordStart line && includes line (js "b"))).
    + apply test_record_contains.
    + reflexivity.
Defined.

(** ** The bounds of a record (C2) *)

Lemma dropHashes_replicate n c r :
  c <> 35 -> dropHashes (replicate n 35 ++ c :: r) = c :: r.
Proof.
  intros Hc. induction n as [|n IH]; simpl.
  - by rewrite (proj2 (N.eqb_neq c 35) Hc).
  - done.
Qed.

Lemma dropHashes_split s : exists n, s = replicate n 35 ++ dropHashes s.
Proof.
  induction s as [|c s [n IH]]; simpl.
  - by exists 0%nat.
  - destruct (N.eqb_spec c 35) as [-> | Hc].
    + exists (S n). simpl. by rewrite <- IH.
    + by exists 0%nat.
Qed.

Lemma headingStart_line l : headingStart l = true <-> heading_line l.
Proof.
  unfold headingStart, heading_line. split.
  - destruct l as [|c r]; [done |].
    rewrite andb_true_iff, N.eqb_eq, startsWith_app. intros [-> [r' Hr']].
    destruct (dropHashes_split r) as [n Hn]. exists n, r'.
    rewrite Hr' in Hn. simpl. by rewrite Hn at 1.
  - intros (n & r & ->). simpl.
    change (js " " ++ r) with (32 :: r).
    rewrite dropHashes_replicate by done. reflexivity.
Qed.

Lemma stop_line_test l :
  recordStart l || headingStart l = true <-> stop_line l.
Proof. by rewrite orb_true_iff, recordStart_line, headingStart_line. Qed.

(** Blank lines and tab-indented lines never end a span. *)
Lemma continuation_not_stop l : blank_line l \/ tab_indented l -> ~ stop_line l.
Proof.
  intros Hl Hstop.
  assert (exists c r, l = c :: r /\ (c = 45 \/ c = 35)) as (c & r & -> & Hc).
  { destruct Hstop as [[r ->] | (n & r & ->)].
    - exists 45, (32 :: r). split; [reflexivity | by left].
    - exists 35, (replicate n 35 ++ js " " ++ r). split; [reflexivity | by right]. }
  destruct Hl as [Hb | [r' Hr']].
  - specialize (Hb c ltac:(by left)). by destruct Hc as [-> | ->].
  - inversion Hr'; subst. by destruct Hc.
Qed.

Lemma scanToNextEvent_Some rest (ci e : Z) :
  scanToNextEvent rest ci = Some e ->
  exists (k : nat) l,
    e = (ci + Z.of_nat k - 1)%Z /\ rest !! k = Some l /\ stop_line l
    /\ forall j l', (j < k)%nat -> rest !! j = Some l' -> ~ stop_line l'.
Proof.
  revert ci. induction rest as [|l0 rest IH]; intros ci; simpl; [done |].
  destruct (recordStart l0 || headingStart l0) eqn:H0.
  - intros He. exists 0%nat, l0.
    assert (e = (ci - 1)%Z) as ->.
    { destruct (recordStart l0); [congruence |]. simpl in H0. rewrite H0 in He.
      congruence. }
    repeat split; [lia | by apply stop_line_test | lia].
  - apply orb_false_iff in H0 as [H1 H2]. rewrite H1, H2. intros He.
    destruct (IH _ He) as (k & l & -> & Hk & Hl & Hb).
    exists (S k), l. repeat split; [lia | done | done |].
    intros [|j] l' Hj Hl'; simpl in Hl'.
    + inversion Hl'; subst. rewrite <- stop_line_test, H1, H2. done.
    + apply (Hb j); [lia | done].
Qed.

Lemma scanToNextEvent_None rest (ci : Z) :
  scanToNextEvent rest ci = None ->
  forall j l', rest !! j = Some l' -> ~ stop_line l'.
Proof.
  revert ci. induction rest as [|l0 rest IH]; intros ci; simpl.
  - intros _ j l'. by destruct j.
  - destruct (recordStart l0) eqn:H1; [done |].
    destruct (headingStart l0) eqn:H2; [done |].
    intros He [|j] l' Hl'; simpl in Hl'.
    + inversion Hl'; subst. rewrite <- stop_line_test, H1, H2. done.
    + by apply (IH _ He j).
Qed.

(** C2.  The span of the record that starts at [startIndex] begins at
    [startIndex] and ends on the line before the next record-start or
    section-heading line found from [startIndex + 1] on, or on the last
    line of the document when there is none; blank and tab-indented lines
    never stop the scan.  For ["# H", "- a", "\tx", "- b"] the spans at 1
    and at 3 are (1,2) and (3,3). *)
Theorem findRecordBoundaries_span (lines : list jsstring) (startIndex : nat)
    (line : jsstring) :
  lines !! startIndex = Some line ->
  recordStart line = true ->
  (exists e : nat,
     findRecordBoundaries lines (Z.of_nat startIndex)
       = (Z.of_nat startIndex, Z.of_nat e)
     /\ (startIndex <= e < length lines)%nat
     /\ (forall j l, (startIndex < j <= e)%nat -> lines !! j = Some l -> ~ stop_line l)
     /\ (S e = length lines \/ exists l, lines !! S e = Some l /\ stop_line l))
  /\ (forall l, blank_line l \/ tab_indented l -> ~ stop_line l)
  /\ findRecordBoundaries [js "# H"; js "- a"; TAB ++ js "x"; js "- b"] 1 = (1, 2)%Z
  /\ findRecordBoundaries [js "# H"; js "- a"; TAB ++ js "x"; js "- b"] 3 = (3, 3)%Z.
Proof.
  intros Hline _. split; [| split; [apply continuation_not_stop | by split]].
  pose proof (lookup_lt_Some _ _ _ Hline) as Hlt.
  unfold findRecordBoundaries. cbv zeta.
  replace (Z.to_nat (Z.of_nat startIndex + 1)) with (S startIndex) by lia.
  destruct (scanToNextEvent (drop (S startIndex) lines) (Z.of_nat startIndex + 1))
    as [e|] eqn:Hscan.
  - apply scanToNextEvent_Some in Hscan as (k & l & -> & Hk & Hl & Hb).
    rewrite lookup_drop in Hk.
    exists (startIndex + k)%nat. repeat split.
    + f_equal. lia.
    + lia.
    + apply lookup_lt_Some in Hk. lia.
    + intros j l' Hj Hl'. apply (Hb (j - S startIndex)%nat l'); [lia |].
      rewrite lookup_drop. by replace (S startIndex + (j - S startIndex))%nat with j by lia.
    + right. exists l. split; [| done].
      by replace (S (startIndex + k)) with (S startIndex + k)%nat by lia.
  - pose proof (scanToNextEvent_None _ _ Hscan) as Hb.
    exists (length lines - 1)%nat. repeat split.
    + f_equal. lia.
    + lia.
    + lia.
    + intros j l' Hj Hl'. apply (Hb (j - S startIndex)%nat l').
      rewrite lookup_drop. by replace (S startIndex + (j - S startIndex))%nat with j by lia.
    + left. lia.
Qed.

Lemma findRecordBoundaries_span_witness :
  exists e : nat,
    findRecordBoundaries [js "# H"; js "- a"; TAB ++ js "x"; js "- b"] (Z.of_nat 1)
      = (Z.of_nat 1, Z.of_nat e)
    /\ (1 <= e < 4)%nat
    /\ (forall j l, (1 < j <= e)%nat
          -> [js "# H"; js "- a"; TAB ++ js "x"; js "- b"] !! j = Some l
          -> ~ stop_line l)
    /\ (S e = 4%nat
        \/ exists l, [js "# H"; js "- a"; TAB ++ js "x"; js "- b"] !! S e = Some l
                     /\ stop_line l).
Proof.
  apply (proj1 (findRecordBoundaries_span
                  [js "# H"; js "- a"; TAB ++ js "x"; js "- b"] 1 (js "- a")
                  eq_refl eq_refl)).
Defined.

(** ** Running an operation on a vault *)

Lemma io_bind_run {A B} (m : io A) (k : A -> io B) (v : vault) :
  io_bind m k v
  = match m v with
    | (Returned a, v') => k a v'
    | (Thrown e, v') => (Thrown e, v')
    end.
Proof. reflexivity. Qed.

Lemma getFirstLinkpathDest_Some (v : vault) path content :
  v !! path = Some content -> getFirstLinkpathDest path v = (Returned (Some path), v).
Proof. intros H. unfold getFirstLinkpathDest. by rewrite H. Qed.

Lemma getFirstLinkpathDest_None (v : vault) path :
  v !! path = None -> getFirstLinkpathDest path v = (Returned None, v).
Proof. intros H. unfold getFirstLinkpathDest. by rewrite H. Qed.

Lemma vault_read_Some (v : vault) path content :
  v !! path = Some content -> vault_read path v = (Returned content, v).
Proof. intros H. unfold vault_read. by rewrite H. Qed.

(** ** No target line, no write (C3) *)

Lemma matchByTitle_fails lines title :
  matchByTitle lines title = (-1)%Z <-> forall i, ~ title_strategy lines title i.
Proof.
  destruct (matchByTitle_strategy lines title) as [[Hr Hn] | (k & Hr & Hk)].
  - done.
  - split; [lia |]. intros Hn. by destruct (Hn k).
Qed.

Lemma matchByTime_fails lines id :
  matchByTime lines id = (-1)%Z <-> forall i, ~ time_strategy lines id i.
Proof.
  destruct (matchByTime_strategy lines id) as [[Hr Hn] | (k & Hr & Hk)].
  - done.
  - split; [lia |]. intros Hn. by destruct (Hn k).
Qed.

Lemma matchByIndex_fails lines id :
  validEventId id = true ->
  matchByIndex lines id = (-1)%Z <-> forall i, ~ ordinal_strategy lines id i.
Proof.
  intros Hid. split.
  - intros Hr i Hi. rewrite (matchByIndex_found lines id i Hid Hi) in Hr. lia.
  - by apply matchByIndex_none.
Qed.

Lemma resolveTargetLine_none lines id title :
  matchByTitle lines title = (-1)%Z -> matchByTime lines id = (-1)%Z ->
  matchByIndex lines id = (-1)%Z ->
  resolveTargetLine lines id title = (-1)%Z.
Proof.
  intros Ht Hm Hi. unfold resolveTargetLine. cbv zeta.
  rewrite Ht. change (-1 =? -1)%Z with true. cbv iota.
  rewrite Hm. change (-1 =? -1)%Z with true. cbv iota. done.
Qed.

(** C3.  When none of the three strategies selects a line of the document,
    [deleteEventFromDailyNote] throws ['Could not find target event line'],
    a message no other failure of the operation carries, and the vault is
    what it was: nothing is written, no line is deleted. *)
Theorem deleteEventFromDailyNote_not_found (v : vault)
    (eventId eventPath : jsstring) (eventTitle : option jsstring)
    (fileContents : jsstring) :
  validEventId eventId = true ->
  v !! eventPath = Some fileContents ->
  (forall i, ~ title_strategy (getAllLinesFromFile fileContents) eventTitle i) ->
  (forall i, ~ time_strategy (getAllLinesFromFile fileContents) eventId i) ->
  (forall i, ~ ordinal_strategy (getAllLinesFromFile fileContents) eventId i) ->
  deleteEventFromDailyNote eventId eventPath eventTitle v
    = (Thrown (js "Could not find target event line"), v)
  /\ js "Could not find target event line" <> js "Invalid event ID format"
  /\ js "Could not find target event line" <> js "Target line is not an event line"
  /\ startsWith (js "Could not find target event line") (js "File not found: ") = false.
Proof.
  intros Hid Hfile Ht Hm Hi. split; [| by repeat split].
  unfold deleteEventFromDailyNote. rewrite Hid. change (negb true) with false.
  cbv iota.
  rewrite io_bind_run, (getFirstLinkpathDest_Some v eventPath fileContents Hfile).
  rewrite io_bind_run, (vault_read_Some v eventPath fileContents Hfile).
  cbv zeta. rewrite resolveTargetLine_none.
  - reflexivity.
  - by apply matchByTitle_fails.
  - by apply matchByTime_fails.
  - by apply matchByIndex_fails.
Qed.

Lemma deleteEventFromDailyNote_not_found_witness :
  deleteEventFromDailyNote (js "2025090110000005") (js "2025-09-01.md")
      (Some (js "Lunch"))
      {[ js "2025-09-01.md" := js "# H" ++ LF ++ js "- 09:00 a" ]}
    = (Thrown (js "Could not find target event line"),
       {[ js "2025-09-01.md" := js "# H" ++ LF ++ js "- 09:00 a" ]}).
Proof.
  apply (deleteEventFromDailyNote_not_found
           {[ js "2025-09-01.md" := js "# H" ++ LF ++ js "- 09:00 a" ]}
           (js "2025090110000005") (js "2025-09-01.md") (Some (js "Lunch"))
           (js "# H" ++ LF ++ js "- 09:00 a")).
  - reflexivity.
  - apply lookup_singleton_eq.
  - apply matchByTitle_fails. reflexivity.
  - apply matchByTime_fails. reflexivity.
  - apply matchByIndex_fails; reflexivity.
Defined.

(** ** Formatting of an event line (C4) *)

Section FormatEventLine.
Context (E : api).

Lemma formatEventLine_plain (content : jsstring) (s e : moment) (t : jsstring) :
  blockIdMatch content = None ->
  formatEventLine E content s e t None
  = js "- " ++ markerPrefix (getMarkBasedOnEvent E t)
      ++ (if isSameDay s e
          then format_HHmm s ++ js "-" ++ format_HHmm e ++ js " " ++ content
          else content ++ js " 🛫 " ++ format_YYYY_MM_DD s
                 ++ js " 📅 " ++ format_YYYY_MM_DD e).
Proof.
  intros Hno. unfold formatEventLine, markerPrefix. rewrite Hno. cbv zeta.
  change (truthy []) with false. cbv iota.
  destruct (isSameDay s e), (truthyMark (getMarkBasedOnEvent E t)) as [m|];
    unfold format_HHmm; rewrite <- ?app_assoc; reflexivity.
Qed.

End FormatEventLine.

(** C4 (as amended).  For a content without trailing annotation and no
    notes, [formatEventLine] renders [- HH:MM-HH:MM <content>] when start
    and end fall on the same day and [- <content> 🛫 YYYY-MM-DD 📅
    YYYY-MM-DD] when they do not, with [[<marker>] ] after [- ] for an event
    type that has a marker; where ['default'] has none, "Lunch" from 12:00
    to 13:00 on 2025-09-01 gives [- 12:00-13:00 Lunch] and "Trip" from
    2025-09-01 to 2025-09-03 gives [- Trip 🛫 2025-09-01 📅 2025-09-03]. *)
Theorem formatEventLine_same_day_or_dates (E : api) (content : jsstring)
    (s e : moment) (t : jsstring) :
  blockIdMatch content = None ->
  (isSameDay s e = true ->
   formatEventLine E content s e t None
   = js "- " ++ markerPrefix (getMarkBasedOnEvent E t)
       ++ format_HHmm s ++ js "-" ++ format_HHmm e ++ js " " ++ content)
  /\ (isSameDay s e = false ->
      formatEventLine E content s e t None
      = js "- " ++ markerPrefix (getMarkBasedOnEvent E t)
          ++ content ++ js " 🛫 " ++ format_YYYY_MM_DD s
          ++ js " 📅 " ++ format_YYYY_MM_DD e)
  /\ (truthyMark (getMarkBasedOnEvent E (js "default")) = None ->
      formatEventLine E (js "Lunch") (Moment 2025 9 1 12 0 0)
          (Moment 2025 9 1 13 0 0) (js "default") None
        = js "- 12:00-13:00 Lunch"
      /\ formatEventLine E (js "Trip") (Moment 2025 9 1 0 0 0)
           (Moment 2025 9 3 0 0 0) (js "default") None
         = js "- Trip 🛫 2025-09-01 📅 2025-09-03").
Proof.
  intros Hno. split; [| split].
  - intros Hsame. rewrite formatEventLine_plain by done. by rewrite Hsame.
  - intros Hdiff. rewrite formatEventLine_plain by done. by rewrite Hdiff.
  - intros Hdefault. split.
    + rewrite formatEventLine_plain by reflexivity.
      unfold markerPrefix. rewrite Hdefault. reflexivity.
    + rewrite formatEventLine_plain by reflexivity.
      unfold markerPrefix. rewrite Hdefault. reflexivity.
Qed.

Lemma formatEventLine_same_day_or_dates_witness :
  blockIdMatch (js "Write report") = None
  /\ formatEventLine sampleApi (js "Write report") (Moment 2025 9 12 9 0 0)
       (Moment 2025 9 12 10 30 0) (js "TASK-TODO") None
     = js "- [ ] 09:00-10:30 Write report".
Proof.
  split; [reflexivity |].
  apply (proj1 (formatEventLine_same_day_or_dates sampleApi (js "Write report")
                  (Moment 2025 9 12 9 0 0) (Moment 2025 9 12 10 30 0)
                  (js "TASK-TODO") eq_refl)).
  reflexivity.
Defined.

(** A content with a trailing annotation is not rendered as
    [- <content> 🛫 YYYY-MM-DD 📅 YYYY-MM-DD]: the annotation is taken off
    the content and put behind the dates. *)
Lemma formatEventLine_annotation_after_dates :
  formatEventLine sampleApi (js "Trip ^ab12") (Moment 2025 9 1 0 0 0)
      (Moment 2025 9 3 0 0 0) (js "default") None
    = js "- Trip 🛫 2025-09-01 📅 2025-09-03 ^ab12"
  /\ formatEventLine sampleApi (js "Trip ^ab12") (Moment 2025 9 1 0 0 0)
       (Moment 2025 9 3 0 0 0) (js "default") None
     <> js "- " ++ js "Trip ^ab12" ++ js " 🛫 " ++ js "2025-09-01"
          ++ js " 📅 " ++ js "2025-09-03".
Proof. split; [reflexivity | discriminate]. Qed.

(** ** The trailing annotation (C6) *)

Lemma is_space_not_alnum w : is_space w = true -> is_alnum w = false.
Proof.
  unfold is_space, is_alnum, is_digit. intros H.
  destruct (N.leb_spec 97 w); [bool_lia |].
  destruct (N.leb_spec 65 w); [bool_lia |].
  destruct (N.leb_spec 48 w); [bool_lia |].
  reflexivity.
Qed.

Lemma is_space_not_caret w : is_space w = true -> (w =? 94) = false.
Proof.
  intros H. destruct (N.eqb_spec w 94) as [-> |]; [| done]. by vm_compute in H.
Qed.

Lemma forallb_app_false {A} (p : A -> bool) (l1 l2 : list A) x :
  p x = false -> forallb p (l1 ++ x :: l2) = false.
Proof.
  intros Hx. rewrite forallb_app. simpl. rewrite Hx. by rewrite andb_false_r.
Qed.

Lemma blockIdMatch_unfold s :
  blockIdMatch s
  = match blockIdAt s with
    | Some g => Some (s, g)
    | None => match s with [] => None | _ :: s' => blockIdMatch s' end
    end.
Proof. by destruct s. Qed.

(** The annotation at the end of a content is what the pattern finds. *)
Lemma blockIdMatch_trailing (pre : jsstring) (w : jschar) (a : jsstring) :
  is_space w = true -> forallb is_alnum a = true -> (2 <= length a)%nat ->
  blockIdMatch (pre ++ w :: 94 :: a) = Some (w :: 94 :: a, 94 :: a).
Proof.
  intros Hw Ha Hlen. induction pre as [|p0 pre IH].
  - assert (blockIdAt (w :: 94 :: a) = Some (94 :: a)) as Hat.
    { unfold blockIdAt. rewrite Hw, Ha.
      by replace (2 <=? length a)%nat with true by (symmetry; apply Nat.leb_le; lia). }
    change ([] ++ w :: 94 :: a) with (w :: 94 :: a).
    by rewrite blockIdMatch_unfold, Hat.
  - change ((p0 :: pre) ++ w :: 94 :: a) with (p0 :: (pre ++ w :: 94 :: a)).
    assert (blockIdAt (p0 :: (pre ++ w :: 94 :: a)) = None) as Hat.
    { unfold blockIdAt. destruct pre as [|c pre]; simpl.
      - by rewrite (is_space_not_caret w Hw), andb_false_r.
      - rewrite (forallb_app_false is_alnum pre (94 :: a) w (is_space_not_alnum w Hw)).
        by rewrite andb_false_r. }
    rewrite blockIdMatch_unfold, Hat. exact IH.
Qed.

Section Annotation.
Context (E : api).

Lemma formatEventLine_parts (content : jsstring) (s e : moment) (t : jsstring)
    (notes : option jsstring) (m0 g : jsstring) :
  blockIdMatch content = Some (m0, g) -> truthy g = true ->
  formatEventLine E content s e t notes
  = eventLineText E (removeFirst content m0) s e t ++ notesBlock notes ++ js " " ++ g.
Proof.
  intros Hm Hg. unfold formatEventLine, eventLineText, notesBlock, markerPrefix.
  rewrite Hm. cbv zeta. rewrite Hg.
  destruct (isSameDay s e), (truthyMark (getMarkBasedOnEvent E t)) as [m|],
    notes as [n|]; try destruct (truthy n && truthy (trim n));
    unfold format_HHmm; rewrite <- ?app_assoc; rewrite ?app_nil_l; reflexivity.
Qed.

Lemma formatAllDayEvent_parts (content : jsstring) (o s e : moment) (t : jsstring)
    (m0 g : jsstring) :
  blockIdMatch content = Some (m0, g) -> truthy g = true ->
  formatAllDayEvent E content o s e t
  = allDayLineText E (removeFirst content m0) o s e t ++ js " " ++ g.
Proof.
  intros Hm Hg. unfold formatAllDayEvent, allDayLineText.
  rewrite Hm. cbv zeta. rewrite Hg.
  destruct (getMarkBasedOnEvent E t) as [m|],
    (negb (isSameDay s e) || negb (isSameDay o s));
    rewrite <- ?app_assoc; rewrite ?app_nil_l; reflexivity.
Qed.

End Annotation.

(** C6 (as amended).  For a content that ends in a white space, a caret and
    two or more letters or digits, [formatEventLine] and [formatAllDayEvent]
    take the annotation off the content and put it back unchanged, after one
    space, as the last token of the whole output: behind the record line
    when there are no notes (always so for [formatAllDayEvent]), and behind
    the last notes line when a notes block is appended. *)
Theorem annotation_last_token_of_output (E : api) (pre : jsstring) (w : jschar)
    (a : jsstring) (o s e : moment) (t : jsstring) (notes : option jsstring) :
  is_space w = true -> forallb is_alnum a = true -> (2 <= length a)%nat ->
  formatEventLine E (pre ++ w :: js "^" ++ a) s e t notes
    = eventLineText E (removeFirst (pre ++ w :: js "^" ++ a) (w :: js "^" ++ a)) s e t
        ++ notesBlock notes ++ js " " ++ js "^" ++ a
  /\ formatEventLine E (pre ++ w :: js "^" ++ a) s e t None
     = eventLineText E (removeFirst (pre ++ w :: js "^" ++ a) (w :: js "^" ++ a)) s e t
         ++ js " " ++ js "^" ++ a
  /\ formatAllDayEvent E (pre ++ w :: js "^" ++ a) o s e t
     = allDayLineText E (removeFirst (pre ++ w :: js "^" ++ a) (w :: js "^" ++ a)) o s e t
         ++ js " " ++ js "^" ++ a.
Proof.
  intros Hw Ha Hlen. change (js "^" ++ a) with (94 :: a).
  pose proof (blockIdMatch_trailing pre w a Hw Ha Hlen) as Hm.
  split; [| split].
  - by apply formatEventLine_parts.
  - by rewrite (formatEventLine_parts E _ s e t None _ _ Hm).
  - by apply formatAllDayEvent_parts.
Qed.

Lemma annotation_last_token_of_output_witness :
  formatEventLine sampleApi (js "Lunch ^ab12") (Moment 2025 9 1 12 0 0)
      (Moment 2025 9 1 13 0 0) (js "default") (Some (js "n1"))
    = js "- 12:00-13:00 Lunch" ++ LF ++ TAB ++ js "n1" ++ js " ^ab12"
  /\ formatAllDayEvent sampleApi (js "Lunch ^ab12") (Moment 2025 9 1 0 0 0)
       (Moment 2025 9 1 0 0 0) (Moment 2025 9 1 0 0 0) (js "TASK-TODO")
     = js "- [ ] Lunch 📅 2025-09-01 ^ab12".
Proof.
  pose proof (annotation_last_token_of_output sampleApi (js "Lunch") 32 (js "ab12")
                (Moment 2025 9 1 0 0 0) (Moment 2025 9 1 12 0 0)
                (Moment 2025 9 1 13 0 0) (js "default") (Some (js "n1"))
                eq_refl eq_refl ltac:(vm_compute; lia)) as (H1 & _ & _).
  pose proof (annotation_last_token_of_output sampleApi (js "Lunch") 32 (js "ab12")
                (Moment 2025 9 1 0 0 0) (Moment 2025 9 1 0 0 0)
                (Moment 2025 9 1 0 0 0) (js "TASK-TODO") None
                eq_refl eq_refl ltac:(vm_compute; lia)) as (_ & _ & H3).
  split.
  - exact H1.
  - exact H3.
Defined.

(** With notes the annotation is not on the record line: the first line of
    the output ends with the content, and the annotation follows the
    notes. *)
Lemma formatEventLine_annotation_after_notes :
  formatEventLine sampleApi (js "Lunch ^ab12") (Moment 2025 9 1 12 0 0)
      (Moment 2025 9 1 13 0 0) (js "default") (Some (js "n1"))
    = js "- 12:00-13:00 Lunch" ++ LF ++ TAB ++ js "n1 ^ab12"
  /\ split_lf (formatEventLine sampleApi (js "Lunch ^ab12") (Moment 2025 9 1 12 0 0)
                 (Moment 2025 9 1 13 0 0) (js "default") (Some (js "n1"))) !! 0%nat
     = Some (js "- 12:00-13:00 Lunch")
  /\ includes (js "- 12:00-13:00 Lunch") (js "^ab12") = false.
Proof. repeat split. Qed.

(** ** The resolver of the edit flow (C7) *)

Lemma lineAt_of_nat (lines : list jsstring) (k : nat) :
  lineAt lines (Z.of_nat k) = lines !! k.
Proof.
  unfold lineAt. replace (Z.of_nat k <? 0)%Z with false by (symmetry; apply Z.ltb_ge; lia).
  by rewrite Nat2Z.id.
Qed.

Lemma firstLineWhere_hit test (lines : list jsstring) (i : Z) :
  firstLineWhere test lines 0 = i -> i <> (-1)%Z ->
  exists line, lineAt lines i = Some line /\ line ∈ lines /\ test line = true.
Proof.
  intros Hr Hne.
  destruct (firstLineWhere_inv test lines 0 ltac:(lia))
    as [[Hn _] | (k & line & Hk & Hl & Ht & _)].
  - congruence.
  - exists line. rewrite <- Hr, Hk, Z.add_0_l, lineAt_of_nat.
    split; [done |]. split; [| done]. by apply list_elem_of_lookup_2 with k.
Qed.

Lemma exactLineMatch_recordStart E eventid oc d t line :
  exactLineMatch E eventid oc d t line = true ->
  recordStart line = true /\ includes line oc = true.
Proof.
  unfold exactLineMatch, recordStart. cbv zeta.
  destruct (includes line oc), (startsWith line (js "- ")); simpl; done.
Qed.





(** ** Decimal text *)

Lemma decimal_value_snoc ds d :
  decimal_value (ds ++ [d]) = decimal_value ds * 10 + digit_value d.
Proof. unfold decimal_value. by rewrite fold_left_app. Qed.

Lemma digit_of_mod n : is_digit (48 + n mod 10) = true.
Proof.
  apply is_digit_range. pose proof (N.mod_upper_bound n 10 ltac:(lia)) as H.
  revert H. generalize (n mod 10). intros m H. lia.
Qed.

(** The digits that [decimal_digits] puts before [acc] are the decimal
    text of [n], when the fuel covers the binary size of [n]. *)
Lemma div10_facts (n : N) :
  n = 10 * (n / 10) + n mod 10 /\ n mod 10 < 10.
Proof.
  split; [apply N.div_mod; lia | apply N.mod_upper_bound; lia].
Qed.

Lemma decimal_digits_value (fuel : nat) (n : N) (acc : jsstring) :
  (1 <= fuel)%nat -> n < 2 ^ N.of_nat fuel ->
  exists ds, decimal_digits fuel n acc = ds ++ acc
             /\ ds <> [] /\ forallb is_digit ds = true /\ decimal_value ds = n.
Proof.
  revert n acc. induction fuel as [|f IH]; intros n acc Hf Hn; [lia |].
  simpl decimal_digits. destruct (div10_facts n) as [Hdm Hr].
  destruct (N.ltb_spec n 10) as [Hlt | Hge].
  - exists [48 + n mod 10]. repeat split.
    + done.
    + simpl. by rewrite digit_of_mod.
    + unfold decimal_value, digit_value. simpl fold_left.
      rewrite N.mod_small by lia. lia.
  - assert (n / 10 < 2 ^ N.of_nat f) as Hq.
    { rewrite Nat2N.inj_succ, N.pow_succ_r' in Hn.
      revert Hdm Hr Hn. generalize (n / 10) (n mod 10) (2 ^ N.of_nat f).
      intros q r p Hdm Hr Hn. lia. }
    assert (1 <= f)%nat as Hf1.
    { destruct f; [| lia]. simpl in Hq.
      revert Hdm Hr Hq. generalize (n / 10) (n mod 10). intros q r Hdm Hr Hq. lia. }
    destruct (IH (n / 10) ((48 + n mod 10) :: acc) Hf1 Hq)
      as (ds & Hds & Hne & Hdig & Hval).
    exists (ds ++ [48 + n mod 10]). repeat split.
    + rewrite Hds. by rewrite <- app_assoc.
    + by destruct ds.
    + rewrite forallb_app, Hdig. simpl. by rewrite digit_of_mod.
    + rewrite decimal_value_snoc, Hval. unfold digit_value.
      revert Hdm Hr. generalize (n / 10) (n mod 10). intros q r Hdm Hr. lia.
Qed.

Lemma numberToString_decimal (n : N) :
  numberToString n <> [] /\ forallb is_digit (numberToString n) = true
  /\ decimal_value (numberToString n) = n.
Proof.
  unfold numberToString.
  destruct (decimal_digits_value (S (N.to_nat (N.log2 n))) n []) as (ds & -> & H).
  - lia.
  - rewrite Nat2N.inj_succ, N2Nat.id.
    destruct (N.eq_dec n 0) as [-> | Hn]; [done |].
    apply N.log2_spec. lia.
  - by rewrite app_nil_r.
Qed.

(** A number below [10^k] has at most [k] digits. *)
Lemma decimal_digits_length (fuel : nat) (n : N) (acc : jsstring) (k : nat) :
  (1 <= k)%nat -> n < 10 ^ N.of_nat k ->
  (length (decimal_digits fuel n acc) <= k + length acc)%nat.
Proof.
  revert n acc k. induction fuel as [|f IH]; intros n acc k Hk Hn; simpl; [lia |].
  destruct (N.ltb_spec n 10) as [Hlt | Hge]; simpl; [lia |].
  destruct k as [|[|k]]; [lia | simpl in Hn; lia |].
  specialize (IH (n / 10) ((48 + n mod 10) :: acc) (S k) ltac:(lia)).
  simpl length in IH. etrans; [apply IH | lia].
  destruct (div10_facts n) as [Hdm Hr].
  rewrite (Nat2N.inj_succ (S k)), N.pow_succ_r' in Hn.
  revert Hdm Hr Hn. generalize (n / 10) (n mod 10) (10 ^ N.of_nat (S k)).
  intros q r p Hdm Hr Hn. lia.
Qed.

Lemma zeroFill_digits (width : nat) (n : N) :
  (1 <= width)%nat -> n < 10 ^ N.of_nat width ->
  length (zeroFill width n) = width /\ forallb is_digit (zeroFill width n) = true.
Proof.
  intros Hw Hn. unfold zeroFill. cbv zeta.
  pose proof (decimal_digits_length (S (N.to_nat (N.log2 n))) n [] width Hw Hn) as Hlen.
  fold (numberToString n) in Hlen. simpl in Hlen.
  destruct (numberToString_decimal n) as (_ & Hdig & _).
  split.
  - rewrite length_app, length_replicate. lia.
  - rewrite forallb_app, Hdig, andb_true_r.
    apply forallb_forall. intros c Hc. apply list_elem_of_In in Hc.
    apply elem_of_replicate in Hc as [-> _]. done.
Qed.

(** ** Lines of a text *)

Lemma split_lf_nonempty s : split_lf s <> [].
Proof.
  induction s as [|c s IH]; simpl; [done |].
  destruct (c =? 10); [done |]. by destruct (split_lf s).
Qed.

Lemma split_lf_app_lf (a b : jsstring) :
  split_lf (a ++ LF ++ b) = split_lf a ++ split_lf b.
Proof.
  change (LF ++ b) with (10 :: b).
  induction a as [|c a IH]; simpl; [done |].
  destruct (c =? 10).
  - by rewrite IH.
  - rewrite IH. pose proof (split_lf_nonempty a). by destruct (split_lf a).
Qed.

Lemma split_lf_one_line (s : jsstring) : 10 ∉ s -> split_lf s = [s].
Proof.
  induction s as [|c s IH]; intros Hs; simpl; [done |].
  apply not_elem_of_cons in Hs as [Hc Hs].
  rewrite (proj2 (N.eqb_neq c 10)) by done. by rewrite IH.
Qed.

Lemma split_lf_only_empty_line (s : jsstring) : split_lf s = [[]] -> s = [].
Proof.
  destruct s as [|c s]; [done |]. simpl.
  pose proof (split_lf_nonempty s). destruct (c =? 10), (split_lf s); done.
Qed.

Lemma digits_without_lf (s : jsstring) : forallb is_digit s = true -> 10 ∉ s.
Proof.
  intros H Hin. rewrite forallb_forall in H.
  apply list_elem_of_In in Hin. by specialize (H 10 Hin).
Qed.

(** ** Time stamps *)

Lemma valid_moment_ranges (m : moment) :
  valid_moment m = true ->
  year m < 10000 /\ month m < 100 /\ day m < 100 /\ hour m < 24
  /\ minute m < 60 /\ second m < 60.
Proof.
  unfold valid_moment. rewrite !andb_true_iff.
  rewrite !N.leb_le, !N.ltb_lt.
  intros (((((((Hy & Hm1) & Hm2) & Hd1) & Hd2) & Hh) & Hmi) & Hs).
  assert (daysInMonth (year m) (month m) <= 31).
  { unfold daysInMonth. repeat case_match; lia. }
  lia.
Qed.

(** [YYYYMMDDHHmmss] of a valid moment is fourteen digits. *)
Lemma format_YYYYMMDDHHmmss_digits (m : moment) :
  valid_moment m = true ->
  length (format_YYYYMMDDHHmmss m) = 14%nat
  /\ forallb is_digit (format_YYYYMMDDHHmmss m) = true.
Proof.
  intros Hv. destruct (valid_moment_ranges m Hv) as (Hy & Hmo & Hd & Hh & Hmi & Hs).
  unfold format_YYYYMMDDHHmmss.
  destruct (zeroFill_digits 4 (year m)) as [L1 D1]; [lia | simpl; lia |].
  destruct (zeroFill_digits 2 (month m)) as [L2 D2]; [lia | simpl; lia |].
  destruct (zeroFill_digits 2 (day m)) as [L3 D3]; [lia | simpl; lia |].
  destruct (zeroFill_digits 2 (hour m)) as [L4 D4]; [lia | simpl; lia |].
  destruct (zeroFill_digits 2 (minute m)) as [L5 D5]; [lia | simpl; lia |].
  destruct (zeroFill_digits 2 (second m)) as [L6 D6]; [lia | simpl; lia |].
  split.
  - rewrite !length_app. lia.
  - rewrite !forallb_app, D1, D2, D3, D4, D5, D6. done.
Qed.

(** ** The ledger (C8) *)

Lemma nextLineNum_cases (fileLines : list jsstring) :
  nextLineNum fileLines
  = if bool_decide (fileLines = [[]]) then 1 else N.of_nat (length fileLines) + 1.
Proof.
  case_bool_decide as H.
  - by rewrite H.
  - unfold nextLineNum. destruct fileLines as [|[|c l] [|l' ls]]; done.
Qed.

Lemma createDeleteEventInFile_run (file fileContent event deleteDate : jsstring)
    (v : vault) :
  createDeleteEventInFile file fileContent event deleteDate v
  = (Returned true,
     <[file := if truthy fileContent
               then fileContent ++ LF ++ event ++ js " deletedAt: " ++ deleteDate
               else event ++ js " deletedAt: " ++ deleteDate]> v).
Proof.
  unfold createDeleteEventInFile. cbv zeta. rewrite io_bind_run.
  unfold vault_modify, io_ret. by destruct (truthy fileContent).
Qed.

(** C8.  On an existing ledger [sendEventToDelete] appends the one line
    [<event> deletedAt: <ledgerId>] at the end, where the ledgerId is the
    fourteen digits [YYYYMMDDHHmmss] of the moment of the call followed,
    without separator, by the decimal text of the 1-based number of the
    line the entry gets: 1 for a ledger that is one empty line, the number
    of lines plus one otherwise. *)
Theorem sendEventToDelete_appends_entry (E : api) (date : moment)
    (event : jsstring) (v : vault) (old : jsstring) :
  valid_moment date = true ->
  10 ∉ event ->
  v !! (getDailyNotePath E ++ js "/delete.md") = Some old ->
  let oldLines := getAllLinesFromFile old in
  let lineNum := nextLineNum oldLines in
  let ledgerId := format_YYYYMMDDHHmmss date ++ numberToString lineNum in
  let entry := event ++ js " deletedAt: " ++ ledgerId in
  let new := if truthy old then old ++ LF ++ entry else entry in
  sendEventToDelete E date event v
    = (Returned (format_slashed date),
       <[getDailyNotePath E ++ js "/delete.md" := new]> v)
  /\ getAllLinesFromFile new = (if truthy old then oldLines else []) ++ [entry]
  /\ N.of_nat (length (getAllLinesFromFile new)) = lineNum
  /\ getAllLinesFromFile new !! (N.to_nat lineNum - 1)%nat = Some entry
  /\ lineNum = (if bool_decide (oldLines = [[]]) then 1
                else N.of_nat (length oldLines) + 1)
  /\ length (format_YYYYMMDDHHmmss date) = 14%nat
  /\ forallb is_digit (format_YYYYMMDDHHmmss date) = true
  /\ forallb is_digit (numberToString lineNum) = true
  /\ decimal_value (numberToString lineNum) = lineNum.
Proof.
  intros Hdate Hevent Hfile oldLines lineNum ledgerId entry new.
  destruct (format_YYYYMMDDHHmmss_digits date Hdate) as [Hlen Hdig].
  destruct (numberToString_decimal lineNum) as (_ & Hnd & Hnv).
  assert (10 ∉ entry) as Hentry.
  { unfold entry, ledgerId. rewrite !not_elem_of_app. repeat split.
    - done.
    - by vm_compute; intros H; repeat (apply elem_of_cons in H as [H | H]; [done |]);
        apply elem_of_nil in H.
    - by apply digits_without_lf.
    - by apply digits_without_lf. }
  assert (getAllLinesFromFile new = (if truthy old then oldLines else []) ++ [entry])
    as Hlines.
  { unfold new, getAllLinesFromFile. destruct (truthy old).
    - rewrite split_lf_app_lf. by rewrite (split_lf_one_line entry).
    - by rewrite (split_lf_one_line entry). }
  assert (N.of_nat (length (getAllLinesFromFile new)) = lineNum) as Hcount.
  { rewrite Hlines. unfold lineNum. rewrite nextLineNum_cases.
    destruct old as [|c old'] eqn:Hold.
    - reflexivity.
    - change (truthy (c :: old')) with true. cbv iota.
      case_bool_decide as Hone.
      + by apply split_lf_only_empty_line in Hone.
      + rewrite length_app. simpl. lia. }
  repeat split.
  - unfold sendEventToDelete. cbv zeta.
    rewrite io_bind_run, (getFirstLinkpathDest_Some v _ old Hfile).
    rewrite io_bind_run, (vault_read_Some v _ old Hfile).
    rewrite io_bind_run, createDeleteEventInFile_run. reflexivity.
  - exact Hlines.
  - exact Hcount.
  - rewrite <- Hcount, Nat2N.id. rewrite Hlines, length_app. simpl.
    replace (length (if truthy old then oldLines else []) + 1 - 1)%nat
      with (length (if truthy old then oldLines else []) + 0)%nat by lia.
    by rewrite lookup_app_r, Nat.add_0_r, Nat.sub_diag by lia.
  - apply nextLineNum_cases.
  - exact Hlen.
  - exact Hdig.
  - exact Hnd.
  - exact Hnv.
Qed.

Lemma sendEventToDelete_appends_entry_witness :
  exists new,
    sendEventToDelete sampleApi (Moment 2025 9 12 10 30 0) (js "- 09:00-10:00 Team sync")
        {[ js "journal/delete.md" := js "- [ ] a deletedAt: 202509110800001" ]}
      = (Returned (format_slashed (Moment 2025 9 12 10 30 0)),
         <[ getDailyNotePath sampleApi ++ js "/delete.md" := new ]>
           {[ js "journal/delete.md" := js "- [ ] a deletedAt: 202509110800001" ]})
    /\ new = js "- [ ] a deletedAt: 202509110800001" ++ LF
               ++ js "- 09:00-10:00 Team sync deletedAt: 202509121030002"
    /\ format_slashed (Moment 2025 9 12 10 30 0) = js "2025/09/12 10:30:00".
Proof.
  eexists. split; [| split].
  - apply (proj1 (sendEventToDelete_appends_entry sampleApi (Moment 2025 9 12 10 30 0)
                    (js "- 09:00-10:00 Team sync")
                    {[ js "journal/delete.md" := js "- [ ] a deletedAt: 202509110800001" ]}
                    (js "- [ ] a deletedAt: 202509110800001")
                    eq_refl
                    ltac:(vm_compute; intros H;
                          repeat (apply elem_of_cons in H as [H | H]; [done |]);
                          by apply elem_of_nil in H)
                    (lookup_singleton_eq _ _))).
  - vm_compute. reflexivity.
  - vm_compute. reflexivity.
Defined.

(** ** Restoring from the ledger: a line that is no record (C10) *)

Lemma split_lf_head_prefix (s l0 : jsstring) (ls : list jsstring) :
  split_lf s = l0 :: ls -> exists b, s = l0 ++ b.
Proof.
  revert l0 ls. induction s as [|c s IH]; intros l0 ls; simpl.
  - intros H. inversion H. by exists [].
  - destruct (c =? 10).
    + intros H. inversion H. by exists (c :: s).
    + destruct (split_lf s) as [|l ls'] eqn:Hs.
      * intros H. inversion H; subst. by destruct (split_lf_nonempty s).
      * intros H. inversion H; subst.
        destruct (IH l ls eq_refl) as [b ->]. by exists b.
Qed.

(** A line of a text is a part of the text. *)
Lemma split_lf_contains (s l : jsstring) : l ∈ split_lf s -> contains s l.
Proof.
  induction s as [|c s IH]; simpl.
  - intros H. apply list_elem_of_singleton in H as ->. by exists [], [].
  - destruct (c =? 10).
    + intros H. apply elem_of_cons in H as [-> | H].
      * by exists [], (c :: s).
      * destruct (IH H) as (a & b & ->). by exists (c :: a), b.
    + destruct (split_lf s) as [|l0 ls] eqn:Hs.
      * intros H. apply list_elem_of_singleton in H as ->. 
        by destruct (split_lf_nonempty s).
      * intros H. apply elem_of_cons in H as [-> | H].
        -- destruct (split_lf_head_prefix s l0 ls Hs) as [b ->]. by exists [], b.
        -- destruct IH as (a & b & ->); [by right |]. by exists (c :: a), b.
Qed.

Lemma removeFirst_length (s p : jsstring) :
  includes s p = true -> (length (removeFirst s p) + length p = length s)%nat.
Proof.
  induction s as [|c s IH].
  - simpl. rewrite orb_false_r. intros H. rewrite H.
    apply startsWith_app in H as [r Hr]. by destruct p.
  - simpl includes. simpl removeFirst.
    destruct (startsWith (c :: s) p) eqn:Hsw.
    + intros _. apply startsWith_app in Hsw as [r Hr]. rewrite Hr.
      rewrite drop_app_length, length_app. lia.
    + simpl. intros H. specialize (IH H). lia.
Qed.

Lemma validEventId_hasFourteenDigits id :
  validEventId id = true -> hasFourteenDigits id = true.
Proof.
  unfold validEventId. rewrite andb_true_iff. intros [Hd Hl].
  destruct id as [|c id]; [done |].
  assert (hasFourteenDigits (c :: id)
          = (14 <=? length (takeWhile is_digit (c :: id)))%nat || hasFourteenDigits id)
    as -> by reflexivity.
  rewrite (takeWhile_all is_digit (c :: id) Hd). by rewrite Hl.
Qed.

(** C10.  For a well-formed ledgerId that addresses a line of the ledger
    which is not of the form [- <text>], [restoreDeletedEvent] writes the
    ledger back with the first occurrence of the text of that line removed,
    then returns the empty result; no other file is written, and the ledger
    has changed unless the addressed line is empty. *)
Theorem restoreDeletedEvent_no_record_line (E : api) (v : vault)
    (deletedEventid old line : jsstring) :
  validEventId deletedEventid = true ->
  drop 14 deletedEventid <> [] ->
  v !! (getDailyNotePath E ++ js "/delete.md") = Some old ->
  lineAt (getAllLinesFromFile old)
    (Z.of_N (decimal_value (drop 14 deletedEventid)) - 1) = Some line ->
  isDeletedRecordLine (Some line) = false ->
  restoreDeletedEvent E deletedEventid v
    = (Returned NothingRestored,
       <[getDailyNotePath E ++ js "/delete.md" := removeFirst old line]> v)
  /\ (forall path, path <> getDailyNotePath E ++ js "/delete.md" ->
        (<[getDailyNotePath E ++ js "/delete.md" := removeFirst old line]> v) !! path
        = v !! path)
  /\ (length (removeFirst old line) + length line = length old)%nat
  /\ (line <> [] -> removeFirst old line <> old).
Proof.
  intros Hid Hsuffix Hfile Hline Hnot.
  assert (length (removeFirst old line) + length line = length old)%nat as Hlen.
  { apply removeFirst_length, includes_app, split_lf_contains.
    unfold lineAt in Hline. destruct (_ <? 0)%Z; [done |].
    by apply list_elem_of_lookup_2 in Hline. }
  repeat split.
  - unfold restoreDeletedEvent.
    rewrite (validEventId_hasFourteenDigits _ Hid). change (negb true) with false.
    cbv iota. cbv zeta.
    rewrite io_bind_run, (getFirstLinkpathDest_Some v _ old Hfile).
    rewrite io_bind_run, (vault_read_Some v _ old Hfile).
    pose proof (split_lf_nonempty old) as Hne.
    unfold getAllLinesFromFile in *.
    destruct (split_lf old) as [|l0 ls] eqn:Hsplit; [done |].
    change (length (l0 :: ls) =? 0)%nat with false. cbv iota.
    unfold sliceFrom.
    rewrite (parseInt_digits _ Hsuffix (validEventId_suffix _ Hid)).
    rewrite Hline. rewrite io_bind_run. unfold vault_modify.
    rewrite Hnot. reflexivity.
  - intros path Hpath. by rewrite lookup_insert_ne.
  - exact Hlen.
  - intros Hl Heq. rewrite Heq in Hlen. destruct line; [done |]. simpl in Hlen. lia.
Qed.

Lemma restoreDeletedEvent_no_record_line_witness :
  restoreDeletedEvent sampleApi (js "202509121030002")
      {[ js "journal/delete.md" := js "- a deletedAt: 202509110800001" ++ LF ++ js "scratch" ]}
    = (Returned NothingRestored,
       <[ js "journal/delete.md" := js "- a deletedAt: 202509110800001" ++ LF ]>
         {[ js "journal/delete.md" :=
              js "- a deletedAt: 202509110800001" ++ LF ++ js "scratch" ]}).
Proof.
  apply (proj1 (restoreDeletedEvent_no_record_line sampleApi
                  {[ js "journal/delete.md" :=
                       js "- a deletedAt: 202509110800001" ++ LF ++ js "scratch" ]}
                  (js "202509121030002")
                  (js "- a deletedAt: 202509110800001" ++ LF ++ js "scratch")
                  (js "scratch")
                  eq_refl ltac:(done) (lookup_singleton_eq _ _) eq_refl eq_refl)).
Defined.

(** ** Stripping and formatting again (C5) *)

Lemma trimStart_length s : (length (trimStart s) <= length s)%nat.
Proof.
  induction s as [|c s IH]; simpl; [done |]. destruct (is_space c); simpl; lia.
Qed.

Lemma trimStart_idemp s : trimStart (trimStart s) = trimStart s.
Proof.
  induction s as [|c s IH]; simpl; [done |].
  destruct (is_space c) eqn:Hc; [done |]. simpl. by rewrite Hc.
Qed.

Lemma trim_length s : (length (trim s) <= length s)%nat.
Proof.
  unfold trim, trimEnd. rewrite length_reverse.
  etrans; [apply trimStart_length |]. rewrite length_reverse. apply trimStart_length.
Qed.

Lemma trim_trimStart s : trim (trimStart s) = trim s.
Proof. unfold trim. by rewrite trimStart_idemp. Qed.

Lemma removeAllFrom_length m skip s :
  (length (removeAllFrom m skip s) <= length s)%nat.
Proof.
  revert skip. induction s as [|c s IH]; intros skip; simpl; [done |].
  destruct skip as [|k].
  - destruct (m (c :: s)) as [rest|].
    + etrans; [apply IH | lia].
    + simpl. specialize (IH 0%nat). lia.
  - etrans; [apply IH | lia].
Qed.

Lemma eatColonMinutes_length s r :
  eatColonMinutes s = Some r -> (length r < length s)%nat.
Proof.
  unfold eatColonMinutes.
  destruct s as [|c0 [|c [|d r']]]; try done; repeat case_match; try done;
    intros Heq; inversion Heq; subst; simpl; lia.
Qed.

Lemma eatTime_length s r : eatTime s = Some r -> (length r < length s)%nat.
Proof.
  unfold eatTime. destruct s as [|a s]; [done |].
  destruct (is_digit a); [| done].
  destruct s as [|b s'].
  - intros H. apply eatColonMinutes_length in H. simpl in *. lia.
  - destruct (is_digit b).
    + destruct (eatColonMinutes s') as [rest|] eqn:H1.
      * intros H. inversion H; subst. apply eatColonMinutes_length in H1. simpl. lia.
      * intros H. apply eatColonMinutes_length in H. simpl in *. lia.
    + intros H. apply eatColonMinutes_length in H. simpl in *. lia.
Qed.

Lemma eatSpaces_length s r : eatSpaces s = Some r -> (length r < length s)%nat.
Proof.
  unfold eatSpaces. destruct s as [|c s]; [done |]. destruct (is_space c); [| done].
  intros H. inversion H; subst. pose proof (trimStart_length s). simpl. lia.
Qed.

Lemma matchLeadingTime_length s r :
  matchLeadingTime s = Some r -> (length r < length s)%nat.
Proof.
  unfold matchLeadingTime. destruct (eatTime s) as [r1|] eqn:H1; [| done].
  apply eatTime_length in H1.
  assert (forall x, eatSpaces r1 = Some x -> (length x < length s)%nat) as Hplain.
  { intros x Hx. apply eatSpaces_length in Hx. lia. }
  destruct r1 as [|c r2]; [by apply Hplain |].
  destruct (N.eq_dec c 45) as [-> | Hc].
  - destruct (eatTime r2) as [r3|] eqn:H2.
    + destruct (eatSpaces r3) as [r4|] eqn:H3.
      * intros H. inversion H; subst.
        apply eatTime_length in H2. apply eatSpaces_length in H3. simpl in H1. lia.
      * by apply Hplain.
    + by apply Hplain.
  - intros H. apply Hplain.
    destruct c as [|p]; [exact H |].
    do 6 (try destruct p as [p|p|]; try exact H). by destruct Hc.
Qed.

Lemma removeLeadingTime_length s : (length (removeLeadingTime s) <= length s)%nat.
Proof.
  unfold removeLeadingTime. destruct (matchLeadingTime s) eqn:H; [| done].
  apply matchLeadingTime_length in H. lia.
Qed.

(** A content that the chain leaves as it is has no leading time. *)
Lemma stripTimeTokens_fixed_leading c :
  stripTimeTokens c = c -> removeLeadingTime c = c.
Proof.
  intros Hfix. unfold removeLeadingTime.
  destruct (matchLeadingTime c) as [rest|] eqn:Hm; [| done].
  exfalso. pose proof (matchLeadingTime_length _ _ Hm) as Hlt.
  assert (length (stripTimeTokens c) <= length rest)%nat; [| rewrite Hfix in *; lia].
  unfold stripTimeTokens, removeLeadingTime, removeAll. rewrite Hm. cbv zeta.
  repeat (etrans; [apply trim_length |]; etrans; [apply removeAllFrom_length |]).
  apply trim_length.
Qed.

Lemma zeroFill_two_digits n :
  n < 100 -> exists d1 d2, zeroFill 2 n = [d1; d2]
                           /\ is_digit d1 = true /\ is_digit d2 = true.
Proof.
  intros Hn. destruct (zeroFill_digits 2 n) as [Hlen Hdig]; [lia | simpl; lia |].
  destruct (zeroFill 2 n) as [|d1 [|d2 [|x r]]]; try done.
  exists d1, d2. simpl in Hdig. apply andb_true_iff in Hdig as [H1 H2].
  apply andb_true_iff in H2 as [H2 _]. done.
Qed.

(** The leading time of a formatted body is what the first pattern takes,
    with the white space behind it. *)
Lemma matchLeadingTime_body (s e : moment) (c : jsstring) :
  valid_moment s = true -> valid_moment e = true ->
  matchLeadingTime (format_HHmm s ++ js "-" ++ format_HHmm e ++ js " " ++ c)
  = Some (trimStart c).
Proof.
  intros Hs He.
  destruct (valid_moment_ranges s Hs) as (_ & _ & _ & Hh & Hm & _).
  destruct (valid_moment_ranges e He) as (_ & _ & _ & Hh' & Hm' & _).
  unfold format_HHmm, format_HH, format_mm.
  destruct (zeroFill_two_digits (hour s)) as (a1 & a2 & -> & Ha1 & Ha2); [lia |].
  destruct (zeroFill_two_digits (minute s)) as (b1 & b2 & -> & Hb1 & Hb2); [lia |].
  destruct (zeroFill_two_digits (hour e)) as (c1 & c2 & -> & Hc1 & Hc2); [lia |].
  destruct (zeroFill_two_digits (minute e)) as (d1 & d2 & -> & Hd1 & Hd2); [lia |].
  change (js ":") with [58]. change (js "-") with [45]. change (js " ") with [32].
  simpl app.
  unfold matchLeadingTime, eatTime, eatColonMinutes.
  rewrite Ha1, Ha2, Hb1, Hb2. simpl. rewrite Hc1, Hc2, Hd1, Hd2. simpl.
  reflexivity.
Qed.

(** C5 (as amended).  For moments on the same day and a content that is
    not empty, that the strip chain of [cleanEvent] leaves as it is, and
    that has no trailing annotation: the formatted line is [- ], the marker
    prefix and the body [HH:MM-HH:MM <content>]; stripping the body gives
    the content back, and formatting that again gives the same line. *)
Theorem format_strip_body_format (E : api) (original content : jsstring)
    (s e : moment) (t : jsstring) :
  valid_moment s = true -> valid_moment e = true ->
  isSameDay s e = true ->
  stripTimeTokens content = content -> content <> [] ->
  blockIdMatch content = None ->
  formatEventLine E content s e t None
    = js "- " ++ markerPrefix (getMarkBasedOnEvent E t)
        ++ (format_HHmm s ++ js "-" ++ format_HHmm e ++ js " " ++ content)
  /\ cleanEvent original (format_HHmm s ++ js "-" ++ format_HHmm e ++ js " " ++ content)
     = content
  /\ formatEventLine E
       (cleanEvent original
          (format_HHmm s ++ js "-" ++ format_HHmm e ++ js " " ++ content))
       s e t None
     = formatEventLine E content s e t None.
Proof.
  intros Hs He Hsame Hfix Hne Hno.
  assert (cleanEvent original
            (format_HHmm s ++ js "-" ++ format_HHmm e ++ js " " ++ content) = content)
    as Hclean.
  { assert (stripTimeTokens
              (format_HHmm s ++ js "-" ++ format_HHmm e ++ js " " ++ content)
            = content) as Hbody.
    { rewrite <- Hfix at 2. unfold stripTimeTokens. cbv zeta.
      rewrite (stripTimeTokens_fixed_leading content Hfix).
      unfold removeLeadingTime at 1. rewrite (matchLeadingTime_body s e content Hs He).
      by rewrite trim_trimStart. }
    unfold cleanEvent. cbv zeta. rewrite Hbody.
    destruct content; [done |]. reflexivity. }
  split; [| split].
  - rewrite formatEventLine_plain by done. by rewrite Hsame.
  - exact Hclean.
  - by rewrite Hclean.
Qed.

Lemma format_strip_body_format_witness :
  cleanEvent (js "Lunch") (format_HHmm (Moment 2025 9 1 12 0 0) ++ js "-"
                             ++ format_HHmm (Moment 2025 9 1 13 0 0) ++ js " "
                             ++ js "Lunch")
    = js "Lunch"
  /\ format_HHmm (Moment 2025 9 1 12 0 0) ++ js "-"
       ++ format_HHmm (Moment 2025 9 1 13 0 0) ++ js " " ++ js "Lunch"
     = js "12:00-13:00 Lunch".
Proof.
  split.
  - apply (format_strip_body_format sampleApi (js "Lunch") (js "Lunch")
             (Moment 2025 9 1 12 0 0) (Moment 2025 9 1 13 0 0) (js "default")
             eq_refl eq_refl eq_refl eq_refl ltac:(done) eq_refl).
  - vm_compute. reflexivity.
Defined.

(** Stripping the whole formatted line keeps the leading [- ] and takes the
    time range out of the middle; formatting the result again gives another
    line.  For a line with dates the start date stays in the content. *)
Lemma format_strip_format_differs :
  formatEventLine sampleApi (js "Lunch") (Moment 2025 9 1 12 0 0)
      (Moment 2025 9 1 13 0 0) (js "default") None
    = js "- 12:00-13:00 Lunch"
  /\ cleanEvent (js "Lunch") (js "- 12:00-13:00 Lunch") = js "-  Lunch"
  /\ formatEventLine sampleApi
       (cleanEvent (js "Lunch")
          (formatEventLine sampleApi (js "Lunch") (Moment 2025 9 1 12 0 0)
             (Moment 2025 9 1 13 0 0) (js "default") None))
       (Moment 2025 9 1 12 0 0) (Moment 2025 9 1 13 0 0) (js "default") None
     = js "- 12:00-13:00 -  Lunch"
  /\ formatEventLine sampleApi
       (cleanEvent (js "Lunch")
          (formatEventLine sampleApi (js "Lunch") (Moment 2025 9 1 12 0 0)
             (Moment 2025 9 1 13 0 0) (js "default") None))
       (Moment 2025 9 1 12 0 0) (Moment 2025 9 1 13 0 0) (js "default") None
     <> formatEventLine sampleApi (js "Lunch") (Moment 2025 9 1 12 0 0)
          (Moment 2025 9 1 13 0 0) (js "default") None
  /\ formatEventLine sampleApi (js "Trip") (Moment 2025 9 1 0 0 0)
       (Moment 2025 9 3 0 0 0) (js "default") None
     = js "- Trip 🛫 2025-09-01 📅 2025-09-03"
  /\ cleanEvent (js "Trip") (js "Trip 🛫 2025-09-01 📅 2025-09-03")
     = js "Trip 🛫 2025-09-01".
Proof.
  split; [by vm_compute |]. split; [by vm_compute |]. split; [by vm_compute |].
  split; [vm_compute; discriminate |]. split; by vm_compute.
Qed.

(** ** Delete, then restore (C9) *)

Lemma decimal_value_app (a b : jsstring) :
  decimal_value (a ++ b)
  = fold_left (fun acc d => acc * 10 + digit_value d) b (decimal_value a).
Proof. unfold decimal_value. by rewrite fold_left_app. Qed.

Lemma decimal_value_zeros (k : nat) : decimal_value (replicate k 48) = 0.
Proof.
  induction k as [|k IH]; [done |].
  replace (S k) with (k + 1)%nat by lia.
  rewrite replicate_add. simpl replicate.
  rewrite decimal_value_snoc, IH. reflexivity.
Qed.

Lemma decimal_value_zeroFill (width : nat) (n : N) :
  decimal_value (zeroFill width n) = n.
Proof.
  unfold zeroFill. cbv zeta. rewrite decimal_value_app, decimal_value_zeros.
  destruct (numberToString_decimal n) as (_ & _ & Hv). exact Hv.
Qed.

Lemma takeWhile_app_all p (a b : jsstring) :
  forallb p a = true -> takeWhile p (a ++ b) = a ++ takeWhile p b.
Proof.
  induction a as [|c a IH]; simpl; [done |].
  rewrite andb_true_iff. intros [-> H]. by rewrite IH.
Qed.

(** The fields of a text that starts with the six parts of a stamp. *)
Lemma stamp_fields (y m d h mi s rest : jsstring) :
  length y = 4%nat -> length m = 2%nat -> length d = 2%nat ->
  length h = 2%nat -> length mi = 2%nat -> length s = 2%nat ->
  let id := (y ++ m ++ d ++ h ++ mi ++ s) ++ rest in
  slice id 0 4 = y /\ slice id 4 6 = m /\ slice id 6 8 = d
  /\ slice id 8 10 = h /\ slice id 10 12 = mi /\ slice id 12 14 = s.
Proof.
  intros Hy Hm Hd Hh Hmi Hs.
  destruct y as [|y1 [|y2 [|y3 [|y4 [|]]]]]; try done.
  destruct m as [|m1 [|m2 [|]]]; try done.
  destruct d as [|d1 [|d2 [|]]]; try done.
  destruct h as [|h1 [|h2 [|]]]; try done.
  destruct mi as [|i1 [|i2 [|]]]; try done.
  destruct s as [|s1 [|s2 [|]]]; try done.
Qed.

Lemma takeDigits_exact (a r : jsstring) :
  forallb is_digit a = true -> takeDigits (length a) (a ++ r) = a.
Proof.
  induction a as [|c a IH]; [done |]. cbn [forallb length app takeDigits].
  intros H. apply andb_true_iff in H as [-> H]. by rewrite IH.
Qed.

(** A token whose digits stand at the start of the text, as many as it can
    take. *)
Lemma parseToken_exact (a r : jsstring) :
  a <> [] -> forallb is_digit a = true ->
  parseToken (length a) (a ++ r) = Some (a, r).
Proof.
  intros Hne Hd. pose proof (takeDigits_exact a r Hd) as Htake.
  destruct a as [|c a]; [done |].
  cbn [forallb] in Hd. apply andb_true_iff in Hd as [Hc _].
  change ((c :: a) ++ r) with (c :: (a ++ r)) in *.
  cbn [parseToken]. rewrite Hc. cbv zeta. rewrite Htake.
  change (c :: (a ++ r)) with ((c :: a) ++ r). by rewrite drop_app_length.
Qed.

Lemma tokenOr_zeroFill (unused n : N) (r : jsstring) :
  n < 100 -> tokenOr unused (zeroFill 2 n ++ r) = (n, r).
Proof.
  intros Hn. destruct (zeroFill_digits 2 n) as [Hlen Hdig]; [lia | simpl; lia |].
  unfold tokenOr. rewrite <- Hlen at 1.
  rewrite parseToken_exact; [| by intros H; rewrite H in Hlen | done].
  by rewrite decimal_value_zeroFill.
Qed.

(** Reading a stamp back gives the moment it was printed from. *)
Lemma momentFromId_stamp (now : moment) (suffix : jsstring) :
  valid_moment now = true ->
  momentFromId (Some (format_YYYYMMDDHHmmss now ++ suffix)) = Valid now.
Proof.
  intros Hv.
  destruct (valid_moment_ranges now Hv) as (Hy & Hmo & Hd & Hh & Hmi & Hs).
  destruct (zeroFill_digits 4 (year now)) as [Hlen Hdig]; [lia | simpl; lia |].
  unfold momentFromId, format_YYYYMMDDHHmmss. rewrite <- !app_assoc.
  rewrite <- Hlen at 1.
  rewrite parseToken_exact; [| by intros H; rewrite H in Hlen | done].
  rewrite Hlen. change (4 =? 2)%nat with false. cbv iota.
  rewrite decimal_value_zeroFill.
  rewrite !tokenOr_zeroFill by lia.
  assert (noOverflow (year now) (month now) (day now) (hour now) (minute now)
            (second now) = true) as ->.
  { unfold noOverflow. unfold valid_moment in Hv.
    repeat (apply andb_true_iff in Hv as [Hv ?]).
    repeat (apply andb_true_iff; split); try done.
    - apply orb_true_iff. by left.
    - apply N.leb_le. lia.
    - apply N.leb_le. lia. }
  assert ((hour now =? 24) = false) as -> by (apply N.eqb_neq; lia).
  by destruct now.
Qed.

(** The end of a day, written [24:00:00], is the start of the next day; a
    stamp of thirteen digits has a second of one digit; digits may stand
    anywhere in the text; a text without digit gives no moment. *)
Lemma momentFromId_examples :
  momentFromId (Some (js "202509122400001")) = Valid (Moment 2025 9 13 0 0 0)
  /\ momentFromId (Some (js "2025091210305")) = Valid (Moment 2025 9 12 10 30 5)
  /\ momentFromId (Some (js "- b deletedAt: 2025-09-12 10:30"))
     = Valid (Moment 2025 9 12 10 30 0)
  /\ momentFromId (Some (js "202509122401001")) = InvalidDate
  /\ momentFromId (Some (js "undefined")) = InvalidDate.
Proof. repeat split; by vm_compute. Qed.

Lemma no_terminator_no_lf (s : jsstring) :
  forallb (fun c => negb (is_line_terminator c)) s = true -> 10 ∉ s.
Proof.
  intros H Hin. rewrite forallb_forall in H.
  apply list_elem_of_In in Hin. by specialize (H 10 Hin).
Qed.

Lemma digits_no_terminator (s : jsstring) :
  forallb is_digit s = true ->
  forallb (fun c => negb (is_line_terminator c)) s = true.
Proof.
  rewrite !forallb_forall. intros H c Hc. specialize (H c Hc).
  apply is_digit_range in H. unfold is_line_terminator. bool_lia.
Qed.

Section DeleteRestore.
Context (E : api).

Lemma sendEventToDelete_existing (now : moment) (event old : jsstring) (v : vault) :
  v !! (getDailyNotePath E ++ js "/delete.md") = Some old ->
  sendEventToDelete E now event v
  = (Returned (format_slashed now),
     <[getDailyNotePath E ++ js "/delete.md" := ledgerWith now old event]> v).
Proof.
  intros Hfile. unfold sendEventToDelete. cbv zeta.
  rewrite io_bind_run, (getFirstLinkpathDest_Some v _ old Hfile).
  rewrite io_bind_run, (vault_read_Some v _ old Hfile).
  rewrite io_bind_run, createDeleteEventInFile_run. reflexivity.
Qed.

Lemma ledgerEntry_no_terminator (now : moment) (old event : jsstring) :
  valid_moment now = true ->
  forallb (fun c => negb (is_line_terminator c)) event = true ->
  forallb (fun c => negb (is_line_terminator c)) (ledgerEntry now old event) = true.
Proof.
  intros Hnow Hevent. unfold ledgerEntry, ledgerIdAt.
  rewrite !forallb_app, Hevent.
  destruct (format_YYYYMMDDHHmmss_digits now Hnow) as [_ Hdig].
  destruct (numberToString_decimal (nextLineNum (getAllLinesFromFile old)))
    as (_ & Hnd & _).
  by rewrite (digits_no_terminator _ Hdig), (digits_no_terminator _ Hnd).
Qed.

(** The entry is the line of the ledger that its id counts to. *)
Lemma ledgerWith_entry_line (now : moment) (old event : jsstring) :
  valid_moment now = true ->
  forallb (fun c => negb (is_line_terminator c)) event = true ->
  lineAt (getAllLinesFromFile (ledgerWith now old event))
    (Z.of_N (nextLineNum (getAllLinesFromFile old)) - 1)
  = Some (ledgerEntry now old event).
Proof.
  intros Hnow Hevent.
  pose proof (no_terminator_no_lf _ (ledgerEntry_no_terminator now old event Hnow Hevent))
    as Hlf.
  unfold ledgerWith, getAllLinesFromFile. rewrite nextLineNum_cases.
  destruct old as [|c old'].
  - change (truthy []) with false. cbv iota.
    rewrite (split_lf_one_line _ Hlf). reflexivity.
  - change (truthy (c :: old')) with true. cbv iota.
    rewrite split_lf_app_lf, (split_lf_one_line _ Hlf).
    case_bool_decide as Hone; [by apply split_lf_only_empty_line in Hone |].
    replace (Z.of_N (N.of_nat (length (split_lf (c :: old'))) + 1) - 1)%Z
      with (Z.of_nat (length (split_lf (c :: old')))) by lia.
    rewrite lineAt_of_nat. rewrite lookup_app_r by lia.
    by rewrite Nat.sub_diag.
Qed.

Lemma ledgerIdAt_valid (now : moment) (old : jsstring) :
  valid_moment now = true ->
  validEventId (ledgerIdAt now old) = true
  /\ drop 14 (ledgerIdAt now old) = numberToString (nextLineNum (getAllLinesFromFile old)).
Proof.
  intros Hnow. destruct (format_YYYYMMDDHHmmss_digits now Hnow) as [Hlen Hdig].
  destruct (numberToString_decimal (nextLineNum (getAllLinesFromFile old)))
    as (_ & Hnd & _).
  unfold ledgerIdAt, validEventId. split.
  - rewrite forallb_app, Hdig, Hnd, length_app, Hlen. reflexivity.
  - rewrite <- Hlen. apply drop_app_length.
Qed.

Lemma parseInt_ledgerIdAt (now : moment) (old : jsstring) :
  valid_moment now = true ->
  parseInt (sliceFrom (ledgerIdAt now old) 14)
  = Some (Z.of_N (nextLineNum (getAllLinesFromFile old))).
Proof.
  intros Hnow. destruct (ledgerIdAt_valid now old Hnow) as [_ Hdrop].
  unfold sliceFrom. rewrite Hdrop.
  destruct (numberToString_decimal (nextLineNum (getAllLinesFromFile old)))
    as (Hne & Hnd & Hnv).
  by rewrite (parseInt_digits _ Hne Hnd), Hnv.
Qed.

Lemma forallb_drop {A} (p : A -> bool) (n : nat) (l : list A) :
  forallb p l = true -> forallb p (drop n l) = true.
Proof.
  rewrite !forallb_forall. intros H x Hx. apply H.
  apply list_elem_of_In. apply list_elem_of_In in Hx.
  rewrite <- (take_drop n l). apply elem_of_app. by right.
Qed.

Lemma ledgerEntry_record_line (now : moment) (old event : jsstring) :
  valid_moment now = true ->
  recordStart event = true ->
  forallb (fun c => negb (is_line_terminator c)) event = true ->
  isDeletedRecordLine (Some (ledgerEntry now old event)) = true.
Proof.
  intros Hnow Hrs Hevent. unfold isDeletedRecordLine. cbv zeta.
  change (templateOf (Some ?l)) with l.
  rewrite (forallb_drop _ 2 _ (ledgerEntry_no_terminator now old event Hnow Hevent)).
  rewrite andb_true_r. apply andb_true_iff. split.
  - apply startsWith_app. apply recordStart_line in Hrs as [r ->].
    exists (r ++ js " deletedAt: " ++ ledgerIdAt now old).
    unfold ledgerEntry. by rewrite <- app_assoc.
  - apply Nat.leb_le. rewrite length_drop. unfold ledgerEntry.
    rewrite !length_app. assert (length (js " deletedAt: ") = 12%nat) as -> by reflexivity.
    lia.
Qed.

End DeleteRestore.

(* ===================================================================== *)
(** * Part III: more properties of the code *)
(* ===================================================================== *)

(** ** Deleting an event from a daily note *)

Lemma lineOfEventCount_hit lineIndex (lines : list jsstring) (i0 c0 r : Z) :
  lineOfEventCount lineIndex lines i0 c0 = r -> r <> (-1)%Z -> (0 <= i0)%Z ->
  exists (k : nat) line,
    r = (i0 + Z.of_nat k)%Z /\ lines !! k = Some line /\ recordStart line = true.
Proof.
  revert i0 c0. induction lines as [|l0 lines IH]; intros i0 c0 Hr Hne Hi0.
  - simpl in Hr. congruence.
  - simpl in Hr. destruct (recordStart l0) eqn:H0.
    + destruct (match lineIndex with
                | Some n => (c0 =? n)%Z
                | None => false
                end).
      * exists 0%nat, l0. repeat split; [lia | done].
      * destruct (IH _ _ Hr Hne ltac:(lia)) as (k & line & -> & Hk & Hl).
        exists (S k), line. repeat split; [lia | done | done].
    + destruct (IH _ _ Hr Hne ltac:(lia)) as (k & line & -> & Hk & Hl).
      exists (S k), line. repeat split; [lia | done | done].
Qed.

(** Whatever strategy finds the target, the target is a record-start line. *)
Lemma resolveTargetLine_recordStart (lines : list jsstring) (id : jsstring)
    (title : option jsstring) :
  resolveTargetLine lines id title <> (-1)%Z ->
  exists line,
    lineAt lines (resolveTargetLine lines id title) = Some line
    /\ recordStart line = true.
Proof.
  unfold resolveTargetLine. cbv zeta.
  assert (forall test r, firstLineWhere (fun line => recordStart line && test line) lines 0 = r ->
            r <> (-1)%Z ->
            exists line, lineAt lines r = Some line /\ recordStart line = true) as Hfirst.
  { intros test r Hr Hne.
    destruct (firstLineWhere_hit _ _ _ Hr Hne) as (line & Hl & _ & Ht).
    exists line. split; [done |]. by apply andb_true_iff in Ht as [-> _]. }
  destruct (matchByTitle lines title =? -1)%Z eqn:Ht; cbv iota.
  - destruct (matchByTime lines id =? -1)%Z eqn:Hm; cbv iota.
    + intros Hne. unfold matchByIndex in *.
      destruct (lineOfEventCount_hit _ _ _ _ _ eq_refl Hne ltac:(lia))
        as (k & line & Hr & Hk & Hl).
      exists line. split; [| done]. by rewrite Hr, Z.add_0_l, lineAt_of_nat.
    + intros _. apply Z.eqb_neq in Hm. unfold matchByTime in *.
      by apply (Hfirst _ _ eq_refl).
  - rewrite Ht. intros _. apply Z.eqb_neq in Ht. unfold matchByTitle in *.
    destruct title as [t|]; [| done]. destruct (truthy t); [| done].
    by apply (Hfirst _ _ eq_refl).
Qed.

(** X1.  When [deleteEventFromDailyNote] fails, whatever the reason, it has
    written nothing: the vault is the one it started from. *)
Theorem deleteEventFromDailyNote_failure_writes_nothing (v v' : vault)
    (eventId eventPath : jsstring) (eventTitle : option jsstring) (message : jsstring) :
  deleteEventFromDailyNote eventId eventPath eventTitle v = (Thrown message, v') ->
  v' = v.
Proof.
  unfold deleteEventFromDailyNote.
  destruct (validEventId eventId).
  2: { change (negb false) with true. cbv iota. unfold throw. intros H. by inversion H. }
  change (negb true) with false. cbv iota.
  rewrite io_bind_run.
  destruct (v !! eventPath) as [contents|] eqn:Hfile.
  2: { rewrite (getFirstLinkpathDest_None v eventPath Hfile).
       unfold throw. intros H. by inversion H. }
  rewrite (getFirstLinkpathDest_Some v eventPath contents Hfile).
  rewrite io_bind_run, (vault_read_Some v eventPath contents Hfile). cbv zeta.
  destruct (resolveTargetLine _ _ _ =? -1)%Z.
  { unfold throw. intros H. by inversion H. }
  destruct (negb (recordStart _)).
  { unfold throw. intros H. by inversion H. }
  destruct (findRecordBoundaries _ _) as [startIndex endIndex].
  rewrite io_bind_run. unfold vault_modify, io_ret. intros H. inversion H.
Qed.

Lemma deleteEventFromDailyNote_failure_writes_nothing_witness :
  {[ js "2025-09-01.md" := js "# H" ]} = ({[ js "2025-09-01.md" := js "# H" ]} : vault).
Proof.
  apply (deleteEventFromDailyNote_failure_writes_nothing
           {[ js "2025-09-01.md" := js "# H" ]} {[ js "2025-09-01.md" := js "# H" ]}
           (js "2025") (js "2025-09-01.md") None (js "Invalid event ID format")).
  reflexivity.
Defined.

(** The span that starts at a line of the document. *)
Lemma findRecordBoundaries_inv (lines : list jsstring) (i : nat) (target : jsstring) :
  lines !! i = Some target ->
  exists e : nat,
    findRecordBoundaries lines (Z.of_nat i) = (Z.of_nat i, Z.of_nat e)
    /\ (i <= e < length lines)%nat
    /\ (forall j l, (i < j <= e)%nat -> lines !! j = Some l -> ~ stop_line l)
    /\ (S e = length lines \/ exists l, lines !! S e = Some l /\ stop_line l).
Proof.
  intros Hline. pose proof (lookup_lt_Some _ _ _ Hline) as Hlt.
  unfold findRecordBoundaries. cbv zeta.
  replace (Z.to_nat (Z.of_nat i + 1)) with (S i) by lia.
  destruct (scanToNextEvent (drop (S i) lines) (Z.of_nat i + 1)) as [e|] eqn:Hscan.
  - apply scanToNextEvent_Some in Hscan as (k & l & -> & Hk & Hl & Hb).
    rewrite lookup_drop in Hk. exists (i + k)%nat. repeat split.
    + f_equal. lia.
    + lia.
    + apply lookup_lt_Some in Hk. lia.
    + intros j l' Hj Hl'. apply (Hb (j - S i)%nat l'); [lia |].
      rewrite lookup_drop. by replace (S i + (j - S i))%nat with j by lia.
    + right. exists l. split; [| done].
      by replace (S (i + k)) with (S i + k)%nat by lia.
  - pose proof (scanToNextEvent_None _ _ Hscan) as Hb.
    exists (length lines - 1)%nat. repeat split.
    + f_equal. lia.
    + lia.
    + lia.
    + intros j l' Hj Hl'. apply (Hb (j - S i)%nat l').
      rewrite lookup_drop. by replace (S i + (j - S i))%nat with j by lia.
    + left. lia.
Qed.

Lemma resolveTargetLine_index (lines : list jsstring) (id : jsstring)
    (title : option jsstring) :
  resolveTargetLine lines id title <> (-1)%Z ->
  exists (i : nat) target,
    resolveTargetLine lines id title = Z.of_nat i
    /\ lines !! i = Some target /\ recordStart target = true.
Proof.
  intros Hne. destruct (resolveTargetLine_recordStart lines id title Hne)
    as (target & Hl & Hrs).
  unfold lineAt in Hl. destruct (Z.ltb_spec (resolveTargetLine lines id title) 0); [done |].
  exists (Z.to_nat (resolveTargetLine lines id title)), target.
  split; [lia | done].
Qed.

(** X2.  The target that the three methods find is always a line that
    begins with [- ]: [deleteEventFromDailyNote] never fails with ['Target
    line is not an event line']. *)
Theorem deleteEventFromDailyNote_target_is_event_line (v : vault)
    (eventId eventPath : jsstring) (eventTitle : option jsstring) :
  (forall fileLines,
     resolveTargetLine fileLines eventId eventTitle <> (-1)%Z ->
     exists line,
       lineAt fileLines (resolveTargetLine fileLines eventId eventTitle) = Some line
       /\ recordStart line = true)
  /\ (deleteEventFromDailyNote eventId eventPath eventTitle v).1
     <> Thrown (js "Target line is not an event line").
Proof.
  split; [intros fileLines; apply resolveTargetLine_recordStart |].
  unfold deleteEventFromDailyNote.
  destruct (validEventId eventId).
  2: { change (negb false) with true. cbv iota. unfold throw, fst. intros H. inversion H. }
  change (negb true) with false. cbv iota. rewrite io_bind_run.
  destruct (v !! eventPath) as [contents|] eqn:Hfile.
  2: { rewrite (getFirstLinkpathDest_None v eventPath Hfile). unfold throw, fst.
       assert (exists r, js "File not found: " = 70 :: r) as [r1 ->]
         by (eexists; vm_compute; reflexivity).
       assert (exists r, js "Target line is not an event line" = 84 :: r) as [r2 ->]
         by (eexists; vm_compute; reflexivity).
       intros H. inversion H. }
  rewrite (getFirstLinkpathDest_Some v eventPath contents Hfile).
  rewrite io_bind_run, (vault_read_Some v eventPath contents Hfile). cbv zeta.
  destruct (resolveTargetLine _ _ _ =? -1)%Z eqn:Hr.
  { unfold throw, fst. intros H. inversion H. }
  apply Z.eqb_neq in Hr.
  destruct (resolveTargetLine_recordStart _ _ _ Hr) as (line & Hline & Hstart).
  rewrite Hline. unfold default, id. rewrite Hstart.
  change (negb true) with false. cbv iota.
  destruct (findRecordBoundaries _ _) as [startIndex endIndex].
  rewrite io_bind_run. unfold vault_modify, io_ret, fst. done.
Qed.

Lemma deleteEventFromDailyNote_target_is_event_line_witness :
  (exists line,
     lineAt [js "# H"; js "- 09:00 a"]
       (resolveTargetLine [js "# H"; js "- 09:00 a"] (js "2025090109000000") None)
     = Some line
     /\ recordStart line = true)
  /\ (deleteEventFromDailyNote (js "2025090109000000") (js "2025-09-01.md") None
        {[ js "2025-09-01.md" := js "# H" ]}).1
     <> Thrown (js "Target line is not an event line").
Proof.
  destruct (deleteEventFromDailyNote_target_is_event_line
              {[ js "2025-09-01.md" := js "# H" ]}
              (js "2025090109000000") (js "2025-09-01.md") None) as [Hline Hthrow].
  split; [apply Hline; by vm_compute | exact Hthrow].
Defined.

(** ** Lines and text *)

Lemma join_lf_cons (l : jsstring) (ls : list jsstring) :
  ls <> [] -> join_lf (l :: ls) = l ++ LF ++ join_lf ls.
Proof. by destruct ls. Qed.

Lemma split_lf_cons_other (c : jschar) (s : jsstring) :
  c <> 10 ->
  exists l ls, split_lf s = l :: ls /\ split_lf (c :: s) = (c :: l) :: ls.
Proof.
  intros Hc. pose proof (split_lf_nonempty s) as Hne.
  destruct (split_lf s) as [|l ls] eqn:Hs; [done |].
  exists l, ls. split; [done |].
  change (split_lf (c :: s))
    with (if c =? 10 then [] :: split_lf s
          else match split_lf s with l :: ls => (c :: l) :: ls | [] => [[c]] end).
  destruct (N.eqb_spec c 10); [done |]. by rewrite Hs.
Qed.

Lemma split_lf_cons_lf (s : jsstring) : split_lf (10 :: s) = [] :: split_lf s.
Proof. reflexivity. Qed.

(** Joining the lines of a text gives the text back. *)
Lemma join_lf_split_lf (s : jsstring) : join_lf (split_lf s) = s.
Proof.
  induction s as [|c s IH]; [done |].
  destruct (N.eq_dec c 10) as [-> | Hc].
  - rewrite split_lf_cons_lf, join_lf_cons by apply split_lf_nonempty.
    by rewrite IH.
  - destruct (split_lf_cons_other c s Hc) as (l & ls & Hs & ->).
    rewrite Hs in IH. destruct ls as [|l' ls].
    + by rewrite <- IH.
    + rewrite join_lf_cons by done. rewrite join_lf_cons in IH by done.
      by rewrite <- IH.
Qed.

(** No line of a text holds a line feed. *)
Lemma split_lf_no_lf (s l : jsstring) : l ∈ split_lf s -> 10 ∉ l.
Proof.
  revert l. induction s as [|c s IH]; intros l Hl.
  - apply list_elem_of_singleton in Hl as ->. apply not_elem_of_nil.
  - destruct (N.eq_dec c 10) as [-> | Hc].
    + rewrite split_lf_cons_lf in Hl. apply elem_of_cons in Hl as [-> | Hl].
      * apply not_elem_of_nil.
      * by apply IH.
    + destruct (split_lf_cons_other c s Hc) as (l0 & ls & Hs & Hcs).
      rewrite Hcs in Hl. apply elem_of_cons in Hl as [-> | Hl].
      * rewrite not_elem_of_cons. split; [done |].
        apply IH. rewrite Hs. apply elem_of_cons. by left.
      * apply IH. rewrite Hs. apply elem_of_cons. by right.
Qed.

(** Lines without line feed, one at least, are the lines of their join. *)
Lemma split_lf_join_lf (ls : list jsstring) :
  ls <> [] -> Forall (fun l => 10 ∉ l) ls -> split_lf (join_lf ls) = ls.
Proof.
  induction ls as [|l ls IH]; [done |]. intros _ Hall.
  apply Forall_cons in Hall as [Hl Hls].
  destruct ls as [|l' ls].
  - by apply split_lf_one_line.
  - rewrite join_lf_cons by done. rewrite split_lf_app_lf.
    rewrite (split_lf_one_line l Hl). by rewrite IH.
Qed.

Lemma split_lf_Forall_no_lf (s : jsstring) : Forall (fun l => 10 ∉ l) (split_lf s).
Proof. apply Forall_forall. intros l. apply split_lf_no_lf. Qed.

Lemma recordStart_not_heading (l : jsstring) :
  recordStart l = true -> headingStart l = false.
Proof.
  intros Hl. apply startsWith_app in Hl as [r ->]. reflexivity.
Qed.

Lemma not_stop_line_tests (l : jsstring) :
  ~ stop_line l -> recordStart l = false /\ headingStart l = false.
Proof.
  intros Hl. rewrite <- stop_line_test in Hl.
  destruct (recordStart l), (headingStart l); try done; by destruct Hl.
Qed.

(** In a run of lines none of which stops a span, no test finds anything. *)
Lemma filter_no_stop (test : jsstring -> bool) (ls : list jsstring) :
  (forall l, test l = true -> stop_line l) ->
  (forall j l, ls !! j = Some l -> ~ stop_line l) ->
  List.filter test ls = [].
Proof.
  intros Htest. induction ls as [|l ls IH]; intros Hls; [done |].
  cbn [List.filter]. destruct (test l) eqn:Hl.
  - destruct (Hls 0%nat l); [done | by apply Htest].
  - apply IH. intros j l' Hj. by apply (Hls (S j)).
Qed.

(** The lines of a document split at a span [i..e]. *)
Lemma lines_split_at_span (lines : list jsstring) (i e : nat) (target : jsstring) :
  lines !! i = Some target -> (i <= e < length lines)%nat ->
  lines = take i lines ++ target :: take (e - i) (drop (S i) lines) ++ drop (S e) lines.
Proof.
  intros Hi He.
  rewrite <- (take_drop i lines) at 1. f_equal.
  rewrite (drop_S lines target i Hi). f_equal.
  rewrite <- (take_drop (e - i) (drop (S i) lines)) at 1. f_equal.
  rewrite drop_drop. f_equal. lia.
Qed.

(** ** deleteEventFromDailyNote: what is written *)

Lemma deletedSpan_inv (lines : list jsstring) (id : jsstring) (title : option jsstring) :
  resolveTargetLine lines id title <> (-1)%Z ->
  exists (i e : nat) target,
    resolveTargetLine lines id title = Z.of_nat i
    /\ lines !! i = Some target /\ recordStart target = true
    /\ deletedSpan lines id title = (Z.of_nat i, Z.of_nat e)
    /\ (i <= e < length lines)%nat
    /\ (forall j l, (i < j <= e)%nat -> lines !! j = Some l -> ~ stop_line l)
    /\ linesAfterDelete lines id title = take i lines ++ drop (S e) lines.
Proof.
  intros Hne.
  destruct (resolveTargetLine_index lines id title Hne) as (i & target & Hi & Hl & Hrs).
  destruct (findRecordBoundaries_inv lines i target Hl) as (e & Hspan & He & Hbody & _).
  exists i, e, target. unfold linesAfterDelete, deletedSpan. rewrite Hi, Hspan.
  repeat split; try done; try lia.
  unfold deleteSpan, fst, snd. do 2 f_equal; lia.
Qed.

(** X3.  Whenever the id is well formed, the file exists and one of the
    three methods finds a target, [deleteEventFromDailyNote] returns [true]
    and writes this one file: its lines without the span of the record,
    joined by line feeds.  The span begins at the target, lies in the
    document, and the lines left are as many as the log says (the original
    number less [endIndex - startIndex + 1]). *)
Theorem deleteEventFromDailyNote_removes_span (v : vault)
    (eventId eventPath : jsstring) (eventTitle : option jsstring)
    (fileContents : jsstring) :
  validEventId eventId = true ->
  v !! eventPath = Some fileContents ->
  resolveTargetLine (getAllLinesFromFile fileContents) eventId eventTitle <> (-1)%Z ->
  deleteEventFromDailyNote eventId eventPath eventTitle v
    = (Returned true,
       <[eventPath :=
           join_lf (linesAfterDelete (getAllLinesFromFile fileContents)
                      eventId eventTitle)]> v)
  /\ exists startIndex endIndex : nat,
       deletedSpan (getAllLinesFromFile fileContents) eventId eventTitle
         = (Z.of_nat startIndex, Z.of_nat endIndex)
       /\ resolveTargetLine (getAllLinesFromFile fileContents) eventId eventTitle
          = Z.of_nat startIndex
       /\ (startIndex <= endIndex < length (getAllLinesFromFile fileContents))%nat
       /\ linesAfterDelete (getAllLinesFromFile fileContents) eventId eventTitle
          = take startIndex (getAllLinesFromFile fileContents)
            ++ drop (S endIndex) (getAllLinesFromFile fileContents)
       /\ (length (linesAfterDelete (getAllLinesFromFile fileContents)
                     eventId eventTitle)
           + (endIndex - startIndex + 1)
           = length (getAllLinesFromFile fileContents))%nat.
Proof.
  intros Hvalid Hfile Hne. split.
  - unfold deleteEventFromDailyNote. rewrite Hvalid.
    change (negb true) with false. cbv iota. rewrite io_bind_run.
    rewrite (getFirstLinkpathDest_Some v eventPath fileContents Hfile).
    rewrite io_bind_run, (vault_read_Some v eventPath fileContents Hfile). cbv zeta.
    assert ((resolveTargetLine (getAllLinesFromFile fileContents) eventId eventTitle
             =? -1)%Z = false) as -> by by apply Z.eqb_neq.
    destruct (resolveTargetLine_recordStart _ _ _ Hne) as (line & Hline & Hstart).
    rewrite Hline. unfold default, id. rewrite Hstart.
    change (negb true) with false. cbv iota.
    unfold linesAfterDelete, deletedSpan.
    destruct (findRecordBoundaries _ _) as [startIndex endIndex].
    rewrite io_bind_run. reflexivity.
  - destruct (deletedSpan_inv _ _ _ Hne)
      as (i & e & target & Hi & Hl & Hrs & Hspan & He & Hbody & Hleft).
    exists i, e. repeat split; try done; try lia.
    rewrite Hleft, length_app, length_take, length_drop. lia.
Qed.

Lemma deleteEventFromDailyNote_removes_span_witness :
  deleteEventFromDailyNote (js "2025090109000000") (js "2025-09-01.md") (Some (js "b"))
      {[ js "2025-09-01.md" := js "- a" ++ LF ++ js "- b" ++ LF ++ TAB ++ js "n" ]}
    = (Returned true,
       <[js "2025-09-01.md" :=
           join_lf (linesAfterDelete
                      (getAllLinesFromFile
                         (js "- a" ++ LF ++ js "- b" ++ LF ++ TAB ++ js "n"))
                      (js "2025090109000000") (Some (js "b")))]>
         {[ js "2025-09-01.md" := js "- a" ++ LF ++ js "- b" ++ LF ++ TAB ++ js "n" ]})
  /\ join_lf (linesAfterDelete
                (getAllLinesFromFile (js "- a" ++ LF ++ js "- b" ++ LF ++ TAB ++ js "n"))
                (js "2025090109000000") (Some (js "b")))
     = js "- a".
Proof.
  split; [| by vm_compute].
  apply (deleteEventFromDailyNote_removes_span
           {[ js "2025-09-01.md" := js "- a" ++ LF ++ js "- b" ++ LF ++ TAB ++ js "n" ]}
           (js "2025090109000000") (js "2025-09-01.md") (Some (js "b"))
           (js "- a" ++ LF ++ js "- b" ++ LF ++ TAB ++ js "n")).
  - reflexivity.
  - reflexivity.
  - by vm_compute.
Defined.

(** The lines left are lines of the document, in their order. *)
Lemma linesAfterDelete_sublist (fileLines : list jsstring) (eventId : jsstring)
    (eventTitle : option jsstring) :
  resolveTargetLine fileLines eventId eventTitle <> (-1)%Z ->
  sublist (linesAfterDelete fileLines eventId eventTitle) fileLines.
Proof.
  intros Hne.
  destruct (deletedSpan_inv _ _ _ Hne)
    as (i & e & target & Hi & Hl & Hrs & Hspan & He & Hbody & Hleft).
  rewrite Hleft. rewrite (lines_split_at_span fileLines i e target Hl He) at 3.
  apply sublist_app; [done |]. apply sublist_cons, sublist_inserts_l. done.
Qed.

(** X4.  What a deletion leaves: the lines of the document in their order
    (a sublist), every heading, and every record-start line but one. *)
Theorem linesAfterDelete_keeps_the_rest (fileLines : list jsstring)
    (eventId : jsstring) (eventTitle : option jsstring) :
  resolveTargetLine fileLines eventId eventTitle <> (-1)%Z ->
  sublist (linesAfterDelete fileLines eventId eventTitle) fileLines
  /\ List.filter headingStart (linesAfterDelete fileLines eventId eventTitle)
     = List.filter headingStart fileLines
  /\ S (length (List.filter recordStart
                  (linesAfterDelete fileLines eventId eventTitle)))
     = length (List.filter recordStart fileLines).
Proof.
  intros Hne.
  destruct (deletedSpan_inv _ _ _ Hne)
    as (i & e & target & Hi & Hl & Hrs & Hspan & He & Hbody & Hleft).
  pose proof (lines_split_at_span fileLines i e target Hl He) as Hsplit.
  set (notes := take (e - i) (drop (S i) fileLines)) in *.
  assert (forall j l, notes !! j = Some l -> ~ stop_line l) as Hnotes.
  { intros j l Hj. unfold notes in Hj.
    apply lookup_take_Some in Hj as [Hj Hlt]. rewrite lookup_drop in Hj.
    apply (Hbody (S i + j)%nat l); [lia | done]. }
  split; [by apply linesAfterDelete_sublist |].
  rewrite Hleft. split.
  - rewrite Hsplit at 3. rewrite !List.filter_app. cbn [List.filter].
    rewrite (recordStart_not_heading target Hrs), List.filter_app.
    rewrite (filter_no_stop headingStart notes); [done | | done].
    intros l Hh. right. by apply headingStart_line.
  - rewrite Hsplit at 3. rewrite !List.filter_app. cbn [List.filter].
    rewrite Hrs, List.filter_app.
    rewrite (filter_no_stop recordStart notes); [| | done].
    + rewrite !length_app. cbn [length app]. lia.
    + intros l Hh. left. by apply recordStart_line.
Qed.

Lemma linesAfterDelete_keeps_the_rest_witness :
  sublist (linesAfterDelete [js "# H"; js "- a"; TAB ++ js "n"; js "- b"]
             (js "2025090109000000") (Some (js "a")))
          [js "# H"; js "- a"; TAB ++ js "n"; js "- b"]
  /\ List.filter headingStart
       (linesAfterDelete [js "# H"; js "- a"; TAB ++ js "n"; js "- b"]
          (js "2025090109000000") (Some (js "a")))
     = List.filter headingStart [js "# H"; js "- a"; TAB ++ js "n"; js "- b"]
  /\ S (length (List.filter recordStart
                  (linesAfterDelete [js "# H"; js "- a"; TAB ++ js "n"; js "- b"]
                     (js "2025090109000000") (Some (js "a")))))
     = length (List.filter recordStart [js "# H"; js "- a"; TAB ++ js "n"; js "- b"]).
Proof.
  apply (linesAfterDelete_keeps_the_rest [js "# H"; js "- a"; TAB ++ js "n"; js "- b"]
           (js "2025090109000000") (Some (js "a"))).
  by vm_compute.
Defined.

(** X5.  Reading the written file again gives the lines that were left,
    but for the document that held nothing else than the record: it is
    written as the empty text, which reads as one empty line. *)
Theorem deleteEventFromDailyNote_read_again (fileContents : jsstring)
    (eventId : jsstring) (eventTitle : option jsstring) :
  resolveTargetLine (getAllLinesFromFile fileContents) eventId eventTitle <> (-1)%Z ->
  getAllLinesFromFile
    (join_lf (linesAfterDelete (getAllLinesFromFile fileContents) eventId eventTitle))
  = match linesAfterDelete (getAllLinesFromFile fileContents) eventId eventTitle with
    | [] => [[]]
    | rest => rest
    end.
Proof.
  intros Hne.
  pose proof (linesAfterDelete_sublist _ _ _ Hne) as Hsub.
  destruct (linesAfterDelete _ _ _) as [|l ls] eqn:Hleft; [done |].
  unfold getAllLinesFromFile at 1. apply split_lf_join_lf; [done |].
  apply sublist_submseteq in Hsub.
  apply Forall_forall. intros x Hx. apply (split_lf_no_lf fileContents).
  by apply (elem_of_submseteq _ _ _ Hx Hsub).
Qed.

Lemma deleteEventFromDailyNote_read_again_witness :
  getAllLinesFromFile
    (join_lf (linesAfterDelete (getAllLinesFromFile (js "- a" ++ LF ++ TAB ++ js "n"))
                (js "2025090109000000") (Some (js "a"))))
  = match linesAfterDelete (getAllLinesFromFile (js "- a" ++ LF ++ TAB ++ js "n"))
            (js "2025090109000000") (Some (js "a")) with
    | [] => [[]]
    | rest => rest
    end.
Proof.
  apply (deleteEventFromDailyNote_read_again (js "- a" ++ LF ++ TAB ++ js "n")
           (js "2025090109000000") (Some (js "a"))).
  by vm_compute.
Defined.

(** ** The ledger: deleteForever and restoreDeletedEvent *)

Lemma removeFirst_cons (c : jschar) (s p : jsstring) :
  removeFirst (c :: s) p
  = if startsWith (c :: s) p then drop (length p) (c :: s) else c :: removeFirst s p.
Proof. reflexivity. Qed.

Lemma includes_cons (c : jschar) (s p : jsstring) :
  includes (c :: s) p = startsWith (c :: s) p || includes s p.
Proof. reflexivity. Qed.

Lemma removeFirst_nil_pattern (s : jsstring) : removeFirst s [] = s.
Proof. by destruct s. Qed.

Lemma removeFirst_absent (s p : jsstring) : includes s p = false -> removeFirst s p = s.
Proof.
  induction s as [|c s IH].
  - destruct p; [done | reflexivity].
  - rewrite includes_cons, removeFirst_cons. intros H.
    apply orb_false_iff in H as [-> H]. by rewrite IH.
Qed.

Lemma removeFirst_self (p : jsstring) : removeFirst p p = [].
Proof.
  assert (startsWith p p = true) as H.
  { apply startsWith_app. exists []. by rewrite app_nil_r. }
  destruct p as [|c p]; [done |].
  rewrite removeFirst_cons, H. apply drop_all.
Qed.

(** A text without line feed begins a text before a line feed only when it
    begins what is before the line feed. *)
Lemma startsWith_before_lf (a b p : jsstring) :
  10 ∉ p -> startsWith (a ++ 10 :: b) p = startsWith a p.
Proof.
  revert a. induction p as [|c p IH]; intros a Hp; [done |].
  apply not_elem_of_cons in Hp as [Hc Hp].
  destruct a as [|x a].
  - cbn [app startsWith]. destruct (N.eqb_spec c 10); [done | reflexivity].
  - cbn [app startsWith]. by rewrite IH.
Qed.

Lemma removeFirst_before_lf (a b p : jsstring) :
  10 ∉ p ->
  removeFirst (a ++ 10 :: b) p
  = if includes a p then removeFirst a p ++ 10 :: b else a ++ 10 :: removeFirst b p.
Proof.
  intros Hp. induction a as [|x a IH].
  - destruct p as [|c p]; [done |].
    apply not_elem_of_cons in Hp as [Hc Hp].
    cbn [app]. rewrite removeFirst_cons. cbn [startsWith includes].
    destruct (N.eqb_spec c 10); [done | reflexivity].
  - change ((x :: a) ++ 10 :: b) with (x :: (a ++ 10 :: b)).
    rewrite removeFirst_cons, includes_cons.
    change (x :: (a ++ 10 :: b)) with ((x :: a) ++ 10 :: b).
    rewrite (startsWith_before_lf (x :: a) b p Hp).
    destruct (startsWith (x :: a) p) eqn:Hsw.
    + rewrite orb_true_l, removeFirst_cons, Hsw.
      apply startsWith_app in Hsw as [r Hr]. rewrite Hr.
      rewrite <- app_assoc. by rewrite !drop_app_length.
    + rewrite orb_false_l, IH.
      destruct (includes a p); [by rewrite removeFirst_cons, Hsw | done].
Qed.

(** [replace] with a pattern without line feed changes one line of a text:
    the first line that contains the pattern loses its first occurrence. *)
Lemma removeFirst_join_lf (lines : list jsstring) (j : nat) (l p : jsstring) :
  10 ∉ p -> lines !! j = Some l -> includes l p = true ->
  (forall i l', (i < j)%nat -> lines !! i = Some l' -> includes l' p = false) ->
  removeFirst (join_lf lines) p = join_lf (<[j := removeFirst l p]> lines).
Proof.
  intros Hp. revert j. induction lines as [|l0 rest IH]; intros j Hj Hl Hfirst; [done |].
  destruct rest as [|l1 rest].
  - destruct j as [|j]; [| done]. by injection Hj as ->.
  - rewrite join_lf_cons by done. unfold LF. cbn [app].
    rewrite (removeFirst_before_lf l0 _ p Hp).
    destruct j as [|j].
    + injection Hj as ->. rewrite Hl. done.
    + rewrite (Hfirst 0%nat l0) by (done || lia).
      rewrite (IH j Hj Hl).
      * cbn [insert list_insert]. fold (@insert _ _ _ (@list_insert jsstring) j).
        destruct (<[j := removeFirst l p]> (l1 :: rest)) as [|x xs] eqn:Hins.
        { apply (f_equal length) in Hins. rewrite length_insert in Hins. done. }
        reflexivity.
      * intros i l' Hi. apply (Hfirst (S i)). lia.
Qed.

Lemma removeFirst_keeps_no_lf (s p : jsstring) : 10 ∉ s -> 10 ∉ removeFirst s p.
Proof.
  induction s as [|c s IH]; intros Hs.
  - destruct p; [done | apply not_elem_of_nil].
  - rewrite removeFirst_cons. apply not_elem_of_cons in Hs as [Hc Hs].
    destruct (startsWith (c :: s) p).
    + intros Hin. apply list_elem_of_lookup in Hin as [i Hi].
      rewrite lookup_drop in Hi. apply list_elem_of_lookup_2 in Hi.
      apply elem_of_cons in Hi as [Hi | Hi]; [by symmetry in Hi | done].
    + apply not_elem_of_cons. split; [done | by apply IH].
Qed.

(** The lines of a text after such a [replace]. *)
Lemma split_lf_removeFirst (s : jsstring) (j : nat) (l p : jsstring) :
  10 ∉ p -> split_lf s !! j = Some l -> includes l p = true ->
  (forall i l', (i < j)%nat -> split_lf s !! i = Some l' -> includes l' p = false) ->
  removeFirst s p = join_lf (<[j := removeFirst l p]> (split_lf s))
  /\ split_lf (removeFirst s p) = <[j := removeFirst l p]> (split_lf s).
Proof.
  intros Hp Hj Hl Hfirst.
  assert (removeFirst s p = join_lf (<[j := removeFirst l p]> (split_lf s))) as Heq.
  { rewrite <- (join_lf_split_lf s) at 1. by apply removeFirst_join_lf. }
  split; [done |]. rewrite Heq. apply split_lf_join_lf.
  - intros Hnil. apply (f_equal length) in Hnil. rewrite length_insert in Hnil.
    apply lookup_lt_Some in Hj. simpl in Hnil. lia.
  - apply Forall_insert; [apply split_lf_Forall_no_lf |].
    apply removeFirst_keeps_no_lf, (split_lf_no_lf s).
    by apply list_elem_of_lookup_2 in Hj.
Qed.

(** Without a line that contains the pattern nothing changes; with one the
    number of lines stays. *)
Lemma includes_join_lf (lines : list jsstring) (p : jsstring) :
  10 ∉ p -> p <> [] ->
  includes (join_lf lines) p = true ->
  exists j l, lines !! j = Some l /\ includes l p = true
    /\ forall i l', (i < j)%nat -> lines !! i = Some l' -> includes l' p = false.
Proof.
  intros Hp Hne. induction lines as [|l0 rest IH]; intros Hinc.
  - destruct p; [done |]. done.
  - destruct (includes l0 p) eqn:Hl0.
    + exists 0%nat, l0. repeat split; [done |]. intros i l' Hi. lia.
    + destruct rest as [|l1 rest]; [cbn [join_lf] in Hinc; congruence |].
      rewrite join_lf_cons in Hinc by done.
      apply includes_app in Hinc as (a & b & Hab).
      assert (includes (join_lf (l1 :: rest)) p = true) as Hrest.
      { apply includes_app.
        assert (forall (x y : jsstring) a b, 10 ∉ p -> p <> [] ->
                  includes x p = false -> x ++ LF ++ y = a ++ p ++ b ->
                  exists a' b', y = a' ++ p ++ b') as Hgen.
        { clear. intros x. induction x as [|c x IHx]; intros y a b Hp Hne Hx Heq.
          - destruct a as [|c a].
            + destruct p as [|d p]; [done |]. injection Heq as Hd _.
              apply not_elem_of_cons in Hp as [Hp _]. unfold LF in Hd. by subst d.
            + injection Heq as _ Heq. by exists a, b.
          - rewrite includes_cons in Hx. apply orb_false_iff in Hx as [Hsw Hx].
            destruct a as [|d a].
            + exfalso. cbn [app] in Heq.
              assert (startsWith ((c :: x) ++ 10 :: y) p = true) as Hs
                by (apply startsWith_app; exists b; exact Heq).
              rewrite startsWith_before_lf in Hs by done. congruence.
            + injection Heq as _ Heq. by apply (IHx y a b). }
        by apply (Hgen l0 _ a b). }
      destruct (IH Hrest) as (j & l & Hj & Hl & Hfirst).
      exists (S j), l. repeat split; [done | done |].
      intros [|i] l' Hi Hl'; [by injection Hl' as <- |].
      apply (Hfirst i); [lia | done].
Qed.

Lemma removeFirst_line_count (s p : jsstring) :
  10 ∉ p -> length (split_lf (removeFirst s p)) = length (split_lf s).
Proof.
  intros Hp. destruct p as [|c p]; [by rewrite removeFirst_nil_pattern |].
  destruct (includes s (c :: p)) eqn:Hinc.
  - rewrite <- (join_lf_split_lf s) in Hinc.
    destruct (includes_join_lf _ _ Hp ltac:(done) Hinc) as (j & l & Hj & Hl & Hfirst).
    destruct (split_lf_removeFirst s j l (c :: p) Hp Hj Hl Hfirst) as [_ ->].
    apply length_insert.
  - by rewrite removeFirst_absent.
Qed.

Lemma getAllLinesFromFile_length (s : jsstring) :
  (length (getAllLinesFromFile s) =? 0)%nat = false.
Proof.
  unfold getAllLinesFromFile. pose proof (split_lf_nonempty s).
  by destruct (split_lf s).
Qed.

Lemma isDeletedRecordLine_Some (line : option jsstring) :
  isDeletedRecordLine line = true -> exists l, line = Some l /\ l <> [].
Proof.
  destruct line as [l|]; [| by vm_compute].
  intros H. exists l. split; [done |]. by intros ->.
Qed.

Lemma addressedLine_no_lf (s id l : jsstring) :
  addressedLine (getAllLinesFromFile s) id = Some l -> 10 ∉ l.
Proof.
  unfold addressedLine, lineAt. intros H. apply (split_lf_no_lf s).
  destruct (parseInt _) as [n|]; [| done]. destruct (_ <? 0)%Z; [done |].
  by apply list_elem_of_lookup_2 in H.
Qed.

(** What [deleteForever] does with an existing ledger. *)
Lemma deleteForever_run (E : api) (v : vault) (deletedEventid old : jsstring) :
  hasFourteenDigits deletedEventid = true ->
  v !! (getDailyNotePath E ++ js "/delete.md") = Some old ->
  deleteForever E deletedEventid v
  = (Returned tt,
     if isDeletedRecordLine (addressedLine (getAllLinesFromFile old) deletedEventid)
     then <[getDailyNotePath E ++ js "/delete.md" :=
              removeFirst old
                (templateOf (addressedLine (getAllLinesFromFile old) deletedEventid))]> v
     else v).
Proof.
  intros Hid Hfile. unfold deleteForever. rewrite Hid.
  change (negb true) with false. cbv iota. cbv zeta.
  rewrite io_bind_run, (getFirstLinkpathDest_Some v _ old Hfile).
  rewrite io_bind_run, (vault_read_Some v _ old Hfile).
  rewrite getAllLinesFromFile_length.
  fold (addressedLine (getAllLinesFromFile old) deletedEventid).
  by destruct (isDeletedRecordLine _).
Qed.

(** X6.  [deleteForever] on an existing ledger never fails for an id with
    fourteen digits, writes nothing but the ledger, never makes it longer,
    and keeps the number of its lines: the other entries stay at the line
    numbers their ids hold. *)
Theorem deleteForever_keeps_line_numbers (E : api) (v : vault)
    (deletedEventid old : jsstring) :
  hasFourteenDigits deletedEventid = true ->
  v !! (getDailyNotePath E ++ js "/delete.md") = Some old ->
  exists new,
    deleteForever E deletedEventid v
      = (Returned tt, <[getDailyNotePath E ++ js "/delete.md" := new]> v)
    /\ length (getAllLinesFromFile new) = length (getAllLinesFromFile old)
    /\ (length new <= length old)%nat
    /\ (isDeletedRecordLine (addressedLine (getAllLinesFromFile old) deletedEventid)
        = false -> new = old).
Proof.
  intros Hid Hfile. rewrite (deleteForever_run E v _ old Hid Hfile).
  destruct (isDeletedRecordLine _) eqn:Hrec.
  - destruct (isDeletedRecordLine_Some _ Hrec) as (l & Hl & Hne).
    rewrite Hl. exists (removeFirst old l). repeat split; [| | done].
    + apply removeFirst_line_count. by apply (addressedLine_no_lf old deletedEventid).
    + destruct (includes old l) eqn:Hinc.
      * pose proof (removeFirst_length old l Hinc). lia.
      * by rewrite removeFirst_absent.
  - exists old. repeat split; try done. by rewrite insert_id.
Qed.

Lemma deleteForever_keeps_line_numbers_witness :
  exists new,
    deleteForever sampleApi (js "202509121030002")
        {[ js "journal/delete.md" := js "- a deletedAt: 202509110800001" ++ LF
                                      ++ js "- b deletedAt: 202509121030002" ]}
      = (Returned tt,
         <[getDailyNotePath sampleApi ++ js "/delete.md" := new]>
           {[ js "journal/delete.md" := js "- a deletedAt: 202509110800001" ++ LF
                                         ++ js "- b deletedAt: 202509121030002" ]})
    /\ length (getAllLinesFromFile new)
       = length (getAllLinesFromFile (js "- a deletedAt: 202509110800001" ++ LF
                                      ++ js "- b deletedAt: 202509121030002"))
    /\ (length new <= length (js "- a deletedAt: 202509110800001" ++ LF
                              ++ js "- b deletedAt: 202509121030002"))%nat
    /\ (isDeletedRecordLine
          (addressedLine
             (getAllLinesFromFile (js "- a deletedAt: 202509110800001" ++ LF
                                   ++ js "- b deletedAt: 202509121030002"))
             (js "202509121030002"))
        = false
        -> new = js "- a deletedAt: 202509110800001" ++ LF
                 ++ js "- b deletedAt: 202509121030002").
Proof.
  apply (deleteForever_keeps_line_numbers sampleApi
           {[ js "journal/delete.md" := js "- a deletedAt: 202509110800001" ++ LF
                                         ++ js "- b deletedAt: 202509121030002" ]}
           (js "202509121030002")
           (js "- a deletedAt: 202509110800001" ++ LF
            ++ js "- b deletedAt: 202509121030002")).
  - reflexivity.
  - reflexivity.
Defined.

Lemma addressedLine_at (lines : list jsstring) (id : jsstring) (k : nat) :
  parseInt (sliceFrom id 14) = Some (Z.of_nat k + 1)%Z ->
  addressedLine lines id = lines !! k.
Proof.
  intros Hn. unfold addressedLine. rewrite Hn.
  replace (Z.of_nat k + 1 - 1)%Z with (Z.of_nat k) by lia. apply lineAt_of_nat.
Qed.

(** The ledger after the first occurrence of the text of line [k] is
    removed, when no line before it contains that text. *)
Lemma ledger_blank_line (old : jsstring) (k : nat) (line : jsstring) :
  getAllLinesFromFile old !! k = Some line ->
  (forall i l', (i < k)%nat -> getAllLinesFromFile old !! i = Some l' ->
                includes l' line = false) ->
  removeFirst old line = join_lf (<[k := []]> (getAllLinesFromFile old))
  /\ getAllLinesFromFile (removeFirst old line) = <[k := []]> (getAllLinesFromFile old).
Proof.
  intros Hk Hfirst. unfold getAllLinesFromFile in *.
  assert (10 ∉ line) as Hlf
    by (apply (split_lf_no_lf old); by apply list_elem_of_lookup_2 in Hk).
  assert (includes line line = true) as Hself.
  { apply includes_app. exists [], []. by rewrite app_nil_r. }
  destruct (split_lf_removeFirst old k line line Hlf Hk Hself Hfirst) as [H1 H2].
  by rewrite removeFirst_self in H1, H2.
Qed.

(** X7.  [deleteForever] with an id that addresses an entry [- <text>] of
    the ledger, where no line before the entry contains its text: the line
    of the entry is left empty, every other line stays where it is, and a
    second call with the same id changes nothing. *)
Theorem deleteForever_blanks_entry (E : api) (v : vault)
    (deletedEventid old : jsstring) (k : nat) (line : jsstring) :
  hasFourteenDigits deletedEventid = true ->
  v !! (getDailyNotePath E ++ js "/delete.md") = Some old ->
  parseInt (sliceFrom deletedEventid 14) = Some (Z.of_nat k + 1)%Z ->
  getAllLinesFromFile old !! k = Some line ->
  isDeletedRecordLine (Some line) = true ->
  (forall i l', (i < k)%nat -> getAllLinesFromFile old !! i = Some l' ->
                includes l' line = false) ->
  exists new,
    deleteForever E deletedEventid v
      = (Returned tt, <[getDailyNotePath E ++ js "/delete.md" := new]> v)
    /\ getAllLinesFromFile new = <[k := []]> (getAllLinesFromFile old)
    /\ deleteForever E deletedEventid
         (<[getDailyNotePath E ++ js "/delete.md" := new]> v)
       = (Returned tt, <[getDailyNotePath E ++ js "/delete.md" := new]> v).
Proof.
  intros Hid Hfile Hn Hk Hrec Hfirst.
  destruct (ledger_blank_line old k line Hk Hfirst) as [Hnew Hlines].
  exists (removeFirst old line). split; [| split].
  - rewrite (deleteForever_run E v _ old Hid Hfile).
    by rewrite (addressedLine_at _ _ k Hn), Hk, Hrec.
  - exact Hlines.
  - rewrite (deleteForever_run E _ _ (removeFirst old line) Hid)
      by apply lookup_insert_eq.
    rewrite (addressedLine_at _ _ k Hn), Hlines.
    rewrite list_lookup_insert_eq by by apply lookup_lt_Some in Hk.
    reflexivity.
Qed.

Lemma deleteForever_blanks_entry_witness :
  exists new,
    deleteForever sampleApi (js "202509121030002")
        {[ js "journal/delete.md" := js "- a deletedAt: 202509110800001" ++ LF
                                      ++ js "- b deletedAt: 202509121030002" ]}
      = (Returned tt,
         <[getDailyNotePath sampleApi ++ js "/delete.md" := new]>
           {[ js "journal/delete.md" := js "- a deletedAt: 202509110800001" ++ LF
                                         ++ js "- b deletedAt: 202509121030002" ]})
    /\ getAllLinesFromFile new
       = <[1%nat := []]>
           (getAllLinesFromFile (js "- a deletedAt: 202509110800001" ++ LF
                                 ++ js "- b deletedAt: 202509121030002"))
    /\ deleteForever sampleApi (js "202509121030002")
         (<[getDailyNotePath sampleApi ++ js "/delete.md" := new]>
            {[ js "journal/delete.md" := js "- a deletedAt: 202509110800001" ++ LF
                                          ++ js "- b deletedAt: 202509121030002" ]})
       = (Returned tt,
          <[getDailyNotePath sampleApi ++ js "/delete.md" := new]>
            {[ js "journal/delete.md" := js "- a deletedAt: 202509110800001" ++ LF
                                          ++ js "- b deletedAt: 202509121030002" ]}).
Proof.
  apply (deleteForever_blanks_entry sampleApi
           {[ js "journal/delete.md" := js "- a deletedAt: 202509110800001" ++ LF
                                         ++ js "- b deletedAt: 202509121030002" ]}
           (js "202509121030002")
           (js "- a deletedAt: 202509110800001" ++ LF
            ++ js "- b deletedAt: 202509121030002")
           1%nat (js "- b deletedAt: 202509121030002")).
  - reflexivity.
  - reflexivity.
  - by vm_compute.
  - by vm_compute.
  - by vm_compute.
  - intros [|i] l' Hi Hl'; [| lia]. vm_compute in Hl'. injection Hl' as <-.
    by vm_compute.
Defined.

(** What [restoreDeletedEvent] does with an existing ledger when the line
    addressed is not an entry [- <text>]. *)
Lemma restoreDeletedEvent_run_no_record (E : api) (v : vault)
    (deletedEventid old : jsstring) :
  hasFourteenDigits deletedEventid = true ->
  v !! (getDailyNotePath E ++ js "/delete.md") = Some old ->
  isDeletedRecordLine (addressedLine (getAllLinesFromFile old) deletedEventid) = false ->
  restoreDeletedEvent E deletedEventid v
  = (Returned NothingRestored,
     <[getDailyNotePath E ++ js "/delete.md" :=
         removeFirst old
           (templateOf (addressedLine (getAllLinesFromFile old) deletedEventid))]> v).
Proof.
  intros Hid Hfile Hrec. unfold restoreDeletedEvent. rewrite Hid.
  change (negb true) with false. cbv iota. cbv zeta.
  rewrite io_bind_run, (getFirstLinkpathDest_Some v _ old Hfile).
  rewrite io_bind_run, (vault_read_Some v _ old Hfile).
  rewrite getAllLinesFromFile_length.
  fold (addressedLine (getAllLinesFromFile old) deletedEventid).
  rewrite io_bind_run. unfold vault_modify. by rewrite Hrec.
Qed.

(** X8.  An id with fourteen digits whose rest addresses no line of the
    ledger (no number behind the fourteenth character, or a number outside
    the lines): the line read is [undefined], so [restoreDeletedEvent]
    removes the first occurrence of the text [undefined] from the ledger
    and returns the empty result, while [deleteForever] writes nothing. *)
Theorem restoreDeletedEvent_no_such_line (E : api) (v : vault)
    (deletedEventid old : jsstring) :
  hasFourteenDigits deletedEventid = true ->
  v !! (getDailyNotePath E ++ js "/delete.md") = Some old ->
  addressedLine (getAllLinesFromFile old) deletedEventid = None ->
  restoreDeletedEvent E deletedEventid v
    = (Returned NothingRestored,
       <[getDailyNotePath E ++ js "/delete.md" := removeFirst old (js "undefined")]> v)
  /\ deleteForever E deletedEventid v = (Returned tt, v).
Proof.
  intros Hid Hfile Hline. split.
  - rewrite (restoreDeletedEvent_run_no_record E v _ old Hid Hfile); rewrite Hline; done.
  - rewrite (deleteForever_run E v _ old Hid Hfile). by rewrite Hline.
Qed.

Lemma restoreDeletedEvent_no_such_line_witness :
  restoreDeletedEvent sampleApi (js "20250912103000")
      {[ js "journal/delete.md" := js "- an undefined plan deletedAt: 202509110800001" ]}
    = (Returned NothingRestored,
       <[getDailyNotePath sampleApi ++ js "/delete.md" :=
           removeFirst (js "- an undefined plan deletedAt: 202509110800001")
                       (js "undefined")]>
         {[ js "journal/delete.md" := js "- an undefined plan deletedAt: 202509110800001" ]})
  /\ deleteForever sampleApi (js "20250912103000")
       {[ js "journal/delete.md" := js "- an undefined plan deletedAt: 202509110800001" ]}
     = (Returned tt,
        {[ js "journal/delete.md" := js "- an undefined plan deletedAt: 202509110800001" ]}).
Proof.
  apply (restoreDeletedEvent_no_such_line sampleApi
           {[ js "journal/delete.md" := js "- an undefined plan deletedAt: 202509110800001" ]}
           (js "20250912103000")
           (js "- an undefined plan deletedAt: 202509110800001")).
  - reflexivity.
  - reflexivity.
  - by vm_compute.
Defined.

(** What [restoreDeletedEvent] does with an entry [- <text>]: the ledger
    loses the first occurrence of the text of the entry, and the daily note
    of the day read off the entry (a new one when there is none) is what
    [insertAfterHandler] makes of the line built from the entry. *)
Lemma restoreDeletedEvent_run_record (E : api) (v : vault)
    (deletedEventid old line : jsstring) :
  hasFourteenDigits deletedEventid = true ->
  v !! (getDailyNotePath E ++ js "/delete.md") = Some old ->
  addressedLine (getAllLinesFromFile old) deletedEventid = Some line ->
  isDeletedRecordLine (Some line) = true ->
  dailyNotePathOf E (momentFromId (extractDeletedEventId E line))
    <> getDailyNotePath E ++ js "/delete.md" ->
  restoreDeletedEvent E deletedEventid v
  = (Returned RestoredOne,
     <[dailyNotePathOf E (momentFromId (extractDeletedEventId E line)) :=
         insertAfterHandler E (js "- ")
           (js "- "
              ++ formatWith format_HH (momentFromId (extractDeletedEventId E line))
              ++ js ":"
              ++ formatWith format_mm (momentFromId (extractDeletedEventId E line))
              ++ js " " ++ templateOf (extractDeletedEvent E line))
           (default (dailyNoteTemplate E (momentFromId (extractDeletedEventId E line)))
              (v !! dailyNotePathOf E (momentFromId (extractDeletedEventId E line))))]>
       (<[getDailyNotePath E ++ js "/delete.md" := removeFirst old line]> v)).
Proof.
  intros Hid Hfile Hline Hrec Hpath.
  set (ledger := getDailyNotePath E ++ js "/delete.md") in *.
  set (date := momentFromId (extractDeletedEventId E line)) in *.
  set (notePath := dailyNotePathOf E date) in *.
  unfold restoreDeletedEvent. fold ledger. rewrite Hid.
  change (negb true) with false. cbv iota. cbv zeta.
  rewrite io_bind_run, (getFirstLinkpathDest_Some v _ old Hfile).
  rewrite io_bind_run, (vault_read_Some v _ old Hfile).
  rewrite getAllLinesFromFile_length.
  fold (addressedLine (getAllLinesFromFile old) deletedEventid).
  rewrite Hline, Hrec. change (negb true) with false. cbv iota.
  rewrite io_bind_run. unfold vault_modify at 1.
  unfold replaceLine. change (templateOf (Some line)) with line.
  fold date. fold notePath.
  set (v1 := <[ledger := removeFirst old line]> v).
  assert (v1 !! notePath = v !! notePath) as Hv1
    by (unfold v1; by rewrite lookup_insert_ne).
  rewrite io_bind_run. unfold getDailyNote. fold date. fold notePath.
  destruct (v !! notePath) as [note|] eqn:Hnote.
  - rewrite (getFirstLinkpathDest_Some v1 notePath note) by by rewrite Hv1.
    rewrite io_bind_run, io_bind_run.
    rewrite (vault_read_Some v1 notePath note) by by rewrite Hv1.
    reflexivity.
  - rewrite (getFirstLinkpathDest_None v1 notePath) by by rewrite Hv1.
    rewrite io_bind_run, io_bind_run. unfold createDailyNote, vault_create.
    fold date. fold notePath. rewrite Hv1.
    rewrite io_bind_run, (vault_read_Some _ notePath (dailyNoteTemplate E date))
      by apply lookup_insert_eq.
    unfold vault_modify, io_ret. unfold default. by rewrite insert_insert_eq.
Qed.

(** X9.  An entry is restored once: after [restoreDeletedEvent] has restored
    the entry that an id addresses (no line before the entry contains its
    text, the daily note is not the ledger), the line of the entry is
    empty, and [restoreDeletedEvent] with the same id returns the empty
    result and leaves every file as it is. *)
Theorem restoreDeletedEvent_at_most_once (E : api) (v : vault)
    (deletedEventid old : jsstring) (k : nat) (line : jsstring) :
  hasFourteenDigits deletedEventid = true ->
  v !! (getDailyNotePath E ++ js "/delete.md") = Some old ->
  parseInt (sliceFrom deletedEventid 14) = Some (Z.of_nat k + 1)%Z ->
  getAllLinesFromFile old !! k = Some line ->
  isDeletedRecordLine (Some line) = true ->
  (forall i l', (i < k)%nat -> getAllLinesFromFile old !! i = Some l' ->
                includes l' line = false) ->
  dailyNotePathOf E (momentFromId (extractDeletedEventId E line))
    <> getDailyNotePath E ++ js "/delete.md" ->
  exists v1 new,
    restoreDeletedEvent E deletedEventid v = (Returned RestoredOne, v1)
    /\ v1 !! (getDailyNotePath E ++ js "/delete.md") = Some new
    /\ getAllLinesFromFile new = <[k := []]> (getAllLinesFromFile old)
    /\ restoreDeletedEvent E deletedEventid v1 = (Returned NothingRestored, v1).
Proof.
  intros Hid Hfile Hn Hk Hrec Hfirst Hpath.
  destruct (ledger_blank_line old k line Hk Hfirst) as [Hnew Hlines].
  assert (addressedLine (getAllLinesFromFile old) deletedEventid = Some line) as Hline
    by by rewrite (addressedLine_at _ _ k Hn).
  eexists. exists (removeFirst old line).
  split; [by apply (restoreDeletedEvent_run_record E v _ old line) |].
  set (v1 := <[_ := _]> (<[_ := _]> v)).
  assert (v1 !! (getDailyNotePath E ++ js "/delete.md") = Some (removeFirst old line))
    as Hv1.
  { unfold v1. rewrite lookup_insert_ne by done. apply lookup_insert_eq. }
  split; [exact Hv1 |]. split; [exact Hlines |].
  assert (addressedLine (getAllLinesFromFile (removeFirst old line)) deletedEventid
          = Some []) as Hempty.
  { rewrite (addressedLine_at _ _ k Hn), Hlines.
    apply list_lookup_insert_eq. by apply lookup_lt_Some in Hk. }
  rewrite (restoreDeletedEvent_run_no_record E v1 _ (removeFirst old line) Hid Hv1)
    by by rewrite Hempty.
  rewrite Hempty. change (templateOf (Some [])) with (@nil N).
  rewrite removeFirst_nil_pattern. by rewrite insert_id.
Qed.

Lemma restoreDeletedEvent_at_most_once_witness :
  exists v1 new,
    restoreDeletedEvent sampleApi (js "202509121030001")
        {[ js "journal/delete.md" := js "- b deletedAt: 202509121030001" ]}
      = (Returned RestoredOne, v1)
    /\ v1 !! (getDailyNotePath sampleApi ++ js "/delete.md") = Some new
    /\ getAllLinesFromFile new
       = <[0%nat := []]> (getAllLinesFromFile (js "- b deletedAt: 202509121030001"))
    /\ restoreDeletedEvent sampleApi (js "202509121030001") v1
       = (Returned NothingRestored, v1).
Proof.
  apply (restoreDeletedEvent_at_most_once sampleApi
           {[ js "journal/delete.md" := js "- b deletedAt: 202509121030001" ]}
           (js "202509121030001") (js "- b deletedAt: 202509121030001")
           0%nat (js "- b deletedAt: 202509121030001")).
  - reflexivity.
  - reflexivity.
  - by vm_compute.
  - by vm_compute.
  - by vm_compute.
  - intros i l' Hi. lia.
  - by vm_compute.
Defined.

(** X10.  The two operations on the ledger and what they cannot work with:
    an id without fourteen digits in a row makes both fail with the same
    message; without a ledger [restoreDeletedEvent] fails and
    [deleteForever] returns; neither writes anything. *)
Theorem ledger_operations_without_target (E : api) (v : vault)
    (deletedEventid : jsstring) :
  (hasFourteenDigits deletedEventid = false ->
   restoreDeletedEvent E deletedEventid v = (Thrown (js "Invalid event ID format"), v)
   /\ deleteForever E deletedEventid v = (Thrown (js "Invalid event ID format"), v))
  /\ (hasFourteenDigits deletedEventid = true ->
      v !! (getDailyNotePath E ++ js "/delete.md") = None ->
      restoreDeletedEvent E deletedEventid v = (Thrown (js "Delete file not found"), v)
      /\ deleteForever E deletedEventid v = (Returned tt, v)).
Proof.
  split.
  - intros Hid. unfold restoreDeletedEvent, deleteForever. by rewrite Hid.
  - intros Hid Hfile. unfold restoreDeletedEvent, deleteForever. rewrite Hid.
    change (negb true) with false. cbv iota. cbv zeta.
    by rewrite !io_bind_run, !(getFirstLinkpathDest_None v _ Hfile).
Qed.

Lemma ledger_operations_without_target_witness :
  (restoreDeletedEvent sampleApi (js "2025-09-12") ∅
     = (Thrown (js "Invalid event ID format"), ∅)
   /\ deleteForever sampleApi (js "2025-09-12") ∅
      = (Thrown (js "Invalid event ID format"), ∅))
  /\ (restoreDeletedEvent sampleApi (js "202509121030001") ∅
        = (Thrown (js "Delete file not found"), ∅)
      /\ deleteForever sampleApi (js "202509121030001") ∅ = (Returned tt, ∅)).
Proof.
  destruct (ledger_operations_without_target sampleApi ∅ (js "2025-09-12")) as [Hbad _].
  destruct (ledger_operations_without_target sampleApi ∅ (js "202509121030001"))
    as [_ Hmissing].
  split; [apply Hbad; reflexivity | apply Hmissing; reflexivity].
Defined.

(** ** The ledger: sendEventToDelete *)

Lemma ledgerEntry_nonempty (now : moment) (old event : jsstring) :
  ledgerEntry now old event <> [].
Proof.
  unfold ledgerEntry. intros H. apply (f_equal length) in H.
  rewrite !length_app in H.
  assert (length (js " deletedAt: ") = 12%nat) as Hl by reflexivity.
  rewrite Hl in H. simpl in H. lia.
Qed.

Lemma ledgerWith_addressed (now : moment) (old event : jsstring) :
  valid_moment now = true ->
  forallb (fun c => negb (is_line_terminator c)) event = true ->
  addressedLine (getAllLinesFromFile (ledgerWith now old event)) (ledgerIdAt now old)
  = Some (ledgerEntry now old event).
Proof.
  intros Hnow Hevent. unfold addressedLine.
  rewrite (parseInt_ledgerIdAt now old Hnow).
  by apply ledgerWith_entry_line.
Qed.

(** X11.  Without a ledger [sendEventToDelete] creates one at the normalized
    path and writes the entry with the number 1 into it; the id of the
    entry addresses its line.  When the normalized path is taken, the
    operation fails and nothing is written. *)
Theorem sendEventToDelete_new_ledger (E : api) (now : moment) (event : jsstring)
    (v : vault) :
  v !! (getDailyNotePath E ++ js "/delete.md") = None ->
  (v !! normalizePath E (getDailyNotePath E ++ js "/delete.md") = None ->
   sendEventToDelete E now event v
   = (Returned (format_slashed now),
      <[normalizePath E (getDailyNotePath E ++ js "/delete.md") :=
          event ++ js " deletedAt: " ++ format_YYYYMMDDHHmmss now ++ js "1"]> v))
  /\ (is_Some (v !! normalizePath E (getDailyNotePath E ++ js "/delete.md")) ->
      exists message, sendEventToDelete E now event v = (Thrown message, v))
  /\ (valid_moment now = true ->
      forallb (fun c => negb (is_line_terminator c)) event = true ->
      addressedLine
        (getAllLinesFromFile
           (event ++ js " deletedAt: " ++ format_YYYYMMDDHHmmss now ++ js "1"))
        (format_YYYYMMDDHHmmss now ++ js "1")
      = Some (event ++ js " deletedAt: " ++ format_YYYYMMDDHHmmss now ++ js "1")).
Proof.
  intros Hfile. split; [| split].
  - intros Hfree. unfold sendEventToDelete. cbv zeta.
    rewrite io_bind_run, (getFirstLinkpathDest_None v _ Hfile).
    rewrite io_bind_run. unfold createdeleteFile, vault_create. rewrite Hfree.
    rewrite io_bind_run, createDeleteEventInFile_run.
    change (truthy []) with false. cbv iota.
    unfold io_ret. by rewrite insert_insert_eq.
  - intros [c Hc]. eexists. unfold sendEventToDelete. cbv zeta.
    rewrite io_bind_run, (getFirstLinkpathDest_None v _ Hfile).
    rewrite io_bind_run. unfold createdeleteFile, vault_create. rewrite Hc.
    reflexivity.
  - intros Hnow Hevent. apply (ledgerWith_addressed now [] event Hnow Hevent).
Qed.

Lemma sendEventToDelete_new_ledger_witness :
  sendEventToDelete sampleApi (Moment 2025 9 12 10 30 0) (js "- 09:00 a") ∅
  = (Returned (format_slashed (Moment 2025 9 12 10 30 0)),
     <[normalizePath sampleApi (getDailyNotePath sampleApi ++ js "/delete.md") :=
         js "- 09:00 a" ++ js " deletedAt: "
           ++ format_YYYYMMDDHHmmss (Moment 2025 9 12 10 30 0) ++ js "1"]> ∅).
Proof.
  apply (proj1 (sendEventToDelete_new_ledger sampleApi (Moment 2025 9 12 10 30 0)
                  (js "- 09:00 a") ∅ (lookup_empty _))).
  apply lookup_empty.
Defined.

Lemma numberToString_inj (n m : N) : numberToString n = numberToString m -> n = m.
Proof.
  intros H. destruct (numberToString_decimal n) as (_ & _ & Hn).
  destruct (numberToString_decimal m) as (_ & _ & Hm). congruence.
Qed.

(** X12.  The numbers of the entries grow: after an entry is appended the
    next entry gets a greater number (the next one, when the event holds no
    line terminator), so two entries written at the same moment still have
    different ids. *)
Theorem ledger_numbers_grow (now : moment) (old event : jsstring) :
  nextLineNum (getAllLinesFromFile old)
    < nextLineNum (getAllLinesFromFile (ledgerWith now old event))
  /\ ledgerIdAt now (ledgerWith now old event) <> ledgerIdAt now old
  /\ (valid_moment now = true ->
      forallb (fun c => negb (is_line_terminator c)) event = true ->
      nextLineNum (getAllLinesFromFile (ledgerWith now old event))
      = nextLineNum (getAllLinesFromFile old) + 1).
Proof.
  assert (nextLineNum (getAllLinesFromFile old)
          < nextLineNum (getAllLinesFromFile (ledgerWith now old event))) as Hlt.
  { unfold ledgerWith, getAllLinesFromFile. rewrite !nextLineNum_cases.
    pose proof (ledgerEntry_nonempty now old event) as Hne.
    pose proof (split_lf_nonempty (ledgerEntry now old event)) as Hne'.
    destruct old as [|c old'].
    - change (truthy []) with false. cbv iota.
      change (split_lf []) with [[] : jsstring].
      rewrite bool_decide_eq_true_2 by done.
      case_bool_decide as H1; [by apply split_lf_only_empty_line in H1 |].
      destruct (split_lf (ledgerEntry now [] event)); [done |]. simpl. lia.
    - change (truthy (c :: old')) with true. cbv iota.
      rewrite split_lf_app_lf.
      case_bool_decide as H1; [by apply split_lf_only_empty_line in H1 |].
      case_bool_decide as H2.
      + apply (f_equal length) in H2. rewrite length_app in H2.
        pose proof (split_lf_nonempty (c :: old')).
        destruct (split_lf (c :: old')); [done |].
        destruct (split_lf (ledgerEntry now (c :: old') event)); [done |].
        simpl in H2. lia.
      + rewrite length_app.
        destruct (split_lf (ledgerEntry now (c :: old') event)); [done |].
        simpl. lia. }
  split; [exact Hlt |]. split.
  - unfold ledgerIdAt. intros H. apply app_inv_head, numberToString_inj in H. lia.
  - intros Hnow Hevent.
    pose proof (no_terminator_no_lf _ (ledgerEntry_no_terminator now old event Hnow Hevent))
      as Hlf.
    unfold ledgerWith, getAllLinesFromFile. rewrite !nextLineNum_cases.
    destruct old as [|c old'].
    + change (truthy []) with false. cbv iota.
      rewrite (split_lf_one_line _ Hlf).
      change (split_lf []) with [[] : jsstring].
      rewrite (bool_decide_eq_true_2 ([[] : jsstring] = [[]])) by done.
      rewrite bool_decide_eq_false_2; [reflexivity |].
      intros H. injection H as H. by apply (ledgerEntry_nonempty now [] event).
    + change (truthy (c :: old')) with true. cbv iota.
      rewrite split_lf_app_lf, (split_lf_one_line _ Hlf).
      rewrite (bool_decide_eq_false_2 (split_lf (c :: old') = [[]]))
        by (intros H; by apply split_lf_only_empty_line in H).
      rewrite (bool_decide_eq_false_2
                 (split_lf (c :: old') ++ [ledgerEntry now (c :: old') event] = [[]])).
      * rewrite length_app. simpl. lia.
      * intros H. apply (f_equal length) in H. rewrite length_app in H.
        pose proof (split_lf_nonempty (c :: old')).
        destruct (split_lf (c :: old')); [done |]. simpl in H. lia.
Qed.

Lemma ledger_numbers_grow_witness :
  nextLineNum (getAllLinesFromFile
                 (ledgerWith (Moment 2025 9 12 10 30 0) (js "- a deletedAt: 202509110800001")
                    (js "- b")))
  = nextLineNum (getAllLinesFromFile (js "- a deletedAt: 202509110800001")) + 1.
Proof.
  apply (ledger_numbers_grow (Moment 2025 9 12 10 30 0)
           (js "- a deletedAt: 202509110800001") (js "- b")).
  - reflexivity.
  - reflexivity.
Defined.

(** ** cleanEvent: the shape of the result *)

Lemma trimStart_head (s : jsstring) (c : jschar) (r : jsstring) :
  trimStart s = c :: r -> is_space c = false.
Proof.
  induction s as [|x s IH]; [done |]. cbn [trimStart].
  destruct (is_space x) eqn:Hx; [done |]. intros H. by injection H as <- _.
Qed.

Lemma trimStart_fixed (c : jschar) (r : jsstring) :
  is_space c = false -> trimStart (c :: r) = c :: r.
Proof. intros H. cbn [trimStart]. by rewrite H. Qed.

Lemma trimStart_keeps_last (a : jsstring) (c : jschar) :
  is_space c = false -> exists u, trimStart (a ++ [c]) = u ++ [c].
Proof.
  intros Hc. induction a as [|x a IH].
  - exists []. by apply trimStart_fixed.
  - cbn [app trimStart]. destruct (is_space x); [done |]. by exists (x :: a).
Qed.

(** What [trim] gives neither begins nor ends with white space. *)
Lemma trim_ends (s : jsstring) :
  (forall c r, trim s = c :: r -> is_space c = false)
  /\ (forall c r, trim s = r ++ [c] -> is_space c = false).
Proof.
  unfold trim, trimEnd. split.
  - intros c r H.
    destruct (trimStart s) as [|x s'] eqn:Hs; [done |].
    pose proof (trimStart_head s x s' Hs) as Hx.
    rewrite reverse_cons in H.
    destruct (trimStart_keeps_last (reverse s') x Hx) as [u Hu].
    rewrite Hu, reverse_app in H. injection H as <- _. done.
  - intros c r H. apply (f_equal reverse) in H.
    rewrite reverse_involutive, reverse_app in H.
    by apply trimStart_head in H.
Qed.

Lemma trim_fixed (s : jsstring) :
  (forall c r, s = c :: r -> is_space c = false) ->
  (forall c r, s = r ++ [c] -> is_space c = false) ->
  trim s = s.
Proof.
  intros Hhead Hlast. unfold trim, trimEnd.
  destruct s as [|c r]; [done |].
  rewrite (trimStart_fixed c r) by by apply (Hhead c r).
  destruct (reverse (c :: r)) as [|x t] eqn:Hrev.
  - apply (f_equal reverse) in Hrev. by rewrite reverse_involutive in Hrev.
  - rewrite trimStart_fixed.
    + by rewrite <- Hrev, reverse_involutive.
    + apply (Hlast x (reverse t)). apply (f_equal reverse) in Hrev.
      by rewrite reverse_involutive, reverse_cons in Hrev.
Qed.

Lemma trim_idemp (s : jsstring) : trim (trim s) = trim s.
Proof. destruct (trim_ends s). by apply trim_fixed. Qed.

Lemma stripTimeTokens_length (c : jsstring) : (length (stripTimeTokens c) <= length c)%nat.
Proof.
  unfold stripTimeTokens, removeAll. cbv zeta.
  repeat (etrans; [apply trim_length |]).
  etrans; [apply removeAllFrom_length |].
  etrans; [apply trim_length |].
  etrans; [apply removeAllFrom_length |].
  etrans; [apply trim_length |].
  etrans; [apply removeAllFrom_length |].
  etrans; [apply trim_length |].
  apply removeLeadingTime_length.
Qed.

(** X13.  What [cleanEvent] returns is trimmed (it neither begins nor ends
    with white space, and trimming it again changes nothing), and it is
    never longer than the content it was made from: the new content, or
    the original content when the new one cleans to nothing. *)
Theorem cleanEvent_trimmed (originalContent content : jsstring) :
  trim (cleanEvent originalContent content) = cleanEvent originalContent content
  /\ (forall c r, cleanEvent originalContent content = c :: r -> is_space c = false)
  /\ (forall c r, cleanEvent originalContent content = r ++ [c] -> is_space c = false)
  /\ (length (cleanEvent originalContent content)
      <= if truthy (stripTimeTokens content) then length content
         else length originalContent)%nat.
Proof.
  assert (forall s, exists x, stripTimeTokens s = trim x) as Hshape
    by (intros s; eexists; reflexivity).
  assert (exists x, cleanEvent originalContent content = trim x) as [x Hx].
  { unfold cleanEvent. cbv zeta. destruct (_ && _); apply Hshape. }
  destruct (trim_ends x) as [Hhead Hlast].
  split; [| split; [| split]].
  - rewrite Hx. apply trim_idemp.
  - rewrite Hx. exact Hhead.
  - rewrite Hx. exact Hlast.
  - unfold cleanEvent. cbv zeta.
    destruct (stripTimeTokens content) as [|c r] eqn:Hc.
    + change (truthy []) with false. change (negb false) with true.
      destruct originalContent as [|o os]; [done |].
      change (true && truthy (o :: os)) with true. cbv iota.
      apply stripTimeTokens_length.
    + change (truthy (c :: r)) with true. change (negb true && _) with false.
      cbv iota. rewrite <- Hc. apply stripTimeTokens_length.
Qed.

Lemma cleanEvent_trimmed_witness :
  cleanEvent (js "Lunch") (js "12:00-13:00  Lunch ⏲ 13:00 ") = js "Lunch"
  /\ is_space 76 = false /\ is_space 104 = false.
Proof.
  split; [by vm_compute |].
  destruct (cleanEvent_trimmed (js "Lunch") (js "12:00-13:00  Lunch ⏲ 13:00 "))
    as (_ & Hhead & Hlast & _).
  split.
  - apply (Hhead 76 (js "unch")). by vm_compute.
  - apply (Hlast 104 (js "Lunc")). by vm_compute.
Defined.

(** ** A formatted event in a document *)

Lemma zeroFill_all_digits (width : nat) (n : N) : forallb is_digit (zeroFill width n) = true.
Proof.
  unfold zeroFill. cbv zeta. rewrite forallb_app.
  destruct (numberToString_decimal n) as (_ & -> & _). rewrite andb_true_r.
  induction (width - length (numberToString n))%nat as [|k IH]; [done |]. exact IH.
Qed.

Lemma format_HHmm_no_terminator (m : moment) :
  forallb (fun c => negb (is_line_terminator c)) (format_HHmm m) = true.
Proof.
  unfold format_HHmm, format_HH, format_mm. rewrite !forallb_app.
  by rewrite !(digits_no_terminator _ (zeroFill_all_digits _ _)).
Qed.

Lemma format_YYYY_MM_DD_no_terminator (m : moment) :
  forallb (fun c => negb (is_line_terminator c)) (format_YYYY_MM_DD m) = true.
Proof.
  unfold format_YYYY_MM_DD. rewrite !forallb_app.
  by rewrite !(digits_no_terminator _ (zeroFill_all_digits _ _)).
Qed.

Lemma removeFirst_forallb (test : jschar -> bool) (s p : jsstring) :
  forallb test s = true -> forallb test (removeFirst s p) = true.
Proof.
  induction s as [|c s IH]; intros Hs.
  - by destruct p.
  - rewrite removeFirst_cons. destruct (startsWith (c :: s) p).
    + by apply forallb_drop.
    + cbn [forallb] in *. apply andb_true_iff in Hs as [-> Hs]. by apply IH.
Qed.

(** A match of the annotation is a white space and the annotation, at the
    end of the content. *)
Lemma blockIdMatch_inv (s m0 g : jsstring) :
  blockIdMatch s = Some (m0, g) ->
  exists pre w, s = pre ++ m0 /\ m0 = w :: g /\ truthy g = true.
Proof.
  induction s as [|c s IH]; [done |].
  rewrite blockIdMatch_unfold.
  destruct (blockIdAt (c :: s)) as [g'|] eqn:Hat.
  - intros H. injection H as <- <-. exists [], c. split; [done |].
    unfold blockIdAt in Hat. destruct s as [|x b]; [done |].
    destruct (_ && _); [| done]. by injection Hat as <-.
  - intros H. destruct (IH H) as (pre & w & -> & -> & Hg).
    by exists (c :: pre), w.
Qed.

(** The text of [formatEventLine]: the record line, the notes block, and
    the annotation, if there is one. *)
Lemma formatEventLine_shape (E : api) (content : jsstring) (s e : moment)
    (t : jsstring) (notes : option jsstring) :
  exists processed tail,
    formatEventLine E content s e t notes
    = eventLineText E processed s e t ++ notesBlock notes ++ tail
    /\ (forallb (fun c => negb (is_line_terminator c)) content = true ->
        forallb (fun c => negb (is_line_terminator c)) processed = true
        /\ forallb (fun c => negb (is_line_terminator c)) tail = true).
Proof.
  destruct (blockIdMatch content) as [[m0 g]|] eqn:Hm.
  - destruct (blockIdMatch_inv content m0 g Hm) as (pre & w & Hc & Hm0 & Hg).
    exists (removeFirst content m0), (js " " ++ g). split.
    + by apply formatEventLine_parts.
    + intros Hcontent. split; [by apply removeFirst_forallb |].
      rewrite Hc, Hm0 in Hcontent. rewrite forallb_app in Hcontent.
      apply andb_true_iff in Hcontent as [_ Hcontent].
      cbn [forallb] in Hcontent. apply andb_true_iff in Hcontent as [_ Hcontent].
      by rewrite forallb_app, Hcontent.
  - exists content, []. split; [| done].
    unfold formatEventLine, eventLineText, notesBlock, markerPrefix.
    rewrite Hm. cbv zeta. change (truthy []) with false. cbv iota.
    destruct (isSameDay s e), (truthyMark (getMarkBasedOnEvent E t)) as [m|],
      notes as [n|]; try destruct (truthy n && truthy (trim n));
      unfold format_HHmm; rewrite <- ?app_assoc; rewrite ?app_nil_l, ?app_nil_r;
      reflexivity.
Qed.

Lemma eventLineText_no_terminator (E : api) (processed : jsstring) (s e : moment)
    (t : jsstring) :
  forallb (fun c => negb (is_line_terminator c)) processed = true ->
  forallb (fun c => negb (is_line_terminator c))
    (markerPrefix (getMarkBasedOnEvent E t)) = true ->
  forallb (fun c => negb (is_line_terminator c)) (eventLineText E processed s e t) = true.
Proof.
  intros Hp Hm. unfold eventLineText. rewrite !forallb_app, Hm.
  destruct (isSameDay s e); rewrite !forallb_app, Hp,
    ?format_HHmm_no_terminator, ?format_YYYY_MM_DD_no_terminator; reflexivity.
Qed.

(** Tab-indented lines, joined, with a text without line feed behind them:
    every line is tab-indented. *)
Lemma split_lf_indented (ls : list jsstring) (tail : jsstring) :
  ls <> [] -> Forall (fun l => 10 ∉ l) ls -> 10 ∉ tail ->
  Forall tab_indented ls ->
  length (split_lf (join_lf ls ++ tail)) = length ls
  /\ Forall tab_indented (split_lf (join_lf ls ++ tail)).
Proof.
  intros Hne Hlf Htail Htab.
  induction ls as [|l ls IH]; [done |].
  apply Forall_cons in Hlf as [Hl Hls]. apply Forall_cons in Htab as [Hlt Hlst].
  destruct ls as [|l' ls].
  - cbn [join_lf]. rewrite split_lf_one_line by (rewrite not_elem_of_app; done).
    split; [done |]. apply Forall_singleton. destruct Hlt as [r ->].
    exists (r ++ tail). by rewrite <- app_assoc.
  - rewrite join_lf_cons by done. rewrite <- !app_assoc, split_lf_app_lf.
    rewrite (split_lf_one_line l Hl).
    destruct (IH ltac:(done) Hls Hlst) as [IHlen IHtab].
    split; [cbn [app length]; by rewrite IHlen | by apply Forall_cons].
Qed.

(** The span of a record followed by lines that do not stop it. *)
Lemma findRecordBoundaries_block (pre : list jsstring) (target : jsstring)
    (body post : list jsstring) :
  Forall (fun l => ~ stop_line l) body ->
  (post = [] \/ exists l post', post = l :: post' /\ stop_line l) ->
  findRecordBoundaries (pre ++ target :: body ++ post) (Z.of_nat (length pre))
    = (Z.of_nat (length pre), Z.of_nat (length pre + length body))
  /\ deleteSpan (pre ++ target :: body ++ post) (Z.of_nat (length pre))
       (Z.of_nat (length pre + length body))
     = pre ++ post.
Proof.
  intros Hbody Hpost. split.
  - assert ((pre ++ target :: body ++ post) !! length pre = Some target) as Hl
      by by rewrite list_lookup_middle.
    destruct (findRecordBoundaries_inv _ _ _ Hl) as (e & -> & He & Hin & Hend).
    f_equal. f_equal.
    rewrite !length_app in He. cbn [length] in He. rewrite length_app in He.
    destruct (Nat.lt_trichotomy e (length pre + length body)) as [Hlt | [-> | Hgt]];
      [| done |]; exfalso.
    + destruct Hend as [Hend | (l & Hl' & Hstop)].
      { rewrite !length_app in Hend. cbn [length] in Hend.
        rewrite length_app in Hend. lia. }
      rewrite (cons_middle target), app_assoc in Hl'.
      rewrite lookup_app_r in Hl' by (rewrite length_app; simpl; lia).
      rewrite lookup_app_l in Hl' by (rewrite length_app; simpl; lia).
      rewrite Forall_forall in Hbody. apply (Hbody l); [| done].
      by apply list_elem_of_lookup_2 in Hl'.
    + destruct Hpost as [-> | (l & post' & -> & Hstop)].
      { cbn [length] in He. lia. }
      apply (Hin (S (length pre + length body)) l); [lia | | done].
      rewrite (cons_middle target), !app_assoc.
      apply list_lookup_middle. rewrite !length_app. simpl. lia.
  - unfold deleteSpan. rewrite Nat2Z.id.
    replace (Z.to_nat (Z.of_nat (length pre + length body) + 1))
      with (length pre + S (length body))%nat by lia.
    rewrite take_app_length. f_equal.
    rewrite drop_app_add.
    change (target :: body ++ post) with ((target :: body) ++ post).
    change (S (length body)) with (length (target :: body)).
    by rewrite drop_app_length.
Qed.

Lemma notesBlock_cases (notes : option jsstring) :
  notesBlock notes = []
  \/ exists ns, ns <> [] /\ Forall (fun l => 10 ∉ l) ns
       /\ notesBlock notes = LF ++ join_lf (map (fun line => TAB ++ line) ns).
Proof.
  unfold notesBlock. destruct notes as [n|]; [| by left].
  destruct (truthy n && truthy (trim n)); [| by left].
  right. exists (split_lf (trim n)).
  split; [apply split_lf_nonempty |]. split; [apply split_lf_Forall_no_lf | done].
Qed.

(** X14.  What [formatEventLine] writes is one record for
    [deleteEventFromDailyNote]: for a content and a marker without line
    terminator its first line begins with [- ], every further line (the
    notes, with the annotation behind the last of them) is tab-indented, and
    in a document where the next record or heading, or nothing, follows, the
    span found from the first line is the whole text, so that deleting it
    leaves the lines before and after. *)
Theorem formatted_event_deleted_whole (E : api) (content : jsstring) (s e : moment)
    (t : jsstring) (notes : option jsstring) (pre post : list jsstring) :
  forallb (fun c => negb (is_line_terminator c)) content = true ->
  forallb (fun c => negb (is_line_terminator c))
    (markerPrefix (getMarkBasedOnEvent E t)) = true ->
  (post = [] \/ exists l post', post = l :: post' /\ stop_line l) ->
  exists first body,
    getAllLinesFromFile (formatEventLine E content s e t notes) = first :: body
    /\ recordStart first = true
    /\ Forall tab_indented body
    /\ findRecordBoundaries (pre ++ (first :: body) ++ post) (Z.of_nat (length pre))
       = (Z.of_nat (length pre), Z.of_nat (length pre + length body))
    /\ deleteSpan (pre ++ (first :: body) ++ post) (Z.of_nat (length pre))
         (Z.of_nat (length pre + length body))
       = pre ++ post.
Proof.
  intros Hcontent Hmark Hpost.
  destruct (formatEventLine_shape E content s e t notes)
    as (processed & tail & -> & Hparts).
  destruct (Hparts Hcontent) as [Hprocessed Htail].
  pose proof (eventLineText_no_terminator E processed s e t Hprocessed Hmark) as Hhead.
  apply no_terminator_no_lf in Hhead, Htail.
  assert (forall r, recordStart (eventLineText E processed s e t ++ r) = true) as Hrs.
  { intros r. apply startsWith_app. unfold eventLineText.
    eexists. rewrite <- !app_assoc. reflexivity. }
  assert (exists first body,
            getAllLinesFromFile (eventLineText E processed s e t ++ notesBlock notes ++ tail)
            = first :: body
            /\ recordStart first = true /\ Forall tab_indented body)
    as (first & body & Hlines & Hfirst & Hbody).
  { unfold getAllLinesFromFile.
    destruct (notesBlock_cases notes) as [-> | (ns & Hne & Hlf & ->)].
    - exists (eventLineText E processed s e t ++ tail), []. rewrite app_nil_l.
      split; [| by split].
      apply split_lf_one_line. by rewrite not_elem_of_app.
    - exists (eventLineText E processed s e t).
      exists (split_lf (join_lf (map (fun line => TAB ++ line) ns) ++ tail)).
      rewrite <- !app_assoc, split_lf_app_lf.
      rewrite (split_lf_one_line _ Hhead). split; [done |].
      split; [rewrite <- (app_nil_r (eventLineText _ _ _ _ _)); apply Hrs |].
      apply split_lf_indented; [| | done |].
      + by destruct ns.
      + apply Forall_map. apply (Forall_impl _ _ _ Hlf). intros l Hl.
        change (10 ∉ 9 :: l). apply not_elem_of_cons. by split.
      + apply Forall_map. apply Forall_true. intros l. by exists l. }
  exists first, body. split; [done |]. split; [done |]. split; [done |].
  change ((first :: body) ++ post) with (first :: body ++ post).
  apply findRecordBoundaries_block; [| done].
  apply (Forall_impl _ _ _ Hbody). intros l Hl.
  apply continuation_not_stop. by right.
Qed.

Lemma formatted_event_deleted_whole_witness :
  exists first body,
    getAllLinesFromFile
      (formatEventLine sampleApi (js "Lunch ^ab12") (Moment 2025 9 1 12 0 0)
         (Moment 2025 9 1 13 0 0) (js "TASK-TODO") (Some (js "n1")))
    = first :: body
    /\ recordStart first = true
    /\ Forall tab_indented body
    /\ findRecordBoundaries ([js "# H"] ++ (first :: body) ++ [js "- b"])
         (Z.of_nat (length [js "# H"]))
       = (Z.of_nat (length [js "# H"]), Z.of_nat (length [js "# H"] + length body))
    /\ deleteSpan ([js "# H"] ++ (first :: body) ++ [js "- b"])
         (Z.of_nat (length [js "# H"]))
         (Z.of_nat (length [js "# H"] + length body))
       = [js "# H"] ++ [js "- b"].
Proof.
  apply (formatted_event_deleted_whole sampleApi (js "Lunch ^ab12")
           (Moment 2025 9 1 12 0 0) (Moment 2025 9 1 13 0 0) (js "TASK-TODO")
           (Some (js "n1")) [js "# H"] [js "- b"]).
  - reflexivity.
  - reflexivity.
  - right. exists (js "- b"), []. split; [reflexivity |]. left. by exists (js "b").
Defined.

(** ** extractEventEndHourFromLine, extractEventEndMinFromLine *)

Lemma eatTimeGroups_inv (s h m r : jsstring) :
  eatTimeGroups s = Some (h, m, r) ->
  s = h ++ 58 :: m ++ r
  /\ forallb is_digit h = true /\ forallb is_digit m = true
  /\ (1 <= length h <= 2)%nat /\ length m = 2%nat.
Proof.
  unfold eatTimeGroups. intros H.
  repeat case_match; simplify_eq;
    repeat match goal with
           | Hd : _ && _ = true |- _ => apply andb_true_iff in Hd as [? ?]
           end;
    cbn [forallb length app]; repeat split; try lia;
    repeat match goal with
           | Hd : is_digit _ = true |- _ => rewrite Hd; clear Hd
           end; reflexivity.
Qed.

Lemma eatTimeGroups_two_digits (a b c d : jschar) (r : jsstring) :
  is_digit a = true -> is_digit b = true -> is_digit c = true -> is_digit d = true ->
  eatTimeGroups (a :: b :: 58 :: c :: d :: r) = Some ([a; b], [c; d], r).
Proof. intros Ha Hb Hc Hd. unfold eatTimeGroups. by rewrite Ha, Hb, Hc, Hd. Qed.

Lemma eatTimeGroups_no_digit (c : jschar) (s : jsstring) :
  is_digit c = false -> eatTimeGroups (c :: s) = None.
Proof. intros Hc. unfold eatTimeGroups. by rewrite Hc. Qed.

Lemma execTimeRange_unfold (line : jsstring) :
  execTimeRange line
  = match timeRangeGroupsAt line with
    | Some g => Some g
    | None => match line with [] => None | _ :: r => execTimeRange r end
    end.
Proof. by destruct line. Qed.

Lemma execTimer_unfold (line : jsstring) :
  execTimer line
  = match timerGroupsAt line with
    | Some g => Some g
    | None => match line with [] => None | _ :: r => execTimer r end
    end.
Proof. by destruct line. Qed.

(** The text of a group of one or two digits is a number below 100. *)
Lemma parseInt_group (h : jsstring) :
  forallb is_digit h = true -> (1 <= length h <= 2)%nat ->
  exists n, parseInt h = Some n /\ (0 <= n <= 99)%Z.
Proof.
  intros Hd Hl. exists (Z.of_N (decimal_value h)). split.
  - apply parseInt_digits; [| done]. intros ->. simpl in Hl. lia.
  - destruct h as [|a [|b [|c h]]]; simpl in Hl; try lia.
    + cbn [forallb] in Hd. apply andb_true_iff in Hd as [Ha _].
      apply is_digit_range in Ha. unfold decimal_value, digit_value. cbn [fold_left]. lia.
    + cbn [forallb] in Hd. apply andb_true_iff in Hd as [Ha Hd].
      apply andb_true_iff in Hd as [Hb _].
      apply is_digit_range in Ha, Hb. unfold decimal_value, digit_value.
      cbn [fold_left]. lia.
Qed.

Lemma timeRangeGroupsAt_inv (s h1 m1 h2 m2 : jsstring) :
  timeRangeGroupsAt s = Some (h1, m1, h2, m2) ->
  58 ∈ s
  /\ forallb is_digit h2 = true /\ (1 <= length h2 <= 2)%nat
  /\ forallb is_digit m2 = true /\ length m2 = 2%nat.
Proof.
  unfold timeRangeGroupsAt. intros H.
  destruct (eatTimeGroups s) as [[[h m] r]|] eqn:H1; [| done].
  destruct r as [|x r]; [done |].
  destruct (N.eq_dec x 45) as [-> | Hx].
  2: { repeat case_match; simplify_eq. }
  destruct (eatTimeGroups r) as [[[h' m'] r']|] eqn:H2; [| done].
  simplify_eq.
  apply eatTimeGroups_inv in H1 as (-> & _). apply eatTimeGroups_inv in H2 as (_ & ? & ? & ? & ?).
  split; [| done]. rewrite elem_of_app, elem_of_cons. right. by left.
Qed.

Lemma execTimeRange_inv (line h1 m1 h2 m2 : jsstring) :
  execTimeRange line = Some (h1, m1, h2, m2) ->
  58 ∈ line
  /\ forallb is_digit h2 = true /\ (1 <= length h2 <= 2)%nat
  /\ forallb is_digit m2 = true /\ length m2 = 2%nat.
Proof.
  induction line as [|c line IH]; rewrite execTimeRange_unfold.
  - by vm_compute.
  - destruct (timeRangeGroupsAt (c :: line)) as [g|] eqn:Hat.
    + intros H. simplify_eq. by apply timeRangeGroupsAt_inv in Hat.
    + intros H. destruct (IH H) as (Hin & Hrest). split; [| done].
      apply elem_of_cons. by right.
Qed.

Lemma timerGroupsAt_inv (s h m : jsstring) :
  timerGroupsAt s = Some (h, m) ->
  58 ∈ s
  /\ forallb is_digit h = true /\ (1 <= length h <= 2)%nat
  /\ forallb is_digit m = true /\ length m = 2%nat.
Proof.
  unfold timerGroupsAt. intros H.
  assert (exists r h' m' r', (r = drop 1 s \/ r = drop 2 s)
            /\ eatTimeGroups r = Some (h', m', r') /\ h' = h /\ m' = m)
    as (r & h' & m' & r' & Hr & Heat & -> & ->).
  { repeat case_match; simplify_eq; eauto 10. }
  apply eatTimeGroups_inv in Heat as (Hs & ? & ? & ? & ?). split; [| done].
  assert (58 ∈ r) as Hin
    by (rewrite Hs, elem_of_app, elem_of_cons; right; by left).
  destruct Hr as [-> | ->];
    apply list_elem_of_lookup in Hin as [i Hi]; rewrite lookup_drop in Hi;
    by apply list_elem_of_lookup_2 in Hi.
Qed.

Lemma execTimer_inv (line h m : jsstring) :
  execTimer line = Some (h, m) ->
  58 ∈ line
  /\ forallb is_digit h = true /\ (1 <= length h <= 2)%nat
  /\ forallb is_digit m = true /\ length m = 2%nat.
Proof.
  induction line as [|c line IH]; rewrite execTimer_unfold.
  - by vm_compute.
  - destruct (timerGroupsAt (c :: line)) as [g|] eqn:Hat.
    + intros H. simplify_eq. by apply timerGroupsAt_inv in Hat.
    + intros H. destruct (IH H) as (Hin & Hrest). split; [| done].
      apply elem_of_cons. by right.
Qed.

(** X15.  The two extractors always give a number, never [NaN], and it lies
    between 0 and 99: an hour or a minute read off a line is not checked
    against 24 or 60.  For a line without colon both give 0. *)
Theorem extractEventEnd_in_range (line : jsstring) :
  (exists h, extractEventEndHourFromLine line = Some h /\ (0 <= h <= 99)%Z)
  /\ (exists m, extractEventEndMinFromLine line = Some m /\ (0 <= m <= 99)%Z)
  /\ (58 ∉ line ->
      extractEventEndHourFromLine line = Some 0%Z
      /\ extractEventEndMinFromLine line = Some 0%Z).
Proof.
  unfold extractEventEndHourFromLine, extractEventEndMinFromLine.
  destruct (execTimeRange line) as [[[[h1 m1] h2] m2]|] eqn:Hrange.
  - apply execTimeRange_inv in Hrange as (Hin & Hh & Hhl & Hm & Hml).
    split; [by apply parseInt_group |].
    split; [apply parseInt_group; [done | lia] | done].
  - destruct (execTimer line) as [[h m]|] eqn:Htimer.
    + apply execTimer_inv in Htimer as (Hin & Hh & Hhl & Hm & Hml).
      split; [by apply parseInt_group |].
      split; [apply parseInt_group; [done | lia] | done].
    + split; [by exists 0%Z |]. split; [by exists 0%Z | done].
Qed.

Lemma extractEventEnd_in_range_witness :
  extractEventEndHourFromLine (js "- [ ] Trip") = Some 0%Z
  /\ extractEventEndMinFromLine (js "- [ ] Trip") = Some 0%Z.
Proof.
  apply (extractEventEnd_in_range (js "- [ ] Trip")).
  by vm_compute; intros H; repeat (apply elem_of_cons in H as [H | H]; [done |]);
     apply elem_of_nil in H.
Defined.

Lemma execTimeRange_skip (p r : jsstring) :
  forallb (fun c => negb (is_digit c)) p = true ->
  execTimeRange (p ++ r) = execTimeRange r.
Proof.
  induction p as [|c p IH]; [done |]. cbn [forallb]. intros H.
  apply andb_true_iff in H as [Hc Hp]. apply negb_true_iff in Hc.
  change ((c :: p) ++ r) with (c :: (p ++ r)).
  rewrite execTimeRange_unfold. unfold timeRangeGroupsAt.
  rewrite (eatTimeGroups_no_digit c _ Hc). by apply IH.
Qed.

Lemma execTimeRange_at_range (a b c d a' b' c' d' : jschar) (r : jsstring) :
  is_digit a = true -> is_digit b = true -> is_digit c = true -> is_digit d = true ->
  is_digit a' = true -> is_digit b' = true -> is_digit c' = true -> is_digit d' = true ->
  execTimeRange ([a; b] ++ 58 :: [c; d] ++ 45 :: [a'; b'] ++ 58 :: [c'; d'] ++ r)
  = Some ([a; b], [c; d], [a'; b'], [c'; d']).
Proof.
  intros Ha Hb Hc Hd Ha' Hb' Hc' Hd'. rewrite execTimeRange_unfold.
  unfold timeRangeGroupsAt. cbn [app].
  rewrite (eatTimeGroups_two_digits a b c d _ Ha Hb Hc Hd).
  by rewrite (eatTimeGroups_two_digits a' b' c' d' _ Ha' Hb' Hc' Hd').
Qed.

Lemma parseInt_zeroFill (n : N) : n < 100 -> parseInt (zeroFill 2 n) = Some (Z.of_N n).
Proof.
  intros Hn. destruct (zeroFill_two_digits n Hn) as (d1 & d2 & Heq & H1 & H2).
  rewrite parseInt_digits.
  - by rewrite decimal_value_zeroFill.
  - by rewrite Heq.
  - apply zeroFill_all_digits.
Qed.

(** X16.  The end of a same-day event is read back from the line that
    [formatEventLine] writes: for valid moments on the same day and a marker
    without digits, whatever the content, the notes and the annotation are,
    the two extractors give the hour and the minute of the end. *)
Theorem extractEventEnd_of_formatted (E : api) (content : jsstring) (s e : moment)
    (t : jsstring) (notes : option jsstring) :
  valid_moment s = true -> valid_moment e = true -> isSameDay s e = true ->
  forallb (fun c => negb (is_digit c)) (markerPrefix (getMarkBasedOnEvent E t)) = true ->
  extractEventEndHourFromLine (formatEventLine E content s e t notes)
    = Some (Z.of_N (hour e))
  /\ extractEventEndMinFromLine (formatEventLine E content s e t notes)
     = Some (Z.of_N (minute e)).
Proof.
  intros Hs He Hsame Hmark.
  destruct (formatEventLine_shape E content s e t notes) as (processed & tail & -> & _).
  destruct (valid_moment_ranges s Hs) as (_ & _ & _ & Hsh & Hsm & _).
  destruct (valid_moment_ranges e He) as (_ & _ & _ & Heh & Hem & _).
  destruct (zeroFill_two_digits (hour s)) as (a & b & Hab & Ha & Hb); [lia |].
  destruct (zeroFill_two_digits (minute s)) as (c & d & Hcd & Hc & Hd); [lia |].
  destruct (zeroFill_two_digits (hour e)) as (a' & b' & Hab' & Ha' & Hb'); [lia |].
  destruct (zeroFill_two_digits (minute e)) as (c' & d' & Hcd' & Hc' & Hd'); [lia |].
  assert (execTimeRange (eventLineText E processed s e t ++ notesBlock notes ++ tail)
          = Some (zeroFill 2 (hour s), zeroFill 2 (minute s),
                  zeroFill 2 (hour e), zeroFill 2 (minute e))) as Hexec.
  { unfold eventLineText. rewrite Hsame.
    unfold format_HHmm, format_HH, format_mm.
    rewrite Hab, Hcd, Hab', Hcd'.
    rewrite <- !app_assoc.
    rewrite (execTimeRange_skip (js "- ")) by reflexivity.
    rewrite (execTimeRange_skip _ _ Hmark).
    change (js ":") with [58]. change (js "-") with [45].
    apply (execTimeRange_at_range a b c d a' b' c' d'); done. }
  unfold extractEventEndHourFromLine, extractEventEndMinFromLine. rewrite Hexec.
  split; apply parseInt_zeroFill; lia.
Qed.

Lemma extractEventEnd_of_formatted_witness :
  extractEventEndHourFromLine
    (formatEventLine sampleApi (js "Lunch ^ab12") (Moment 2025 9 1 12 0 0)
       (Moment 2025 9 1 13 30 0) (js "TASK-TODO") (Some (js "at 9:00-10:00")))
  = Some (Z.of_N (hour (Moment 2025 9 1 13 30 0)))
  /\ extractEventEndMinFromLine
       (formatEventLine sampleApi (js "Lunch ^ab12") (Moment 2025 9 1 12 0 0)
          (Moment 2025 9 1 13 30 0) (js "TASK-TODO") (Some (js "at 9:00-10:00")))
     = Some (Z.of_N (minute (Moment 2025 9 1 13 30 0))).
Proof.
  apply (extractEventEnd_of_formatted sampleApi (js "Lunch ^ab12")
           (Moment 2025 9 1 12 0 0) (Moment 2025 9 1 13 30 0) (js "TASK-TODO")
           (Some (js "at 9:00-10:00"))); reflexivity.
Defined.

(** ** findEventLine: the passes in sequence *)

(** Either the line number in the id is taken (it is the index of a line
    that contains the original content), or the three loops decide. *)
Lemma findEventLine_cases (E : api) (fileLines : list jsstring)
    (eventid originalContent : jsstring) (originalStartDate : moment)
    (eventType : jsstring) :
  (exists line,
     lineAt fileLines
       (findEventLine E fileLines eventid originalContent originalStartDate eventType)
     = Some line
     /\ includes line originalContent = true)
  \/ findEventLine E fileLines eventid originalContent originalStartDate eventType
     = (if negb (firstLineWhere
                   (exactLineMatch E eventid originalContent originalStartDate eventType)
                   fileLines 0 =? -1)%Z
        then firstLineWhere
               (exactLineMatch E eventid originalContent originalStartDate eventType)
               fileLines 0
        else if negb (firstLineWhere (fun line => includes line originalContent)
                        fileLines 0 =? -1)%Z
             then firstLineWhere (fun line => includes line originalContent) fileLines 0
             else firstLineWhere (timeLineMatch E eventid originalStartDate) fileLines 0).
Proof.
  unfold findEventLine. cbv zeta.
  destruct (lineNumberMatch eventid) as [ds|]; [| by right].
  destruct (parseInt ds) as [n|]; [| by right].
  destruct (lineAt fileLines n) as [l|] eqn:Hl;
    [| rewrite andb_false_r; by right].
  destruct (includes l originalContent) eqn:Hinc;
    [| rewrite andb_false_r; by right].
  destruct (n <? Z.of_nat (length fileLines))%Z; [| by right].
  left. exists l. cbn [andb]. by rewrite Hl.
Qed.

Lemma firstLineWhere_lookup test (lines : list jsstring) :
  firstLineWhere test lines 0 <> (-1)%Z ->
  exists line, lineAt lines (firstLineWhere test lines 0) = Some line
               /\ test line = true.
Proof.
  intros Hne. destruct (firstLineWhere_hit test lines _ eq_refl Hne) as (l & ? & _ & ?).
  by exists l.
Qed.

(** With a line that contains the original content, the index returned
    is that of a line that contains it. *)
Lemma findEventLine_includes (E : api) (fileLines : list jsstring)
    (eventid originalContent : jsstring) (originalStartDate : moment)
    (eventType : jsstring) :
  (exists l, l ∈ fileLines /\ includes l originalContent = true) ->
  exists line,
    lineAt fileLines
      (findEventLine E fileLines eventid originalContent originalStartDate eventType)
    = Some line
    /\ includes line originalContent = true.
Proof.
  intros (l & Hl & Hinc).
  destruct (findEventLine_cases E fileLines eventid originalContent
              originalStartDate eventType) as [Hfound | ->]; [done |].
  destruct (firstLineWhere (exactLineMatch _ _ _ _ _) fileLines 0 =? -1)%Z eqn:Hex.
  - cbn [negb].
    destruct (firstLineWhere (fun line => includes line originalContent) fileLines 0
              =? -1)%Z eqn:Hfz.
    + exfalso. apply Z.eqb_eq in Hfz.
      destruct (firstLineWhere_inv (fun line => includes line originalContent)
                  fileLines 0 ltac:(lia)) as [[_ Hnone] | (k & ? & Hk & _)]; [| lia].
      apply list_elem_of_lookup in Hl as [j Hj].
      specialize (Hnone j l Hj). cbv beta in Hnone. congruence.
    + cbn [negb]. apply Z.eqb_neq in Hfz.
      by apply (firstLineWhere_lookup (fun line => includes line originalContent)).
  - cbn [negb]. apply Z.eqb_neq in Hex.
    destruct (firstLineWhere_lookup _ _ Hex) as (line & Hline & Ht).
    exists line. split; [done |]. by apply exactLineMatch_recordStart in Ht as [_ ?].
Qed.

(** X17.  [findEventLine] and the original content: when some line of the
    document contains it, the index returned is that of a line that contains
    it (never [-1]); when no line contains it, only the last loop, by date
    and time, decides. *)
Theorem findEventLine_finds_content (E : api) (fileLines : list jsstring)
    (eventid originalContent : jsstring) (originalStartDate : moment)
    (eventType : jsstring) :
  ((exists l, l ∈ fileLines /\ includes l originalContent = true) ->
   exists line,
     lineAt fileLines
       (findEventLine E fileLines eventid originalContent originalStartDate eventType)
     = Some line
     /\ includes line originalContent = true)
  /\ ((forall l, l ∈ fileLines -> includes l originalContent = false) ->
      findEventLine E fileLines eventid originalContent originalStartDate eventType
      = firstLineWhere (timeLineMatch E eventid originalStartDate) fileLines 0).
Proof.
  split; [apply findEventLine_includes |].
  intros Hnone.
  destruct (findEventLine_cases E fileLines eventid originalContent
              originalStartDate eventType) as [(line & Hline & Hinc) | ->].
  - exfalso. unfold lineAt in Hline. destruct (_ <? 0)%Z; [done |].
    apply list_elem_of_lookup_2 in Hline. specialize (Hnone line Hline). congruence.
  - rewrite (firstLineWhere_none (exactLineMatch _ _ _ _ _)).
    2: { intros j l Hj. apply list_elem_of_lookup_2 in Hj.
         destruct (exactLineMatch E eventid originalContent originalStartDate
                     eventType l) eqn:Hm; [| done].
         apply exactLineMatch_recordStart in Hm as [_ Hm].
         specialize (Hnone l Hj). congruence. }
    rewrite (firstLineWhere_none (fun line => includes line originalContent)).
    2: { intros j l Hj. apply list_elem_of_lookup_2 in Hj. by apply Hnone. }
    reflexivity.
Qed.

Lemma findEventLine_finds_content_witness :
  exists line,
    lineAt [js "- 09:00 Standup"; TAB ++ js "Lunch with Bob"]
      (findEventLine sampleApi [js "- 09:00 Standup"; TAB ++ js "Lunch with Bob"]
         (js "2025090112000001") (js "Lunch") (Moment 2025 9 1 12 0 0) (js "default"))
    = Some line
    /\ includes line (js "Lunch") = true.
Proof.
  apply (findEventLine_finds_content sampleApi
           [js "- 09:00 Standup"; TAB ++ js "Lunch with Bob"]
           (js "2025090112000001") (js "Lunch") (Moment 2025 9 1 12 0 0) (js "default")).
  exists (TAB ++ js "Lunch with Bob"). split; [| by vm_compute].
  apply elem_of_cons. right. apply elem_of_cons. by left.
Defined.

Lemma includes_intro (a t b : jsstring) : includes (a ++ t ++ b) t = true.
Proof. apply includes_app. by exists a, b. Qed.

(** A line of a task that the first loop of [findEventLine] accepts. *)
Lemma exactLineMatch_task (E : api) (eventid originalContent : jsstring)
    (originalStartDate : moment) (eventType line : jsstring) :
  includes line originalContent = true ->
  startsWith line (js "- ") = true ->
  startsWith eventType (js "TASK-") = true ->
  includes line (js "- [" ++ templateOfMark (getMarkBasedOnEvent E eventType) ++ js "]")
    = true ->
  exactLineMatch E eventid originalContent originalStartDate eventType line = true.
Proof.
  intros Hinc Hstart Htask Hbox. unfold exactLineMatch. cbv zeta.
  by rewrite Hinc, Hstart, Htask, Hbox.
Qed.

(** The lines that the two formatters write for a task with a marker. *)
Lemma formatted_task_line (E : api) (content : jsstring) (o s e : moment)
    (t m line : jsstring) :
  getMarkBasedOnEvent E t = Some m -> truthy m = true ->
  blockIdMatch content = None ->
  line = formatEventLine E content s e t None
  \/ line = formatAllDayEvent E content o s e t ->
  startsWith line (js "- ") = true
  /\ includes line content = true
  /\ includes line (js "- [" ++ templateOfMark (getMarkBasedOnEvent E t) ++ js "]")
     = true.
Proof.
  intros Hmark Hm Hno Hline.
  assert (exists a b, line = js "- [" ++ m ++ js "] " ++ a ++ content ++ b)
    as (a & b & ->).
  { destruct Hline as [-> | ->].
    - rewrite (formatEventLine_plain E content s e t Hno).
      unfold markerPrefix, truthyMark. rewrite Hmark, Hm.
      destruct (isSameDay s e).
      + exists (format_HHmm s ++ js "-" ++ format_HHmm e ++ js " "), [].
        rewrite <- !app_assoc. by rewrite app_nil_r.
      + exists [], (js " 🛫 " ++ format_YYYY_MM_DD s ++ js " 📅 " ++ format_YYYY_MM_DD e).
        by rewrite <- !app_assoc.
    - unfold formatAllDayEvent. rewrite Hno, Hmark. cbv zeta.
      change (truthy []) with false. cbv iota.
      exists [].
      destruct (negb (isSameDay s e) || negb (isSameDay o s)); eexists;
        rewrite <- !app_assoc; reflexivity. }
  rewrite Hmark. change (templateOfMark (Some m)) with m.
  split; [| split].
  - apply startsWith_app. eexists. assert (js "- [" = js "- " ++ js "[") as -> by reflexivity.
    rewrite <- !app_assoc. reflexivity.
  - rewrite !app_assoc. rewrite <- (app_assoc _ content b). apply includes_intro.
  - apply includes_app. exists [], (js " " ++ a ++ content ++ b).
    assert (js "] " = js "]" ++ js " ") as -> by reflexivity.
    rewrite <- !app_assoc. reflexivity.
Qed.

(** X18.  A task written by [formatEventLine] (without notes) or by
    [formatAllDayEvent] is found again: for a type [TASK-...] with a marker
    and a content without annotation, when the written line is the only line
    of the document that contains the content, [findEventLine] returns its
    index, whatever the id and the original start date are. *)
Theorem findEventLine_finds_formatted_task (E : api) (fileLines : list jsstring)
    (k : nat) (content : jsstring) (o s e : moment) (t m line : jsstring)
    (eventid : jsstring) (originalStartDate : moment) :
  startsWith t (js "TASK-") = true ->
  getMarkBasedOnEvent E t = Some m -> truthy m = true ->
  blockIdMatch content = None ->
  line = formatEventLine E content s e t None
  \/ line = formatAllDayEvent E content o s e t ->
  fileLines !! k = Some line ->
  (forall j l, j <> k -> fileLines !! j = Some l -> includes l content = false) ->
  findEventLine E fileLines eventid content originalStartDate t = Z.of_nat k.
Proof.
  intros Htask Hmark Hm Hno Hline Hk Honly.
  destruct (formatted_task_line E content o s e t m line Hmark Hm Hno Hline)
    as (Hstart & Hinc & Hbox).
  destruct (findEventLine_cases E fileLines eventid content originalStartDate t)
    as [(l & Hl & Hl') | ->].
  - unfold lineAt in Hl. destruct (Z.ltb_spec (findEventLine E fileLines eventid content
                                                  originalStartDate t) 0); [done |].
    destruct (decide (Z.to_nat (findEventLine E fileLines eventid content
                                  originalStartDate t) = k)) as [<- | Hne]; [lia |].
    specialize (Honly _ l Hne Hl). congruence.
  - rewrite (firstLineWhere_found _ fileLines 0 k line Hk).
    + rewrite Z.add_0_l.
      assert ((Z.of_nat k =? -1)%Z = false) as -> by (apply Z.eqb_neq; lia). done.
    + by apply exactLineMatch_task.
    + intros j l Hj Hl.
      destruct (exactLineMatch E eventid content originalStartDate t l) eqn:Hex; [| done].
      apply exactLineMatch_recordStart in Hex as [_ Hex].
      rewrite (Honly j l) in Hex by (done || lia). done.
Qed.

Lemma findEventLine_finds_formatted_task_witness :
  findEventLine sampleApi
    [js "# Tasks"; js "- [ ] 09:00-10:00 Review"; js "- [ ] 12:00-13:00 Lunch"]
    (js "2025090112000002") (js "Lunch") (Moment 2025 9 1 12 0 0) (js "TASK-TODO")
  = Z.of_nat 2.
Proof.
  apply (findEventLine_finds_formatted_task sampleApi
           [js "# Tasks"; js "- [ ] 09:00-10:00 Review"; js "- [ ] 12:00-13:00 Lunch"]
           2%nat (js "Lunch") (Moment 2025 9 1 12 0 0) (Moment 2025 9 1 12 0 0)
           (Moment 2025 9 1 13 0 0) (js "TASK-TODO") (js " ")
           (js "- [ ] 12:00-13:00 Lunch")
           (js "2025090112000002") (Moment 2025 9 1 12 0 0)).
  - reflexivity.
  - reflexivity.
  - reflexivity.
  - by vm_compute.
  - left. by vm_compute.
  - reflexivity.
  - intros [|[|[|j]]] l Hj Hl; try done; vm_compute in Hl; injection Hl as <-;
      by vm_compute.
Defined.

(** ** findInsertPosition *)

Lemma eventBlockEndFrom_bounds (lines : list jsstring) (i eventBlockEnd : Z) :
  eventBlockEndFrom lines i eventBlockEnd = eventBlockEnd
  \/ (i < eventBlockEndFrom lines i eventBlockEnd <= i + Z.of_nat (length lines))%Z.
Proof.
  revert i eventBlockEnd. induction lines as [|l lines IH]; intros i eb; [by left |].
  cbn [eventBlockEndFrom length].
  destruct (IH (i + 1)%Z (if isTaskOrEvent l then (i + 1)%Z else eb)) as [-> | H].
  - destruct (isTaskOrEvent l); [right; lia | by left].
  - right. lia.
Qed.

(** The first loop gives the position behind the last task or event line. *)
Lemma eventBlockEndFrom_last (lines : list jsstring) (i eventBlockEnd : Z) (k : nat)
    (line : jsstring) :
  lines !! k = Some line -> isTaskOrEvent line = true ->
  (forall j l, (k < j)%nat -> lines !! j = Some l -> isTaskOrEvent l = false) ->
  eventBlockEndFrom lines i eventBlockEnd = (i + Z.of_nat k + 1)%Z.
Proof.
  revert i eventBlockEnd k. induction lines as [|l lines IH]; intros i eb k Hk Ht Hlast;
    [done |].
  cbn [eventBlockEndFrom]. destruct k as [|k].
  - injection Hk as ->. rewrite Ht.
    assert (forall ls i0 eb0,
              (forall j l', ls !! j = Some l' -> isTaskOrEvent l' = false) ->
              eventBlockEndFrom ls i0 eb0 = eb0) as Hnone.
    { clear. induction ls as [|l' ls IHls]; intros i0 eb0 Hall; [done |].
      cbn [eventBlockEndFrom]. rewrite (Hall 0%nat l') by done.
      apply IHls. intros j l'' Hj. by apply (Hall (S j)). }
    rewrite Hnone; [lia |]. intros j l' Hj. apply (Hlast (S j)); [lia | done].
  - rewrite (IH (i + 1)%Z _ k Hk Ht); [lia |].
    intros j l' Hj Hl'. apply (Hlast (S j)); [lia | done].
Qed.

Lemma eventBlockEndFrom_none (lines : list jsstring) (i eventBlockEnd : Z) :
  (forall j l, lines !! j = Some l -> isTaskOrEvent l = false) ->
  eventBlockEndFrom lines i eventBlockEnd = eventBlockEnd.
Proof.
  revert i eventBlockEnd. induction lines as [|l lines IH]; intros i eb Hall; [done |].
  cbn [eventBlockEndFrom]. rewrite (Hall 0%nat l) by done.
  apply IH. intros j l' Hj. by apply (Hall (S j)).
Qed.

Lemma skipBlankLines_bounds (rest : list jsstring) (j : Z) :
  (j <= skipBlankLines rest j <= j + Z.of_nat (length rest))%Z.
Proof.
  revert j. induction rest as [|l rest IH]; intros j; cbn [skipBlankLines length]; [lia |].
  destruct (negb (truthy (trim l))); [| lia]. specialize (IH (j + 1)%Z). lia.
Qed.

Lemma afterInsertAfterText_bounds (text : jsstring) (lines : list jsstring) (i r : Z) :
  afterInsertAfterText text lines i = Some r ->
  (i < r <= i + Z.of_nat (length lines))%Z.
Proof.
  revert i. induction lines as [|l lines IH]; intros i; [done |].
  cbn [afterInsertAfterText length]. destruct (includes l text).
  - intros H. injection H as <-. pose proof (skipBlankLines_bounds lines (i + 1)). lia.
  - intros H. specialize (IH _ H). lia.
Qed.

Lemma firstLineWhere_bounds test (lines : list jsstring) :
  firstLineWhere test lines 0 = (-1)%Z
  \/ (0 <= firstLineWhere test lines 0 < Z.of_nat (length lines))%Z.
Proof.
  destruct (firstLineWhere_inv test lines 0 ltac:(lia))
    as [[-> _] | (k & line & -> & Hk & _)]; [by left |].
  right. apply lookup_lt_Some in Hk. lia.
Qed.

(** X19.  The position that [findInsertPosition] gives is a position of the
    document: between 0 and the number of lines, whatever the settings and
    the event type are.  It is never [-1], the value for which
    [moveEventToNewDay] would append the line instead of inserting it. *)
Theorem findInsertPosition_in_document (setting : pluginSetting)
    (fileLines : list jsstring) (eventType : jsstring) :
  (0 <= findInsertPosition setting fileLines eventType
     <= Z.of_nat (length fileLines))%Z
  /\ findInsertPosition setting fileLines eventType <> (-1)%Z.
Proof.
  assert (0 <= findInsertPosition setting fileLines eventType
            <= Z.of_nat (length fileLines))%Z as Hin; [| split; [exact Hin | lia]].
  unfold findInsertPosition. cbv zeta.
  set (eventBlockEnd := if _ || _ then _ else _).
  assert (eventBlockEnd = (-1)%Z
          \/ (0 < eventBlockEnd <= Z.of_nat (length fileLines))%Z) as Hblock.
  { unfold eventBlockEnd. destruct (_ || _); [| by left].
    destruct (eventBlockEndFrom_bounds fileLines 0 (-1)) as [-> | H]; [by left |].
    right. lia. }
  destruct (Z.ltb_spec 0 eventBlockEnd) as [Hpos | Hneg]; [lia |].
  destruct (match settingText (InsertAfter setting) with
            | Some insertAfterText => afterInsertAfterText insertAfterText fileLines 0
            | None => None
            end) as [j|] eqn:Hafter.
  { destruct (settingText (InsertAfter setting)); [| done].
    apply afterInsertAfterText_bounds in Hafter. lia. }
  set (below := match settingText (ProcessEntriesBelow setting) with
                | Some processBelow => _
                | None => _
                end).
  assert (below = (-1)%Z \/ (0 <= below < Z.of_nat (length fileLines))%Z) as Hbelow.
  { unfold below. destruct (settingText (ProcessEntriesBelow setting)); [| by left].
    apply firstLineWhere_bounds. }
  destruct (Z.eqb_spec below (-1)) as [Hb | Hb]; cbn [negb]; [| lia].
  destruct (length fileLines =? 0)%nat; [lia |].
  destruct (firstLineWhere_bounds (fun line => startsWith line (js "#")) fileLines)
    as [-> | Hh]; [cbn; lia |].
  destruct (Z.eqb_spec (firstLineWhere (fun line => startsWith line (js "#")) fileLines 0)
              (-1)); cbn [negb]; lia.
Qed.

(** X20.  For an event of type [TASK-TODO] or [default] in a document with
    a task or event line, the position is the one right behind the last such
    line, whatever the settings are: before the notes of that line, if it
    has any. *)
Theorem findInsertPosition_behind_last_event (setting : pluginSetting)
    (fileLines : list jsstring) (eventType : jsstring) (k : nat) (line : jsstring) :
  eventType = js "TASK-TODO" \/ eventType = js "default" ->
  fileLines !! k = Some line -> isTaskOrEvent line = true ->
  (forall j l, (k < j)%nat -> fileLines !! j = Some l -> isTaskOrEvent l = false) ->
  findInsertPosition setting fileLines eventType = (Z.of_nat k + 1)%Z.
Proof.
  intros Htype Hk Ht Hlast. unfold findInsertPosition. cbv zeta.
  assert (jsstring_eqb eventType (js "TASK-TODO") || jsstring_eqb eventType (js "default")
          = true) as ->.
  { unfold jsstring_eqb. destruct Htype as [-> | ->].
    - by rewrite bool_decide_eq_true_2.
    - rewrite (bool_decide_eq_true_2 (js "default" = js "default")) by done.
      apply orb_true_r. }
  rewrite (eventBlockEndFrom_last fileLines 0 (-1) k line Hk Ht Hlast).
  destruct (Z.ltb_spec 0 (0 + Z.of_nat k + 1)); lia.
Qed.

Lemma findInsertPosition_behind_last_event_witness :
  findInsertPosition (PluginSetting (Some (js "# Journal")) None)
    [js "# Journal"; js "- 09:00-10:00 Standup"; TAB ++ js "agenda"] (js "default")
  = (Z.of_nat 1 + 1)%Z.
Proof.
  apply (findInsertPosition_behind_last_event
           (PluginSetting (Some (js "# Journal")) None)
           [js "# Journal"; js "- 09:00-10:00 Standup"; TAB ++ js "agenda"]
           (js "default") 1%nat (js "- 09:00-10:00 Standup")).
  - by right.
  - reflexivity.
  - by vm_compute.
  - intros [|[|[|j]]] l Hj Hl; try lia; try done.
    vm_compute in Hl. injection Hl as <-. by vm_compute.
Defined.

Lemma eatTime_two_digits (a b c d : jschar) (r : jsstring) :
  is_digit a = true -> is_digit b = true -> is_digit c = true -> is_digit d = true ->
  eatTime (a :: b :: 58 :: c :: d :: r) = Some r.
Proof.
  intros Ha Hb Hc Hd. unfold eatTime, eatColonMinutes. by rewrite Ha, Hb, Hc, Hd.
Qed.

Lemma isTaskOrEvent_dated (line : jsstring) :
  startsWith line (js "- ") = true -> includes line (js " 📅 ") = true ->
  isTaskOrEvent line = true.
Proof.
  intros Hs Hd. unfold isTaskOrEvent. rewrite Hs, Hd.
  cbn [andb orb]. by rewrite !orb_true_r.
Qed.

Lemma formatAllDayEvent_shape (E : api) (content : jsstring) (o s e : moment)
    (t : jsstring) :
  exists processed tail,
    formatAllDayEvent E content o s e t = allDayLineText E processed o s e t ++ tail.
Proof.
  destruct (blockIdMatch content) as [[m0 g]|] eqn:Hm.
  - destruct (blockIdMatch_inv content m0 g Hm) as (pre & w & Hc & Hm0 & Hg).
    exists (removeFirst content m0), (js " " ++ g).
    by apply formatAllDayEvent_parts.
  - exists content, []. rewrite app_nil_r.
    unfold formatAllDayEvent, allDayLineText. rewrite Hm. cbv zeta.
    change (truthy []) with false. cbv iota.
    destruct (getMarkBasedOnEvent E t) as [m|],
      (negb (isSameDay s e) || negb (isSameDay o s));
      rewrite <- ?app_assoc; rewrite ?app_nil_l; reflexivity.
Qed.

(** X21.  The lines that the formatters write count as task or event lines
    for [findInsertPosition]: every line of [formatAllDayEvent], and of
    [formatEventLine] every line of an event over several days, and the line
    of a same-day event of a type without marker that starts at a valid
    moment. *)
Theorem formatted_lines_are_event_lines (E : api) (content : jsstring)
    (o s e : moment) (t : jsstring) :
  isTaskOrEvent (formatAllDayEvent E content o s e t) = true
  /\ (isSameDay s e = false ->
      isTaskOrEvent (formatEventLine E content s e t None) = true)
  /\ (isSameDay s e = true -> valid_moment s = true ->
      truthyMark (getMarkBasedOnEvent E t) = None ->
      isTaskOrEvent (formatEventLine E content s e t None) = true).
Proof.
  split; [| split].
  - destruct (formatAllDayEvent_shape E content o s e t) as (processed & tail & ->).
    unfold allDayLineText.
    set (dates := if negb (isSameDay s e) || negb (isSameDay o s)
                  then js " 🛫 " ++ format_YYYY_MM_DD s else []).
    apply isTaskOrEvent_dated.
    + apply startsWith_app. destruct (getMarkBasedOnEvent E t) as [m|].
      * exists ((js "[" ++ m ++ js "] " ++ processed)
                ++ dates ++ js " 📅 " ++ format_YYYY_MM_DD e ++ tail).
        assert (js "- [" = js "- " ++ js "[") as -> by reflexivity.
        by rewrite <- !app_assoc.
      * exists (processed ++ dates ++ js " 📅 " ++ format_YYYY_MM_DD e ++ tail).
        by rewrite <- !app_assoc.
    + apply includes_app.
      exists ((match getMarkBasedOnEvent E t with
               | Some mark => js "- [" ++ mark ++ js "] " ++ processed
               | None => js "- " ++ processed
               end) ++ dates), (format_YYYY_MM_DD e ++ tail).
      by rewrite <- !app_assoc.
  - intros Hdiff.
    destruct (formatEventLine_shape E content s e t None) as (processed & tail & -> & _).
    change (notesBlock None) with (@nil N). rewrite app_nil_l.
    unfold eventLineText. rewrite Hdiff. apply isTaskOrEvent_dated.
    + apply startsWith_app.
      exists ((markerPrefix (getMarkBasedOnEvent E t)
               ++ processed ++ js " 🛫 " ++ format_YYYY_MM_DD s
               ++ js " 📅 " ++ format_YYYY_MM_DD e) ++ tail).
      by rewrite <- !app_assoc.
    + apply includes_app.
      exists (js "- " ++ markerPrefix (getMarkBasedOnEvent E t) ++ processed
              ++ js " 🛫 " ++ format_YYYY_MM_DD s), (format_YYYY_MM_DD e ++ tail).
      by rewrite <- !app_assoc.
  - intros Hsame Hs Hmark.
    destruct (formatEventLine_shape E content s e t None) as (processed & tail & -> & _).
    change (notesBlock None) with (@nil N). rewrite app_nil_l.
    unfold eventLineText, markerPrefix. rewrite Hsame, Hmark.
    destruct (valid_moment_ranges s Hs) as (_ & _ & _ & Hsh & Hsm & _).
    destruct (zeroFill_two_digits (hour s)) as (a & b & Hab & Ha & Hb); [lia |].
    destruct (zeroFill_two_digits (minute s)) as (c & d & Hcd & Hc & Hd); [lia |].
    unfold format_HHmm at 1. unfold format_HH, format_mm. rewrite Hab, Hcd.
    unfold isTaskOrEvent, startsWithDashTime.
    change (js "- ") with [45; 32]. change (js ":") with [58].
    rewrite <- !app_assoc. cbn [app].
    by rewrite (eatTime_two_digits a b c d _ Ha Hb Hc Hd).
Qed.

Lemma formatted_lines_are_event_lines_witness :
  isTaskOrEvent (formatEventLine sampleApi (js "Trip") (Moment 2025 9 1 0 0 0)
                   (Moment 2025 9 3 0 0 0) (js "default") None) = true
  /\ isTaskOrEvent (formatEventLine sampleApi (js "Lunch") (Moment 2025 9 1 12 0 0)
                      (Moment 2025 9 1 13 0 0) (js "default") None) = true.
Proof.
  split.
  - apply (proj1 (proj2 (formatted_lines_are_event_lines sampleApi (js "Trip")
                           (Moment 2025 9 1 0 0 0) (Moment 2025 9 1 0 0 0)
                           (Moment 2025 9 3 0 0 0) (js "default")))).
    reflexivity.
  - apply (proj2 (proj2 (formatted_lines_are_event_lines sampleApi (js "Lunch")
                           (Moment 2025 9 1 12 0 0) (Moment 2025 9 1 12 0 0)
                           (Moment 2025 9 1 13 0 0) (js "default"))));
      reflexivity.
Defined.

(** ** cleanEvent on a content without digits *)

Lemma removeAll_no_match (m : jsstring -> option jsstring) (s : jsstring) :
  (forall k, m (drop k s) = None) -> removeAll m s = s.
Proof.
  unfold removeAll. induction s as [|c s IH]; intros Hnone; [done |].
  cbn [removeAllFrom]. pose proof (Hnone 0%nat) as H0. rewrite drop_0 in H0.
  rewrite H0. f_equal. apply IH.
  intros k. apply (Hnone (S k)).
Qed.

Lemma eatTime_needs_digit (s : jsstring) :
  forallb (fun c => negb (is_digit c)) s = true -> eatTime s = None.
Proof.
  destruct s as [|a s]; [done |]. cbn [forallb]. intros H.
  apply andb_true_iff in H as [Ha _]. apply negb_true_iff in Ha.
  unfold eatTime. by rewrite Ha.
Qed.

Lemma eatDate_needs_digit (s : jsstring) :
  forallb (fun c => negb (is_digit c)) s = true -> eatDate s = None.
Proof.
  intros H. unfold eatDate.
  destruct s as [|y1 [|y2 [|y3 [|y4 [|h1 [|m1 [|m2 [|h2 [|d1 [|d2 r]]]]]]]]]];
    try done; repeat case_match; try done.
  cbn [forallb] in H. apply andb_true_iff in H as [Hy1 _]. apply negb_true_iff in Hy1.
  subst. by cbn [forallb] in *; rewrite Hy1 in *.
Qed.

Lemma optSpaceThen_none (p : jsstring -> option jsstring) (s : jsstring) :
  (forall k, p (drop k s) = None) -> optSpaceThen p s = None.
Proof.
  intros Hnone. unfold optSpaceThen.
  pose proof (Hnone 0%nat) as H0. rewrite drop_0 in H0. rewrite H0.
  destruct s as [|c r]; [done |]. destruct (is_space c); [| done].
  pose proof (Hnone 1%nat) as H1. change (drop 1 (c :: r)) with r in H1. by rewrite H1.
Qed.

Lemma no_digit_drop (k : nat) (s : jsstring) :
  forallb (fun c => negb (is_digit c)) s = true ->
  forallb (fun c => negb (is_digit c)) (drop k s) = true.
Proof. apply forallb_drop. Qed.

Lemma trim_sublist (s : jsstring) :
  forallb (fun c => negb (is_digit c)) s = true ->
  forallb (fun c => negb (is_digit c)) (trim s) = true.
Proof.
  assert (forall t, forallb (fun c => negb (is_digit c)) t = true ->
                    forallb (fun c => negb (is_digit c)) (trimStart t) = true) as Hstart.
  { induction t as [|c t IH]; [done |]. cbn [trimStart].
    destruct (is_space c); [| done]. cbn [forallb]. intros H.
    apply andb_true_iff in H as [_ H]. by apply IH. }
  assert (forall t, forallb (fun c => negb (is_digit c)) t = true ->
                    forallb (fun c => negb (is_digit c)) (reverse t) = true) as Hrev.
  { intros t. rewrite !forallb_forall. intros H x Hx. apply H.
    apply list_elem_of_In. apply list_elem_of_In in Hx.
    by apply (proj1 (elem_of_reverse x t)). }
  intros H. unfold trim, trimEnd. by apply Hrev, Hstart, Hrev, Hstart.
Qed.

(** Without a digit there is nothing to strip. *)
Lemma stripTimeTokens_no_digit (content : jsstring) :
  forallb (fun c => negb (is_digit c)) content = true ->
  stripTimeTokens content = trim content.
Proof.
  intros Hc. unfold stripTimeTokens. cbv zeta.
  assert (removeLeadingTime content = content) as ->.
  { unfold removeLeadingTime, matchLeadingTime. by rewrite (eatTime_needs_digit _ Hc). }
  pose proof (trim_sublist content Hc) as Ht.
  assert (removeAll matchTimer (trim content) = trim content) as ->.
  { apply removeAll_no_match. intros k. unfold matchTimer.
    destruct (drop k (trim content)) as [|c r] eqn:Hd; [done |].
    destruct (N.eq_dec c 9202) as [-> | Hne]; [| by repeat case_match].
    apply optSpaceThen_none. intros j. apply eatTime_needs_digit.
    apply no_digit_drop. pose proof (no_digit_drop k _ Ht) as Hk. rewrite Hd in Hk.
    cbn [forallb] in Hk. by apply andb_true_iff in Hk as [_ Hk]. }
  rewrite trim_idemp.
  assert (removeAll matchDueDate (trim content) = trim content) as ->.
  { apply removeAll_no_match. intros k. unfold matchDueDate.
    destruct (drop k (trim content)) as [|c r] eqn:Hd; [done |].
    destruct r as [|c' r]; [by repeat case_match |].
    destruct (N.eq_dec c 55357) as [-> | Hne]; [| by repeat case_match].
    destruct (N.eq_dec c' 56517) as [-> | Hne]; [| by repeat case_match].
    apply optSpaceThen_none. intros j. apply eatDate_needs_digit.
    apply no_digit_drop. pose proof (no_digit_drop k _ Ht) as Hk. rewrite Hd in Hk.
    cbn [forallb] in Hk. apply andb_true_iff in Hk as [_ Hk].
    by apply andb_true_iff in Hk as [_ Hk]. }
  rewrite trim_idemp.
  assert (removeAll matchTimeRange (trim content) = trim content) as ->.
  { apply removeAll_no_match. intros k. unfold matchTimeRange.
    by rewrite (eatTime_needs_digit _ (no_digit_drop k _ Ht)). }
  apply trim_idemp.
Qed.

(** X23.  A content without any digit holds nothing for [cleanEvent] to
    strip: the result is the content, trimmed, unless that is empty and an
    original content is given; then it is what is left of the original
    content. *)
Theorem cleanEvent_without_digits (originalContent content : jsstring) :
  forallb (fun c => negb (is_digit c)) content = true ->
  (trim content <> [] -> cleanEvent originalContent content = trim content)
  /\ (trim content = [] ->
      cleanEvent originalContent content = stripTimeTokens originalContent).
Proof.
  intros Hc. unfold cleanEvent. cbv zeta. rewrite (stripTimeTokens_no_digit _ Hc).
  split.
  - intros Hne. destruct (trim content); done.
  - intros ->. change (truthy []) with false. cbn [negb andb].
    destruct originalContent as [|c r]; [by vm_compute | done].
Qed.

Lemma cleanEvent_without_digits_witness :
  cleanEvent (js "12:00 Lunch") (js "  Lunch with Bob ") = trim (js "  Lunch with Bob ").
Proof.
  apply (cleanEvent_without_digits (js "12:00 Lunch") (js "  Lunch with Bob ")).
  - reflexivity.
  - by vm_compute.
Defined.

(** ** Restoring and deleting for ever *)

(** X24.  For an id that addresses an entry [- <text>] of the ledger,
    [restoreDeletedEvent] does to the ledger what [deleteForever] does: the
    vault after the restore is the vault after [deleteForever] with the
    daily note written, provided the daily note is not the ledger itself. *)
Theorem restoreDeletedEvent_as_deleteForever (E : api) (v : vault)
    (deletedEventid old line : jsstring) :
  hasFourteenDigits deletedEventid = true ->
  v !! (getDailyNotePath E ++ js "/delete.md") = Some old ->
  addressedLine (getAllLinesFromFile old) deletedEventid = Some line ->
  isDeletedRecordLine (Some line) = true ->
  dailyNotePathOf E (momentFromId (extractDeletedEventId E line))
    <> getDailyNotePath E ++ js "/delete.md" ->
  (deleteForever E deletedEventid v).1 = Returned tt
  /\ exists note,
       restoreDeletedEvent E deletedEventid v
       = (Returned RestoredOne,
          <[dailyNotePathOf E (momentFromId (extractDeletedEventId E line)) := note]>
            (deleteForever E deletedEventid v).2)
       /\ (restoreDeletedEvent E deletedEventid v).2
            !! (getDailyNotePath E ++ js "/delete.md")
          = (deleteForever E deletedEventid v).2
              !! (getDailyNotePath E ++ js "/delete.md").
Proof.
  intros Hid Hfile Hline Hrec Hpath.
  rewrite (deleteForever_run E v _ old Hid Hfile), Hline, Hrec.
  change (templateOf (Some line)) with line. cbn [fst snd].
  split; [done |]. eexists.
  rewrite (restoreDeletedEvent_run_record E v _ old line Hid Hfile Hline Hrec Hpath).
  split; [reflexivity |]. cbn [snd]. by rewrite lookup_insert_ne.
Qed.

Lemma restoreDeletedEvent_as_deleteForever_witness :
  (deleteForever sampleApi (js "202509121030001")
     {[ js "journal/delete.md" := js "- b deletedAt: 202509121030001" ]}).1
  = Returned tt.
Proof.
  apply (restoreDeletedEvent_as_deleteForever sampleApi
           {[ js "journal/delete.md" := js "- b deletedAt: 202509121030001" ]}
           (js "202509121030001") (js "- b deletedAt: 202509121030001")
           (js "- b deletedAt: 202509121030001")).
  - reflexivity.
  - reflexivity.
  - by vm_compute.
  - by vm_compute.
  - by vm_compute.
Defined.

(** ** Delete, then restore *)

(** [restoreDeletedEvent] reads two things off the id it is given: whether
    it holds fourteen digits in a row, and the number behind its
    fourteenth character. *)
Lemma restoreDeletedEvent_id_only (E : api) (v : vault) (id id' : jsstring) :
  hasFourteenDigits id = hasFourteenDigits id' ->
  parseInt (sliceFrom id 14) = parseInt (sliceFrom id' 14) ->
  restoreDeletedEvent E id v = restoreDeletedEvent E id' v.
Proof. intros Hd Hn. unfold restoreDeletedEvent. by rewrite Hd, Hn. Qed.

Lemma restoreDeletedEvent_invalid_id (E : api) (v : vault) (id : jsstring) :
  hasFourteenDigits id = false ->
  restoreDeletedEvent E id v = (Thrown (js "Invalid event ID format"), v).
Proof. intros Hid. unfold restoreDeletedEvent. by rewrite Hid. Qed.

Lemma hasFourteenDigits_cons (c : jschar) (s : jsstring) :
  hasFourteenDigits (c :: s)
  = (14 <=? length (takeWhile is_digit (c :: s)))%nat || hasFourteenDigits s.
Proof. reflexivity. Qed.

Lemma takeWhile_length_le (p : jschar -> bool) (s : jsstring) :
  (length (takeWhile p s) <= length s)%nat.
Proof.
  induction s as [|c s IH]; [done |]. cbn [takeWhile length].
  destruct (p c); cbn [length]; lia.
Qed.

Lemma takeWhile_stop (p : jschar -> bool) (a : jsstring) (c : jschar) (r : jsstring) :
  p c = false -> (length (takeWhile p (a ++ c :: r)) <= length a)%nat.
Proof.
  intros Hc. induction a as [|x a IH]; cbn [app takeWhile length].
  - by rewrite Hc.
  - destruct (p x); cbn [length]; lia.
Qed.

Lemma hasFourteenDigits_short (s : jsstring) :
  (length s < 14)%nat -> hasFourteenDigits s = false.
Proof.
  induction s as [|c s IH]; [done |]. intros Hl. rewrite hasFourteenDigits_cons.
  cbn [length] in Hl. rewrite IH by lia. rewrite orb_false_r.
  apply Nat.leb_gt. pose proof (takeWhile_length_le is_digit (c :: s)).
  cbn [length] in *. lia.
Qed.

(** Fewer than fourteen characters before a character that is no digit
    hold no run of fourteen digits. *)
Lemma hasFourteenDigits_skip (a : jsstring) (c : jschar) (r : jsstring) :
  (length a < 14)%nat -> is_digit c = false ->
  hasFourteenDigits (a ++ c :: r) = hasFourteenDigits r.
Proof.
  intros Hl Hc. induction a as [|x a IH].
  - cbn [app]. rewrite hasFourteenDigits_cons. cbn [takeWhile]. by rewrite Hc.
  - change ((x :: a) ++ c :: r) with (x :: (a ++ c :: r)).
    rewrite hasFourteenDigits_cons. cbn [length] in Hl. rewrite IH by lia.
    assert ((14 <=? length (takeWhile is_digit (x :: (a ++ c :: r))))%nat = false) as ->;
      [| done].
    apply Nat.leb_gt.
    pose proof (takeWhile_stop is_digit (x :: a) c r Hc) as Hstop.
    cbn [length app] in Hstop. lia.
Qed.

(** The date text that [sendEventToDelete] returns is no id. *)
Lemma format_slashed_no_id (now : moment) :
  valid_moment now = true -> hasFourteenDigits (format_slashed now) = false.
Proof.
  intros Hv. destruct (valid_moment_ranges now Hv) as (Hy & Hmo & Hd & Hh & Hmi & Hs).
  destruct (zeroFill_digits 4 (year now)) as [Hly _]; [lia | simpl; lia |].
  destruct (zeroFill_digits 2 (month now)) as [Hlm _]; [lia | simpl; lia |].
  destruct (zeroFill_digits 2 (day now)) as [Hld _]; [lia | simpl; lia |].
  destruct (zeroFill_digits 2 (hour now)) as [Hlh _]; [lia | simpl; lia |].
  destruct (zeroFill_digits 2 (minute now)) as [Hli _]; [lia | simpl; lia |].
  destruct (zeroFill_digits 2 (second now)) as [Hls _]; [lia | simpl; lia |].
  unfold format_slashed.
  change (js "/") with [47]. change (js " ") with [32]. change (js ":") with [58].
  cbn [app].
  rewrite !hasFourteenDigits_skip by (done || lia).
  apply hasFourteenDigits_short. lia.
Qed.

(** The hour and the minute in the id of an entry are those of the moment
    at which it was written. *)
Lemma ledgerIdAt_time (now : moment) (old : jsstring) :
  valid_moment now = true ->
  slice (ledgerIdAt now old) 8 10 = format_HH now
  /\ slice (ledgerIdAt now old) 10 12 = format_mm now.
Proof.
  intros Hv. destruct (valid_moment_ranges now Hv) as (Hy & Hmo & Hd & Hh & Hmi & Hs).
  unfold ledgerIdAt, format_YYYYMMDDHHmmss, format_HH, format_mm.
  destruct (stamp_fields (zeroFill 4 (year now)) (zeroFill 2 (month now))
              (zeroFill 2 (day now)) (zeroFill 2 (hour now))
              (zeroFill 2 (minute now)) (zeroFill 2 (second now))
              (numberToString (nextLineNum (getAllLinesFromFile old))))
    as (_ & _ & _ & Hhour & Hminute & _);
    try (apply zeroFill_digits; [lia | simpl; lia]).
  cbv zeta in Hhour, Hminute. by rewrite Hhour, Hminute.
Qed.

(** C9 (as amended).  A record line (beginning with [- ], without line
    terminator) is sent to an existing ledger at the moment [now].
    [sendEventToDelete] returns the date text of [now], not an id, and
    [restoreDeletedEvent] called with that text fails.  Called with the id
    that was written into the entry (its hour and minute are those of
    [now], the moment of the deletion), [restoreDeletedEvent] uses the id
    for the number of the line only, so that every id with that number does
    the same; it removes the text of the entry from the ledger, and the
    daily note of the day of the id that [extractDeletedEventId] reads off
    the entry (a new note if there is none) becomes what
    [insertAfterHandler] makes of the line [- HH:MM <content>], [HH:MM]
    being the hour and minute of that id and [<content>] what
    [extractDeletedEvent] reads off the entry.  These are the time and the
    title of the record as far as the two extractors give them; where the
    id read off the entry is the one written behind [deletedAt: ], the time
    is that of the deletion. *)
Theorem delete_then_restore (E : api) (now : moment) (event : jsstring)
    (v : vault) (old : jsstring) :
  valid_moment now = true ->
  recordStart event = true ->
  forallb (fun c => negb (is_line_terminator c)) event = true ->
  v !! (getDailyNotePath E ++ js "/delete.md") = Some old ->
  dailyNotePathOf E (restoredMoment E (ledgerEntry now old event))
    <> getDailyNotePath E ++ js "/delete.md" ->
  sendEventToDelete E now event v
    = (Returned (format_slashed now),
       <[getDailyNotePath E ++ js "/delete.md" := ledgerWith now old event]> v)
  /\ restoreDeletedEvent E (format_slashed now)
       (<[getDailyNotePath E ++ js "/delete.md" := ledgerWith now old event]> v)
     = (Thrown (js "Invalid event ID format"),
        <[getDailyNotePath E ++ js "/delete.md" := ledgerWith now old event]> v)
  /\ restoreDeletedEvent E (ledgerIdAt now old)
       (<[getDailyNotePath E ++ js "/delete.md" := ledgerWith now old event]> v)
     = (Returned RestoredOne,
        <[dailyNotePathOf E (restoredMoment E (ledgerEntry now old event)) :=
            insertAfterHandler E (js "- ") (restoredEvent E (ledgerEntry now old event))
              (default (dailyNoteTemplate E (restoredMoment E (ledgerEntry now old event)))
                 (v !! dailyNotePathOf E (restoredMoment E (ledgerEntry now old event))))]>
          (<[getDailyNotePath E ++ js "/delete.md" :=
               removeFirst (ledgerWith now old event) (ledgerEntry now old event)]> v))
  /\ (forall id,
        hasFourteenDigits id = true ->
        parseInt (sliceFrom id 14) = parseInt (sliceFrom (ledgerIdAt now old) 14) ->
        restoreDeletedEvent E id
          (<[getDailyNotePath E ++ js "/delete.md" := ledgerWith now old event]> v)
        = restoreDeletedEvent E (ledgerIdAt now old)
            (<[getDailyNotePath E ++ js "/delete.md" := ledgerWith now old event]> v))
  /\ slice (ledgerIdAt now old) 8 10 = format_HH now
  /\ slice (ledgerIdAt now old) 10 12 = format_mm now
  /\ (extractDeletedEventId E (ledgerEntry now old event) = Some (ledgerIdAt now old) ->
      restoredMoment E (ledgerEntry now old event) = Valid now).
Proof.
  intros Hnow Hrs Hevent Hfile Hpath.
  destruct (ledgerIdAt_valid now old Hnow) as [Hvalid _].
  pose proof (validEventId_hasFourteenDigits _ Hvalid) as Hid.
  destruct (ledgerIdAt_time now old Hnow) as [Hhour Hminute].
  split; [by apply sendEventToDelete_existing |].
  split; [by apply restoreDeletedEvent_invalid_id, format_slashed_no_id |].
  split; [| split; [| split; [done | split; [done |]]]].
  - set (ledger := getDailyNotePath E ++ js "/delete.md") in *.
    set (v1 := <[ledger := ledgerWith now old event]> v).
    rewrite (restoreDeletedEvent_run_record E v1 _ (ledgerWith now old event)
               (ledgerEntry now old event)).
    + fold (restoredMoment E (ledgerEntry now old event)).
      fold (restoredEvent E (ledgerEntry now old event)).
      unfold v1. rewrite lookup_insert_ne by done. by rewrite insert_insert_eq.
    + exact Hid.
    + apply lookup_insert_eq.
    + by apply ledgerWith_addressed.
    + by apply ledgerEntry_record_line.
    + exact Hpath.
  - intros id Hid' Hn. apply restoreDeletedEvent_id_only; [by rewrite Hid, Hid' | done].
  - intros Hread. unfold restoredMoment. rewrite Hread. unfold ledgerIdAt.
    by apply momentFromId_stamp.
Qed.

Lemma delete_then_restore_witness :
  restoreDeletedEvent sampleApi (format_slashed (Moment 2025 9 12 10 30 0))
    (<[getDailyNotePath sampleApi ++ js "/delete.md" :=
         ledgerWith (Moment 2025 9 12 10 30 0) [] (js "- 09:00-10:00 Team sync")]>
       emptyLedgerVault)
  = (Thrown (js "Invalid event ID format"),
     <[getDailyNotePath sampleApi ++ js "/delete.md" :=
         ledgerWith (Moment 2025 9 12 10 30 0) [] (js "- 09:00-10:00 Team sync")]>
       emptyLedgerVault)
  /\ restoreDeletedEvent sampleApi (ledgerIdAt (Moment 2025 9 12 10 30 0) [])
       (<[getDailyNotePath sampleApi ++ js "/delete.md" :=
            ledgerWith (Moment 2025 9 12 10 30 0) [] (js "- 09:00-10:00 Team sync")]>
          emptyLedgerVault)
     = (Returned RestoredOne,
        <[dailyNotePathOf sampleApi
            (restoredMoment sampleApi
               (ledgerEntry (Moment 2025 9 12 10 30 0) [] (js "- 09:00-10:00 Team sync"))) :=
            insertAfterHandler sampleApi (js "- ")
              (restoredEvent sampleApi
                 (ledgerEntry (Moment 2025 9 12 10 30 0) []
                    (js "- 09:00-10:00 Team sync")))
              (default
                 (dailyNoteTemplate sampleApi
                    (restoredMoment sampleApi
                       (ledgerEntry (Moment 2025 9 12 10 30 0) []
                          (js "- 09:00-10:00 Team sync"))))
                 (emptyLedgerVault
                    !! dailyNotePathOf sampleApi
                         (restoredMoment sampleApi
                            (ledgerEntry (Moment 2025 9 12 10 30 0) []
                               (js "- 09:00-10:00 Team sync")))))]>
          (<[getDailyNotePath sampleApi ++ js "/delete.md" :=
               removeFirst
                 (ledgerWith (Moment 2025 9 12 10 30 0) [] (js "- 09:00-10:00 Team sync"))
                 (ledgerEntry (Moment 2025 9 12 10 30 0) []
                    (js "- 09:00-10:00 Team sync"))]>
             emptyLedgerVault))
  /\ slice (ledgerIdAt (Moment 2025 9 12 10 30 0) []) 8 10
     = format_HH (Moment 2025 9 12 10 30 0)
  /\ slice (ledgerIdAt (Moment 2025 9 12 10 30 0) []) 10 12
     = format_mm (Moment 2025 9 12 10 30 0).
Proof.
  destruct (delete_then_restore sampleApi (Moment 2025 9 12 10 30 0)
              (js "- 09:00-10:00 Team sync") emptyLedgerVault []
              eq_refl eq_refl eq_refl (lookup_singleton_eq _ _)
              ltac:(vm_compute; discriminate))
    as (_ & Hthrown & Hrestored & _ & Hhour & Hminute & _).
  exact (conj Hthrown (conj Hrestored (conj Hhour Hminute))).
Defined.

(** The record [- 09:00-10:00 Team sync] is deleted at 10:30.
    [sendEventToDelete] returns the text [2025/09/12 10:30:00], and
    [restoreDeletedEvent] with that text fails: nothing is restored.  The
    id written into the entry is [202509121030001]: its hour and minute are
    10:30, the time of the deletion, not 09:00, the time of the record; and
    the id [202509120900001], whose hour and minute are those of the
    record, makes [restoreDeletedEvent] do the very same, so the restored
    line does not take its time from the digits of the id it is called
    with. *)
Lemma delete_then_restore_returned_text :
  sendEventToDelete sampleApi (Moment 2025 9 12 10 30 0)
    (js "- 09:00-10:00 Team sync") emptyLedgerVault
  = (Returned (format_slashed (Moment 2025 9 12 10 30 0)),
     <[getDailyNotePath sampleApi ++ js "/delete.md" :=
         ledgerWith (Moment 2025 9 12 10 30 0) [] (js "- 09:00-10:00 Team sync")]>
       emptyLedgerVault)
  /\ format_slashed (Moment 2025 9 12 10 30 0) = js "2025/09/12 10:30:00"
  /\ ledgerWith (Moment 2025 9 12 10 30 0) [] (js "- 09:00-10:00 Team sync")
     = js "- 09:00-10:00 Team sync deletedAt: 202509121030001"
  /\ restoreDeletedEvent sampleApi (js "2025/09/12 10:30:00")
       (<[getDailyNotePath sampleApi ++ js "/delete.md" :=
            ledgerWith (Moment 2025 9 12 10 30 0) [] (js "- 09:00-10:00 Team sync")]>
          emptyLedgerVault)
     = (Thrown (js "Invalid event ID format"),
        <[getDailyNotePath sampleApi ++ js "/delete.md" :=
            ledgerWith (Moment 2025 9 12 10 30 0) [] (js "- 09:00-10:00 Team sync")]>
          emptyLedgerVault)
  /\ slice (js "202509121030001") 8 12 = js "1030"
  /\ slice (js "- 09:00-10:00 Team sync") 2 7 = js "09:00"
  /\ restoreDeletedEvent sampleApi (js "202509120900001")
       (<[getDailyNotePath sampleApi ++ js "/delete.md" :=
            ledgerWith (Moment 2025 9 12 10 30 0) [] (js "- 09:00-10:00 Team sync")]>
          emptyLedgerVault)
     = restoreDeletedEvent sampleApi (js "202509121030001")
         (<[getDailyNotePath sampleApi ++ js "/delete.md" :=
              ledgerWith (Moment 2025 9 12 10 30 0) [] (js "- 09:00-10:00 Team sync")]>
            emptyLedgerVault).
Proof.
  split; [apply sendEventToDelete_existing; apply lookup_singleton_eq |].
  split; [by vm_compute |]. split; [by vm_compute |].
  split; [apply restoreDeletedEvent_invalid_id; by vm_compute |].
  split; [by vm_compute |]. split; [by vm_compute |].
  apply restoreDeletedEvent_id_only; by vm_compute.
Qed.

(** ** updateTimeIntervalOnly as changeEvent calls it *)

(** X22.  [changeEvent] passes to [updateTimeIntervalOnly] only events that
    are not all-day tasks without time (it has returned for those before).
    For such an event [updateTimeIntervalOnly] never returns and never
    writes: it throws for the missing daily note, for the line that is not
    found, and, when the note exists and a line contains the original
    content, for the identifier [notes], which is not bound where it is
    used. *)
Theorem updateTimeIntervalOnly_never_writes (E : api)
    (eventid originalContent content eventType : jsstring)
    (originalStartDate eventStartMoment eventEndMoment : moment) (v : vault) :
  startsWith eventType (js "TASK-") && negb (hasLeadingTime originalContent) = false ->
  (v !! dailyNotePathOf E (Valid originalStartDate) = None ->
   updateTimeIntervalOnly E eventid originalContent content eventType
     originalStartDate eventStartMoment eventEndMoment v
   = (Thrown (js "Daily note not found for date: "
              ++ format_YYYY_MM_DD originalStartDate), v))
  /\ (forall fileContent,
        v !! dailyNotePathOf E (Valid originalStartDate) = Some fileContent ->
        (forall l, l ∈ getAllLinesFromFile fileContent ->
                   includes l originalContent = false) ->
        updateTimeIntervalOnly E eventid originalContent content eventType
          originalStartDate eventStartMoment eventEndMoment v
        = (Thrown (js "Could not find the event line in the file"), v))
  /\ (forall fileContent,
        v !! dailyNotePathOf E (Valid originalStartDate) = Some fileContent ->
        (exists l, l ∈ getAllLinesFromFile fileContent
                   /\ includes l originalContent = true) ->
        updateTimeIntervalOnly E eventid originalContent content eventType
          originalStartDate eventStartMoment eventEndMoment v
        = (Thrown (js "notes is not defined"), v)).
Proof.
  intros Hcase. unfold updateTimeIntervalOnly. cbv zeta. rewrite Hcase.
  change (false && _) with false. cbv iota.
  rewrite io_bind_run. unfold getDailyNote.
  split; [| split].
  - intros Hnote. by rewrite (getFirstLinkpathDest_None v _ Hnote).
  - intros fileContent Hnote Hnone.
    rewrite (getFirstLinkpathDest_Some v _ fileContent Hnote).
    rewrite io_bind_run, (vault_read_Some v _ fileContent Hnote).
    unfold updateTimeIntervalOnly_lineIndex.
    rewrite (firstLineWhere_none (fun line => includes line originalContent)); [done |].
    intros j l Hj. apply Hnone. by apply list_elem_of_lookup_2 in Hj.
  - intros fileContent Hnote (l & Hl & Hinc).
    rewrite (getFirstLinkpathDest_Some v _ fileContent Hnote).
    rewrite io_bind_run, (vault_read_Some v _ fileContent Hnote).
    unfold updateTimeIntervalOnly_lineIndex.
    destruct (firstLineWhere_inv (fun line => includes line originalContent)
                (getAllLinesFromFile fileContent) 0 ltac:(lia))
      as [[_ Hnone] | (k & line & -> & Hk & Hline & _)].
    + apply list_elem_of_lookup in Hl as [j Hj].
      specialize (Hnone j l Hj). cbv beta in Hnone. congruence.
    + assert ((0 + Z.of_nat k =? -1)%Z = false) as -> by (apply Z.eqb_neq; lia).
      cbv iota. by rewrite io_bind_run.
Qed.

Lemma updateTimeIntervalOnly_never_writes_witness :
  updateTimeIntervalOnly sampleApi (js "2025090109000001") (js "Standup")
    (js "Standup with team") (js "default") (Moment 2025 9 1 9 0 0)
    (Moment 2025 9 1 9 30 0) (Moment 2025 9 1 10 30 0)
    {[ js "2025-09-01.md" := js "- 09:00-10:00 Standup" ]}
  = (Thrown (js "notes is not defined"),
     {[ js "2025-09-01.md" := js "- 09:00-10:00 Standup" ]}).
Proof.
  apply (proj2 (proj2 (updateTimeIntervalOnly_never_writes sampleApi
                         (js "2025090109000001") (js "Standup")
                         (js "Standup with team") (js "default")
                         (Moment 2025 9 1 9 0 0) (Moment 2025 9 1 9 30 0)
                         (Moment 2025 9 1 10 30 0)
                         {[ js "2025-09-01.md" := js "- 09:00-10:00 Standup" ]}
                         eq_refl))
           (js "- 09:00-10:00 Standup")).
  - reflexivity.
  - exists (js "- 09:00-10:00 Standup"). split; [| by vm_compute].
    apply elem_of_cons. by left.
Defined.
